(** * ClimateSet causal pipeline: configuration, driver, diagnostics, conversion

    A shallow embedding of the Python sources
      - [causal/main.py]  (argument merging, [assert_args], [main]),
      - [causal/plot.py]  ([moving_average], [plot] and its helpers),
      - [causal/data_generation/convert_ncep_data/convert_netcdf_files.py]
        ([main_numpy], [main_hdf5]),
    and of the penalty scheduler that the specification describes.

    Conventions.  Python [int] is [Z].  Python [float] is IEEE 754
    binary64, module [B64]: a finite value is the rational it denotes and
    every operation rounds to nearest, ties to even; the hyperparameters
    and [moving_average] compute with it.  The cells of the NetCDF
    conversion and of the adjacency arrays are kept as rationals.  A raised
    exception is the [Raise] branch of [result].  Calls into torch, numpy's
    random state, matplotlib, the data loader, the model classes and the
    trainer are recorded as [event]s of a trace, in the order in which the
    source performs them. *)

From Stdlib Require Import ZArith QArith Qabs Qround Ascii String List Lia Lqa
     DecimalString.
From Stdlib Require PrimFloat FloatOps SpecFloat.
From stdpp Require Import gmap strings list fin_maps.

Local Open Scope string_scope.
Local Open Scope list_scope.
Local Open Scope Z_scope.

(* ===================================================================== *)
(** ** Exceptions and results                                             *)
(* ===================================================================== *)

(** The five [ValueError]s of [assert_args], by the check that raises them. *)
Inductive config_error :=
| GtFlagsWithNoGt          (* "Since no_gt==True, all other args should not use ground-truth values" *)
| LatentDims               (* "When using latent model, you need to define k and d_x ..." *)
| RatioSum                 (* "The sum of the ratio for training and validation set is higher than 1" *)
| BadDataFormat (s : string)   (* "This file format (...) is not supported ..." *)
| BadOptimizer (s : string).   (* "This optimizer type (...) is not supported ..." *)

Inductive exn :=
| ValueError (e : config_error)
| FrequencyError (s : string)      (* ValueError of convert_netcdf_to_pandas *)
| ShapeError (what : string)        (* ValueError of numpy or matplotlib *)
| IndexError
| KeyError (k : string)
| MissingLabels (labels : list string)   (* KeyError of pandas: labels that are no columns *)
| TypeError
| OverflowError                     (* "int too large to convert to float" *)
| AttributeError
| NameError (v : string)
| FileNotFoundError (p : string)
| ImportError (m : string)
| BdbQuit
| ExternalError (what : string).

Inductive result (A : Type) :=
| Ok (a : A)
| Raise (e : exn).
Arguments Ok {A} a.
Arguments Raise {A} e.

Definition rbind {A B} (r : result A) (k : A -> result B) : result B :=
  match r with Ok a => k a | Raise e => Raise e end.

Notation "'let?' x ':=' r 'in' k" := (rbind r (fun x => k))
  (at level 10, x pattern, r at level 100, k at level 200).

Definition is_ok {A} (r : result A) : bool :=
  match r with Ok _ => true | Raise _ => false end.

(* ===================================================================== *)
(** ** Python [float]: IEEE 754 binary64                                   *)
(* ===================================================================== *)

Module B64.

(** A binary64 value: a finite number, as the rational it denotes, an
    infinity or a NaN.  The sign of a zero is not kept. *)
Inductive t :=
| Fin (q : Q)
| Inf (negative : bool)
| NaN.

(** [2^k] *)
Definition pow2 (k : Z) : Q :=
  if 0 <=? k then inject_Z (2 ^ k) else 1 # Z.to_pos (2 ^ (- k)).

(** The exponent of a positive rational: [2^e <= x < 2^(e+1)]. *)
Definition ilog2 (x : Q) : Z :=
  let e := Z.log2 (Qnum x) - Z.log2 (Zpos (Qden x)) in
  if Qle_bool (pow2 e) x then e else e - 1.

(** Rounding of a rational to the nearest integer, ties to the even one. *)
Definition round_half_even (x : Q) : Z :=
  let f := Qfloor x in
  match (x - inject_Z f ?= 1 # 2)%Q with
  | Lt => f
  | Gt => f + 1
  | Eq => if Z.even f then f else f + 1
  end.

(** The distance between neighbouring binary64 values around a positive
    [x]: 53 bits of precision, and the smallest exponent -1022. *)
Definition quantum (x : Q) : Q := pow2 (Z.max (ilog2 x) (-1022) - 52).

Definition rnd_pos (x : Q) : Q :=
  (inject_Z (round_half_even (x / quantum x)) * quantum x)%Q.

(** Round to nearest, ties to even, with an unbounded exponent above. *)
Definition rnd (x : Q) : Q :=
  let x := Qred x in
  match (x ?= 0)%Q with
  | Eq => 0%Q
  | Gt => Qred (rnd_pos x)
  | Lt => Qred (- rnd_pos (- x))
  end.

(** The binary64 value of a real result: it overflows to an infinity from
    [2^1024] on. *)
Definition round (x : Q) : t :=
  let r := rnd x in
  if Qle_bool (pow2 1024) (Qabs r) then Inf (Qnum r <? 0) else Fin r.

Definition of_Z (z : Z) : t := round (inject_Z z).

(** The value of a decimal literal, as [float("0.1")] or a number of a
    JSON file: the nearest binary64 value. *)
Definition lit (q : Q) : t := round q.

Definition neg (x : t) : t :=
  match x with
  | Fin q => Fin (- q)
  | Inf s => Inf (negb s)
  | NaN => NaN
  end.

Definition add (x y : t) : t :=
  match x, y with
  | NaN, _ | _, NaN => NaN
  | Fin a, Fin b => round (a + b)
  | Inf s, Fin _ | Fin _, Inf s => Inf s
  | Inf s, Inf s' => if Bool.eqb s s' then Inf s else NaN
  end.

Definition sub (x y : t) : t := add x (neg y).

(** [x / y] as numpy divides: a zero divisor gives an infinity or a NaN. *)
Definition div (x y : t) : t :=
  match x, y with
  | NaN, _ | _, NaN => NaN
  | Fin a, Fin b =>
      if Qeq_bool b 0
      then (if Qeq_bool a 0 then NaN else Inf (Qnum a <? 0))
      else round (a / b)
  | Fin _, Inf _ => Fin 0
  | Inf s, Fin b => Inf (xorb s (Qnum b <? 0))
  | Inf _, Inf _ => NaN
  end.

(** The order of the extended reals; every comparison with a NaN is false. *)
Definition ltb (x y : t) : bool :=
  match x, y with
  | NaN, _ | _, NaN => false
  | Fin a, Fin b => negb (Qle_bool b a)
  | Fin _, Inf s => negb s
  | Inf s, Fin _ => s
  | Inf s, Inf s' => s && negb s'
  end.

Definition eqb (x y : t) : bool :=
  match x, y with
  | Fin a, Fin b => Qeq_bool a b
  | Inf s, Inf s' => Bool.eqb s s'
  | _, _ => false
  end.


(** The value of a kernel float, to compare this model with the
    arithmetic of the machine. *)
Definition of_prim (f : PrimFloat.float) : t :=
  match FloatOps.Prim2SF f with
  | SpecFloat.S754_zero _ => Fin 0
  | SpecFloat.S754_infinity s => Inf s
  | SpecFloat.S754_nan => NaN
  | SpecFloat.S754_finite s m e =>
      Fin (Qred ((if s then -1 else 1) * inject_Z (Zpos m) * pow2 e))
  end.

(** Whether an operation of this model and the operation of the kernel
    give the same value on two kernel floats. *)
Definition same_as_kernel
           (op : PrimFloat.float -> PrimFloat.float -> PrimFloat.float)
           (model : t -> t -> t) (x y : PrimFloat.float) : bool :=
  eqb (of_prim (op x y)) (model (of_prim x) (of_prim y)).

(** A rational that binary64 holds exactly. *)
Definition exact (q : Q) : Prop := round q = Fin (Qred q).

End B64.

(* ===================================================================== *)
(** ** Python values held by an argparse namespace or a JSON file         *)
(* ===================================================================== *)

#[warnings="-register-all"]
Inductive pyval :=
| PNone
| PBool (b : bool)
| PInt (z : Z)
| PFloat (f : B64.t)
| PStr (s : string)
| PList (xs : list pyval)
| PDict (kvs : list (string * pyval)).

(** [bool(v)]: what [not v] tests. *)
Definition truthy (v : pyval) : bool :=
  match v with
  | PNone => false
  | PBool b => b
  | PInt z => negb (z =? 0)
  | PFloat f => negb (B64.eqb f (B64.Fin 0))
  | PStr s => negb (String.eqb s "")
  | PList xs => match xs with [] => false | _ => true end
  | PDict kvs => match kvs with [] => false | _ => true end
  end.

Definition is_None (v : pyval) : bool :=
  match v with PNone => true | _ => false end.

(** [v != s] for a string literal [s]: only a [str] can equal a [str]. *)
Definition ne_str (v : pyval) (s : string) : bool :=
  match v with PStr t => negb (String.eqb t s) | _ => true end.

(** *** Arithmetic and comparison of values

    The numbers of Python: [int], [float], and [bool] as the ints 0 and 1.
    An operation on two ints is exact; with a float operand the int
    operand is converted, which fails beyond the range of binary64. *)
Inductive number :=
| NInt (z : Z)
| NFloat (f : B64.t).

Definition as_number (v : pyval) : option number :=
  match v with
  | PBool b => Some (NInt (if b then 1 else 0))
  | PInt z => Some (NInt z)
  | PFloat f => Some (NFloat f)
  | _ => None
  end.

Definition float_of_int (z : Z) : result B64.t :=
  match B64.of_Z z with
  | B64.Inf _ => Raise OverflowError
  | f => Ok f
  end.

Definition num_add (x y : number) : result pyval :=
  match x, y with
  | NInt a, NInt b => Ok (PInt (a + b))
  | NInt a, NFloat g => let? f := float_of_int a in Ok (PFloat (B64.add f g))
  | NFloat f, NInt b => let? g := float_of_int b in Ok (PFloat (B64.add f g))
  | NFloat f, NFloat g => Ok (PFloat (B64.add f g))
  end.

Definition num_sub (x y : number) : result pyval :=
  match x, y with
  | NInt a, NInt b => Ok (PInt (a - b))
  | NInt a, NFloat g => let? f := float_of_int a in Ok (PFloat (B64.sub f g))
  | NFloat f, NInt b => let? g := float_of_int b in Ok (PFloat (B64.sub f g))
  | NFloat f, NFloat g => Ok (PFloat (B64.sub f g))
  end.

(** The order of numbers; an int and a float are compared by value,
    without conversion. *)
Definition num_ltb (x y : number) : bool :=
  match x, y with
  | NInt a, NInt b => a <? b
  | NInt a, NFloat g => B64.ltb (B64.Fin (inject_Z a)) g
  | NFloat f, NInt b => B64.ltb f (B64.Fin (inject_Z b))
  | NFloat f, NFloat g => B64.ltb f g
  end.

Definition num_eqb (x y : number) : bool :=
  match x, y with
  | NInt a, NInt b => a =? b
  | NInt a, NFloat g => B64.eqb (B64.Fin (inject_Z a)) g
  | NFloat f, NInt b => B64.eqb f (B64.Fin (inject_Z b))
  | NFloat f, NFloat g => B64.eqb f g
  end.

(** [a + b]: numbers add, two strings and two lists concatenate. *)
Definition py_add (a b : pyval) : result pyval :=
  match as_number a, as_number b with
  | Some x, Some y => num_add x y
  | _, _ =>
      match a, b with
      | PStr s, PStr t => Ok (PStr (String.append s t))
      | PList xs, PList ys => Ok (PList (xs ++ ys))
      | _, _ => Raise TypeError
      end
  end.

(** [a - b], for the values of a namespace: numbers only. *)
Definition py_sub (a b : pyval) : result pyval :=
  match as_number a, as_number b with
  | Some x, Some y => num_sub x y
  | _, _ => Raise TypeError
  end.

(** [v == z], [v > z] and [v <= z] for an int literal [z]: a value that
    is no number is never equal to an int and cannot be ordered with one. *)
Definition py_eq_int (v : pyval) (z : Z) : bool :=
  match as_number v with
  | Some x => num_eqb x (NInt z)
  | None => false
  end.

Definition py_gt_int (v : pyval) (z : Z) : result bool :=
  match as_number v with
  | Some x => Ok (num_ltb (NInt z) x)
  | None => Raise TypeError
  end.

Definition py_le_int (v : pyval) (z : Z) : result bool :=
  match as_number v with
  | Some x => Ok (num_ltb x (NInt z) || num_eqb x (NInt z))
  | None => Raise TypeError
  end.

(** [a > b] for two numbers. *)
Definition py_gt_num (a b : pyval) : result bool :=
  match as_number a, as_number b with
  | Some x, Some y => Ok (num_ltb y x)
  | _, _ => Raise TypeError
  end.

(** [os.path.join(a, b)] on POSIX. *)
Definition starts_with_slash (s : string) : bool :=
  match s with String c _ => Ascii.eqb c "/"%char | EmptyString => false end.

Fixpoint ends_with_slash (s : string) : bool :=
  match s with
  | EmptyString => false
  | String c EmptyString => Ascii.eqb c "/"%char
  | String _ r => ends_with_slash r
  end.

Definition path_join (a b : string) : string :=
  if starts_with_slash b then b
  else if String.eqb a "" || ends_with_slash a then String.append a b
  else String.append a (String.append "/" b).

(** [str(z)] for an [int]. *)
Definition str_of_int (z : Z) : string := NilZero.string_of_int (Z.to_int z).

(* ===================================================================== *)
(** ** The argument parser of [main.py]                                    *)
(* ===================================================================== *)

(** [Store d]: an option with a value, absent gives [d] ([None] unless a
    [default=] is written); [StoreTrue]: a flag, absent gives [False]. *)
Inductive action :=
| Store (default : pyval)
| StoreTrue.

Definition parser_arguments : list (string * action) :=
  [ ("exp_path", Store (PStr "causal_climate_exp"));
    ("config_path", Store (PStr "default_params.json"));
    ("use_data_config", StoreTrue);
    ("exp_id", Store PNone);
    ("debug_gt_z", StoreTrue);
    ("debug_gt_w", StoreTrue);
    ("debug_gt_graph", StoreTrue);
    ("data_path", Store PNone);
    ("data_format", Store PNone);
    ("no_gt", StoreTrue);
    ("latent", StoreTrue);
    ("coeff_kl", Store PNone);
    ("d_z", Store PNone);
    ("d_x", Store PNone);
    ("instantaneous", StoreTrue);
    ("tau", Store PNone);
    ("tau_neigh", Store PNone);
    ("ratio_train", Store PNone);
    ("ratio_valid", Store PNone);
    ("batch_size", Store PNone);
    ("num_hidden", Store PNone);
    ("num_layers", Store PNone);
    ("num_output", Store PNone);
    ("optimizer", Store PNone);
    ("reg_coeff", Store PNone);
    ("reg_coeff_connect", Store PNone);
    ("lr", Store PNone);
    ("random_seed", Store PNone);
    ("hard_gumbel", StoreTrue);
    ("ortho_mu_init", Store PNone);
    ("ortho_mu_mult_factor", Store PNone);
    ("ortho_omega_gamma", Store PNone);
    ("ortho_omega_mu", Store PNone);
    ("ortho_h_threshold", Store PNone);
    ("ortho_min_iter_convergence", Store PNone);
    ("acyclic_mu_init", Store PNone);
    ("acyclic_mu_mult_factor", Store PNone);
    ("acyclic_omega_gamma", Store PNone);
    ("acyclic_omega_mu", Store PNone);
    ("acyclic_h_threshold", Store PNone);
    ("acyclic_min_iter_convergence", Store PNone);
    ("mu_acyclic_init", Store PNone);
    ("h_acyclic_threshold", Store PNone);
    ("max_iteration", Store PNone);
    ("patience", Store PNone);
    ("patience_post_thresh", Store PNone);
    ("valid_freq", Store PNone);
    ("plot_freq", Store PNone);
    ("plot_through_time", StoreTrue);
    ("print_freq", Store PNone);
    ("gpu", StoreTrue);
    ("float", StoreTrue) ].

(** The command line after argparse's type conversion: the options the user
    wrote, by destination name.  A flag that is written maps to [True]. *)
Definition parse_one (cli : gmap string pyval) (da : string * action) : string * pyval :=
  match cli !! da.1, da.2 with
  | Some v, Store _ => (da.1, v)
  | Some _, StoreTrue => (da.1, PBool true)
  | None, Store d => (da.1, d)
  | None, StoreTrue => (da.1, PBool false)
  end.

Definition parse_args (cli : gmap string pyval) : gmap string pyval :=
  list_to_map (map (parse_one cli) parser_arguments).

(** The loop of lines 292-294:
    [if default_params[key] is None or not default_params[key]:
         default_params[key] = val]. *)
Definition merge_item (dp : gmap string pyval) (kv : string * pyval)
  : result (gmap string pyval) :=
  match dp !! kv.1 with
  | None => Raise (KeyError kv.1)
  | Some cur =>
      if is_None cur || negb (truthy cur) then Ok (<[kv.1 := kv.2]> dp) else Ok dp
  end.

Fixpoint merge_params (dp : gmap string pyval) (params : list (string * pyval))
  : result (gmap string pyval) :=
  match params with
  | [] => Ok dp
  | kv :: rest => let? dp' := merge_item dp kv in merge_params dp' rest
  end.

(** A JSON object read by [json.load]: its items in file order, keys distinct. *)
Definition json_object := list (string * pyval).

(** The files a run may read, by path. *)
Definition json_files := string -> option json_object.

Definition read_json (fs : json_files) (p : string) : result json_object :=
  match fs p with
  | Some o => Ok o
  | None => Raise (FileNotFoundError p)
  end.

(** Lines 285-295. *)
Definition load_config (fs : json_files) (args : gmap string pyval)
  : result (gmap string pyval) :=
  match args !! "config_path" with
  | None => Raise AttributeError
  | Some cp =>
      if ne_str cp "" then
        match cp with
        | PStr p => let? params := read_json fs p in merge_params args params
        | _ => Raise TypeError
        end
      else Ok args
  end.


(** Lines 297-309.  [args.use_data_config] is the flag of [--use-data-config]
    (a [bool]); the source compares it with the empty string. *)
Definition data_config (fs : json_files) (args : gmap string pyval)
  : result (gmap string pyval) :=
  match args !! "use_data_config" with
  | None => Raise AttributeError
  | Some u =>
      if ne_str u "" then
        match args !! "data_path" with
        | None => Raise AttributeError
        | Some (PStr dp) =>
            let? items := read_json fs (path_join dp "data_params.json") in
            let params : gmap string pyval := list_to_map items in
            match params !! "d_x" with
            | None => Raise (KeyError "d_x")
            | Some dx =>
                let args1 := <["d_x" := dx]> args in
                let? args2 :=
                  match params !! "latent" with
                  | Some l =>
                      let args' := <["latent" := l]> args1 in
                      if truthy l then
                        match params !! "d_z" with
                        | Some dz => Ok (<["d_z" := dz]> args')
                        | None => Raise (KeyError "d_z")
                        end
                      else Ok args'
                  | None => Ok args1
                  end in
                let args3 :=
                  match params !! "tau" with
                  | Some t => <["tau" := t]> args2
                  | None => args2
                  end in
                Ok (match params !! "neighborhood" with
                    | Some n => <["tau_neigh" := n]> args3
                    | None => args3
                    end)
            end
        | Some _ => Raise TypeError
        end
      else Ok args
  end.



(* ===================================================================== *)
(** ** The hyperparameter object at its declared types                     *)
(* ===================================================================== *)

(** [Bunch]: the attributes that [assert_args] and [main] read.  The
    flags, the strings and the ints that [main] computes with are read at
    the types the parser declares for them.  The two ratios and the two
    dimensions are kept as the values they are: the parser leaves them
    [None] when the option is not written, and a JSON file can give any
    value.  [others] keeps the whole namespace, which
    [json.dump(vars(hp))] writes and the trainer reads. *)
Record Bunch := {
  exp_path : string;
  exp_id : option Z;
  debug_gt_z : bool;
  debug_gt_w : bool;
  debug_gt_graph : bool;
  data_path : string;
  data_format : string;
  no_gt : bool;
  latent : bool;
  coeff_kl : Q;
  d_z : pyval;
  d_x : pyval;
  instantaneous : bool;
  tau : Z;
  tau_neigh : Z;
  ratio_train : pyval;
  ratio_valid : pyval;
  num_hidden : Z;
  num_layers : Z;
  optimizer : string;
  random_seed : Z;
  hard_gumbel : bool;
  gpu : bool;
  float : bool;
  others : gmap string pyval
}.

Definition set_ratio_valid (v : pyval) (a : Bunch) : Bunch :=
  {| exp_path := exp_path a; exp_id := exp_id a; debug_gt_z := debug_gt_z a;
     debug_gt_w := debug_gt_w a; debug_gt_graph := debug_gt_graph a;
     data_path := data_path a; data_format := data_format a; no_gt := no_gt a;
     latent := latent a; coeff_kl := coeff_kl a; d_z := d_z a; d_x := d_x a;
     instantaneous := instantaneous a; tau := tau a; tau_neigh := tau_neigh a;
     ratio_train := ratio_train a; ratio_valid := v;
     num_hidden := num_hidden a; num_layers := num_layers a;
     optimizer := optimizer a; random_seed := random_seed a;
     hard_gumbel := hard_gumbel a; gpu := gpu a; float := float a;
     others := others a |}.

Definition set_exp_path (p : string) (a : Bunch) : Bunch :=
  {| exp_path := p; exp_id := exp_id a; debug_gt_z := debug_gt_z a;
     debug_gt_w := debug_gt_w a; debug_gt_graph := debug_gt_graph a;
     data_path := data_path a; data_format := data_format a; no_gt := no_gt a;
     latent := latent a; coeff_kl := coeff_kl a; d_z := d_z a; d_x := d_x a;
     instantaneous := instantaneous a; tau := tau a; tau_neigh := tau_neigh a;
     ratio_train := ratio_train a; ratio_valid := ratio_valid a;
     num_hidden := num_hidden a; num_layers := num_layers a;
     optimizer := optimizer a; random_seed := random_seed a;
     hard_gumbel := hard_gumbel a; gpu := gpu a; float := float a;
     others := others a |}.



(* ===================================================================== *)
(** ** [assert_args]                                                       *)
(* ===================================================================== *)

Inductive warning :=
| WarnGtZWithoutLatent   (* "Are you sure you want to use gt_z even if you don't have latents" *)
| WarnDzAboveDx.         (* "Are you sure you want to have a higher dimension for k than d_x" *)

(** Line 146. *)
Definition gt_flags_conflict (args : Bunch) : bool :=
  no_gt args && (debug_gt_graph args || debug_gt_z args || debug_gt_w args).

(** Line 149: [d_z is None or d_x is None or d_z <= 0 or d_x <= 0], from
    left to right; a comparison is evaluated only if nothing before it
    holds. *)
Definition dims_missing_or_nonpositive (args : Bunch) : result bool :=
  if is_None (d_z args) then Ok true
  else if is_None (d_x args) then Ok true
  else
    let? z := py_le_int (d_z args) 0 in
    if z then Ok true else py_le_int (d_x args) 0.

Definition latent_dims_invalid (args : Bunch) : result bool :=
  if latent args then dims_missing_or_nonpositive args else Ok false.

(** Lines 152-153. *)
Definition derive_ratio_valid (args : Bunch) : result Bunch :=
  if py_eq_int (ratio_valid args) 0
  then let? v := py_sub (PInt 1) (ratio_train args) in Ok (set_ratio_valid v args)
  else Ok args.

(** Line 154. *)
Definition ratio_sum_exceeds (args : Bunch) : result bool :=
  let? s := py_add (ratio_train args) (ratio_valid args) in py_gt_int s 1.

Definition supported_dataformat : list string := ["numpy"; "hdf5"].
Definition supported_optimizer : list string := ["sgd"; "rmsprop"].

Definition str_in (s : string) (l : list string) : bool :=
  existsb (String.eqb s) l.

(** Lines 167-171.  Line 170 is reached with [latent] only after line 149
    has compared both dimensions with 0, so both are numbers there. *)
Definition arg_warnings (args : Bunch) : result (list warning) :=
  let? above :=
    if latent args then py_gt_num (d_z args) (d_x args) else Ok false in
  Ok ((if negb (latent args) && debug_gt_z args then [WarnGtZWithoutLatent] else [])
      ++ (if above then [WarnDzAboveDx] else [])).

Definition assert_args (args : Bunch) : result (Bunch * list warning) :=
  if gt_flags_conflict args then Raise (ValueError GtFlagsWithNoGt)
  else
    let? bad := latent_dims_invalid args in
    if bad then Raise (ValueError LatentDims)
    else
      let? args := derive_ratio_valid args in
      let? over := ratio_sum_exceeds args in
      if over then Raise (ValueError RatioSum)
      else if negb (str_in (data_format args) supported_dataformat)
      then Raise (ValueError (BadDataFormat (data_format args)))
      else if negb (str_in (optimizer args) supported_optimizer)
      then Raise (ValueError (BadOptimizer (optimizer args)))
      else let? ws := arg_warnings args in Ok (args, ws).

(* ===================================================================== *)
(** ** [main]: the driver, as a trace of its calls                         *)
(* ===================================================================== *)

(** Which model class line 78 or line 89 constructs. *)
Inductive model_class := TSDCD | LatentTSDCD.

(** One constructor per call of [main] that leaves the function: the seeds,
    the default tensor type, the directories, the data loader, the model,
    the two JSON files, the trainer, the debugger and the final print. *)
Inductive event :=
| TorchManualSeed (seed : Z)
| NumpyRandomSeed (seed : Z)
| SetDefaultTensorType (t : string)
| Makedirs (p : string)
| NewDataLoader (hp : Bunch)
| NewModel (c : model_class) (num_input d : Z) (hp : Bunch)
| WriteParams (p : string) (hp : Bunch)
| NewTrainer (c : model_class)
| TrainWithQPM
| SetTrace
| GetAdj
| PrintErrors (errors : gmap string pyval)
| WriteResults (p : string) (errors : gmap string pyval).

(** A computation appends to the trace and returns or raises. *)
Definition prog (E A : Type) := list E -> list E * result A.

Definition pret {E A} (a : A) : prog E A := fun tr => (tr, Ok a).

Definition pbind {E A B} (c : prog E A) (k : A -> prog E B) : prog E B :=
  fun tr =>
    match c tr with
    | (tr', Ok a) => k a tr'
    | (tr', Raise e) => (tr', Raise e)
    end.

Definition emit {E} (e : E) : prog E unit := fun tr => (tr ++ [e], Ok tt).

Definition lift {E A} (r : result A) : prog E A := fun tr => (tr, r).

Definition when {E} (b : bool) (c : prog E unit) : prog E unit :=
  if b then c else pret tt.

(** [for x in xs: body x] *)
Fixpoint for_each {E A} (xs : list A) (body : A -> prog E unit) : prog E unit :=
  match xs with
  | [] => pret tt
  | x :: rest => pbind (body x) (fun _ => for_each rest body)
  end.

Declare Scope prog_scope.
Delimit Scope prog_scope with prog.
Notation "x <- c ;; k" := (pbind c (fun x => k))
  (at level 100, c at next level, right associativity) : prog_scope.
Notation "c ;; k" := (pbind c (fun _ => k))
  (at level 100, right associativity) : prog_scope.
Local Open Scope prog_scope.

Section Driver.

(** The arrays of the trainer and the functions of the [metrics] module,
    which [main.py] imports. *)
Variable ndarray : Type.
Variable edge_errors : ndarray -> ndarray -> gmap string pyval.
Variable shd : ndarray -> ndarray -> pyval.
Variable f1_score : ndarray -> ndarray -> pyval.

(** What the world outside [main] answers during one run. *)
Record env := {
  path_exists : string -> bool;            (* os.path.exists *)
  dataloader_d : result Z;                 (* DataLoader(...), then x.shape[2] *)
  model_init : result unit;                (* TSDCD(...) or LatentTSDCD(...) *)
  trainer_init : result unit;              (* Training(...) or TrainingLatent(...) *)
  train_with_QPM : result (ndarray * ndarray);
      (* on return: get_adj() reshaped to gt_dag's shape, and trainer.gt_dag *)
  set_trace : result unit                  (* __import__('ipdb').set_trace() *)
}.

(** Lines 42-51. *)
Definition default_tensor_type (hp : Bunch) : string :=
  if gpu hp then
    if float hp then "torch.cuda.FloatTensor" else "torch.cuda.DoubleTensor"
  else
    if float hp then "torch.FloatTensor" else "torch.DoubleTensor".

(** f"exp{args.exp_id}" *)
Definition exp_dir (hp : Bunch) : string :=
  String.append "exp"
    match exp_id hp with Some i => str_of_int i | None => "None" end.

(** Lines 72-75. *)
Definition num_input_of (hp : Bunch) (d : Z) : Z :=
  if instantaneous hp
  then d * (tau hp + 1) * (tau_neigh hp * 2 + 1)
  else d * tau hp * (tau_neigh hp * 2 + 1).

Definition class_of (hp : Bunch) : model_class :=
  if negb (latent hp) then TSDCD else LatentTSDCD.

(** Lines 125-137.  The reshape of the learned adjacency, the three
    metrics and [json.dump] are taken to return: what is proved of the
    results record says when it can be written, not that these calls
    succeed. *)
Definition save_final_results (w : env) (hp : Bunch) (out : ndarray * ndarray)
  : prog event unit :=
  when (negb (no_gt hp))
    (emit SetTrace ;;
     lift (set_trace w) ;;
     let gt_dag := out.2 in
     emit GetAdj ;;
     let learned_dag := out.1 in
     let errors := edge_errors learned_dag gt_dag in
     let shd_v := shd learned_dag gt_dag in
     let f1 := f1_score learned_dag gt_dag in
     let errors := <["shd" := shd_v]> errors in
     let errors := <["f1" := f1]> errors in
     emit (PrintErrors errors) ;;
     emit (WriteResults (path_join (exp_path hp) "results.json") errors)).

(** [main(hp)].  Line 54 assigns to the module-level [args], which is the
    object passed as [hp], so [hp.exp_path] is the joined path from there on. *)
Definition main (w : env) (hp : Bunch) : prog event unit :=
  emit (TorchManualSeed (random_seed hp)) ;;
  emit (NumpyRandomSeed (random_seed hp)) ;;
  emit (SetDefaultTensorType (default_tensor_type hp)) ;;
  let hp := set_exp_path (path_join (exp_path hp) (exp_dir hp)) hp in
  when (negb (path_exists w (exp_path hp))) (emit (Makedirs (exp_path hp))) ;;
  emit (NewDataLoader hp) ;;
  d <- lift (dataloader_d w) ;;
  let num_input := num_input_of hp d in
  emit (NewModel (class_of hp) num_input d hp) ;;
  lift (model_init w) ;;
  let save_path := path_join (exp_path hp) "train" in
  when (negb (path_exists w save_path)) (emit (Makedirs save_path)) ;;
  emit (WriteParams (path_join (exp_path hp) "params.json") hp) ;;
  emit (NewTrainer (class_of hp)) ;;
  lift (trainer_init w) ;;
  emit TrainWithQPM ;;
  out <- lift (train_with_QPM w) ;;
  save_final_results w hp out.

(** Lines 311-313: [args = assert_args(args)] and then [main(args)]. *)
Definition checked_main (w : env) (args : Bunch) : prog event unit :=
  r <- lift (assert_args args) ;;
  main w r.1.

Definition run (w : env) (args : Bunch) : list event * result unit :=
  checked_main w args [].

End Driver.

Arguments path_exists {ndarray} _ _.
Arguments dataloader_d {ndarray} _.
Arguments model_init {ndarray} _.
Arguments trainer_init {ndarray} _.
Arguments train_with_QPM {ndarray} _.
Arguments set_trace {ndarray} _.
Arguments save_final_results {ndarray} _ _ _ _ _ _.
Arguments main {ndarray} _ _ _ _ _.
Arguments checked_main {ndarray} _ _ _ _ _.
Arguments run {ndarray} _ _ _ _ _.

(* ===================================================================== *)
(** ** numpy, as far as [plot.py] uses it                                  *)
(* ===================================================================== *)

(** A bound of a slice: a negative bound counts from the end, then both are
    clamped to the length. *)
Definition slice_bound (len i : Z) : Z :=
  if i <? 0 then Z.max (i + len) 0 else Z.min i len.

(** [l[start:stop]], either bound possibly omitted. *)
Definition py_slice {A} (l : list A) (start stop : option Z) : list A :=
  let len := Z.of_nat (length l) in
  let s := match start with Some i => slice_bound len i | None => 0 end in
  let e := match stop with Some i => slice_bound len i | None => len end in
  take (Z.to_nat (e - s)) (drop (Z.to_nat s) l).

(** The sum of a list of numbers. *)
Definition Qsum (l : list Q) : Q := fold_right Qplus 0%Q l.

(** [np.cumsum(a, dtype=float)]: the running sums in binary64, each the
    rounded sum of the one before and the next value. *)
Fixpoint cumsum_from (acc : B64.t) (a : list B64.t) : list B64.t :=
  match a with
  | [] => []
  | x :: rest => B64.add acc x :: cumsum_from (B64.add acc x) rest
  end.

Definition cumsum (a : list B64.t) : list B64.t :=
  match a with
  | [] => []
  | x :: rest => x :: cumsum_from x rest
  end.

(** [x - y] on one-dimensional arrays, with numpy's broadcasting. *)
Definition sub1 (x y : list B64.t) : result (list B64.t) :=
  if (length x =? length y)%nat then Ok (zip_with B64.sub x y)
  else
    match x, y with
    | [x0], _ => Ok (map (fun yi => B64.sub x0 yi) y)
    | _, [y0] => Ok (map (fun xi => B64.sub xi y0) x)
    | _, _ => Raise (ShapeError "operands could not be broadcast together")
    end.

(** [ret[n:] = v] *)
Definition assign_from (ret : list B64.t) (n : Z) (v : list B64.t)
  : result (list B64.t) :=
  let s := Z.to_nat (slice_bound (Z.of_nat (length ret)) n) in
  let target := (length ret - s)%nat in
  if (length v =? target)%nat then Ok (take s ret ++ v)
  else
    match v with
    | [v0] => Ok (take s ret ++ replicate target v0)
    | _ => Raise (ShapeError "could not broadcast input array")
    end.

(** [moving_average] (plot.py, lines 8-12), in binary64 as numpy computes
    it: the running sums, their differences and the division by [n] each
    round.  For [n = 0] the assignment raises unless [a] is empty, so no
    element is ever divided by zero. *)
Definition moving_average (a : list B64.t) (n : Z) : result (list B64.t) :=
  let ret := cumsum a in
  let? diff := sub1 (py_slice ret (Some n) None) (py_slice ret None (Some (- n))) in
  let? ret := assign_from ret n diff in
  Ok (map (fun x => B64.div x (B64.of_Z n)) (py_slice ret (Some (n - 1)) None)).

(** An n-dimensional array: its shape and its elements in row-major order. *)
Record ndarray := { shape : list Z; data : list Q }.

Definition size_of (sh : list Z) : Z := fold_right Z.mul 1 sh.

(** [a.shape[k]] *)
Definition shape_at (a : ndarray) (k : nat) : result Z :=
  match shape a !! k with
  | Some n => Ok n
  | None => Raise IndexError
  end.

(** [a.reshape(sh)], one entry of [sh] possibly [-1]. *)
Definition np_reshape (a : ndarray) (sh : list Z) : result ndarray :=
  let total := Z.of_nat (length (data a)) in
  let known := size_of (filter (fun d => d ≠ -1) sh) in
  if negb (forallb (fun d => -1 <=? d) sh)
  then Raise (ShapeError "negative dimensions not allowed")
  else
    match length (filter (fun d => d = -1) sh) with
    | O =>
        if known =? total then Ok {| shape := sh; data := data a |}
        else Raise (ShapeError "cannot reshape array")
    | S O =>
        if (known =? 0) || negb (total mod known =? 0)
        then Raise (ShapeError "cannot reshape array")
        else Ok {| shape := map (fun d => if d =? -1 then total / known else d) sh;
                   data := data a |}
    | _ => Raise (ShapeError "can only specify one unknown dimension")
    end.

(** [a[i]]: the sub-array at index [i] of the first axis. *)
Definition np_item (a : ndarray) (i : Z) : result ndarray :=
  match shape a with
  | [] => Raise IndexError
  | n :: rest =>
      let j := if i <? 0 then i + n else i in
      if (0 <=? j) && (j <? n) then
        let sz := Z.to_nat (size_of rest) in
        Ok {| shape := rest;
              data := take sz (drop (Z.to_nat j * sz) (data a)) |}
      else Raise IndexError
  end.

(** [a[i0, i1, ...]] *)
Fixpoint np_index (a : ndarray) (idx : list Z) : result ndarray :=
  match idx with
  | [] => Ok a
  | i :: rest => let? b := np_item a i in np_index b rest
  end.

Fixpoint collect {A} (rs : list (result A)) : result (list A) :=
  match rs with
  | [] => Ok []
  | r :: rest => let? x := r in let? xs := collect rest in Ok (x :: xs)
  end.

(** [a[start:stop, i1, i2, ...]]: the sub-arrays at [idx] of the rows that
    the slice selects, stacked.  The indices are checked against the shape
    even when the slice selects no row. *)
Definition np_slice_index (a : ndarray) (start stop : Z) (idx : list Z)
  : result ndarray :=
  let? n := shape_at a 0 in
  let? _ := np_index {| shape := drop 1 (shape a); data := data a |} idx in
  let rows := py_slice (seqZ 0 n) (Some start) (Some stop) in
  let? subs := collect (map (fun s => np_index a (s :: idx)) rows) in
  Ok {| shape := Z.of_nat (length rows) :: drop (length idx) (drop 1 (shape a));
        data := concat (map data subs) |}.

(** Broadcasting of two shapes, aligned at their last axes. *)
Fixpoint broadcast_rev (x y : list Z) : option (list Z) :=
  match x, y with
  | [], _ => Some y
  | _, [] => Some x
  | a :: x', b :: y' =>
      r ← broadcast_rev x' y';
      if a =? b then Some (a :: r)
      else if a =? 1 then Some (b :: r)
      else if b =? 1 then Some (a :: r)
      else None
  end.

Definition broadcast_shapes (x y : list Z) : option (list Z) :=
  reverse <$> broadcast_rev (reverse x) (reverse y).

Fixpoint all_indices (sh : list Z) : list (list Z) :=
  match sh with
  | [] => [[]]
  | n :: rest => i ← seqZ 0 n; map (cons i) (all_indices rest)
  end.

Definition ravel (sh idx : list Z) : Z :=
  fold_left (fun acc ni => acc * ni.1 + ni.2) (zip sh idx) 0.

Definition np_get (a : ndarray) (idx : list Z) : Q :=
  nth (Z.to_nat (ravel (shape a) idx)) (data a) 0%Q.

(** The index into an operand of shape [sh] for index [idx] of the result. *)
Definition project (sh idx : list Z) : list Z :=
  zip_with (fun n i => if n =? 1 then 0 else i) sh
           (drop (length idx - length sh) idx).

Definition np_sub (a b : ndarray) : result ndarray :=
  match broadcast_shapes (shape a) (shape b) with
  | None => Raise (ShapeError "operands could not be broadcast together")
  | Some sh =>
      Ok {| shape := sh;
            data := map (fun idx => (np_get a (project (shape a) idx)
                                     - np_get b (project (shape b) idx))%Q)
                        (all_indices sh) |}
  end.

Definition np_abs (a : ndarray) : ndarray :=
  {| shape := shape a; data := map Qabs (data a) |}.

(** [bool(a)] for an array or an array scalar. *)
Definition np_truth (a : ndarray) : result bool :=
  match data a with
  | [] => Ok false
  | [x] => Ok (negb (Qeq_bool x 0))
  | _ => Raise (ShapeError "the truth value of an array is ambiguous")
  end.

(* ===================================================================== *)
(** ** [plot.py]                                                           *)
(* ===================================================================== *)

Module Plot.

(** The calls into matplotlib, seaborn and ipdb. *)
Inductive event :=
| Gca
| SetYscale (s : string)
| PltPlot (ys : list B64.t) (label : string)
| Title (s : string)
| Legend
| Figure
| Suptitle (s : string)
| Subplots (nrows ncols : Z)
| Subfigures (nrows ncols : Z)
| SetTitle (ax : Z) (s : string)
| Heatmap (m : ndarray) (ax : Z)
| AxPlot (xs : list Z) (ys : ndarray) (fmt : option string) (zorder : option Z)
| Savefig (p : string)
| Close
| Clf
| SetTrace.

(** What [plot] reads of the trainer. *)
Record Learner := {
  train_loss_list : list B64.t;
  valid_loss_list : list B64.t;
  hp : Bunch;
  model_adj : ndarray;      (* model.get_adj().detach().numpy() *)
  model_w : ndarray;        (* model.encoder_decoder.w.detach().numpy() *)
  gt_dag : ndarray;
  gt_w : ndarray;
  adj_tt : ndarray;
  adj_w_tt : ndarray;
  iteration : Z;
  latent : bool
}.

Section WithDebugger.

(** How a session of [ipdb.set_trace()] ends: it returns when the user
    continues, and raises otherwise. *)
Variable set_trace : result unit.

(** Lines 45-63. *)
Definition plot_learning_curves (train_loss valid_loss : list B64.t) (path : string)
  : prog event unit :=
  t_loss <- lift (moving_average (py_slice train_loss (Some 10) None) 10) ;;
  v_loss <- lift (moving_average (py_slice valid_loss (Some 10) None) 10) ;;
  emit Gca ;;
  emit (SetYscale "log") ;;
  emit (PltPlot t_loss "train") ;;
  emit (PltPlot v_loss "valid") ;;
  emit (Title "Learning curves") ;;
  emit Legend ;;
  emit (Savefig (path_join path "loss.png")) ;;
  emit Close.

Definition subfig_names : list string :=
  ["Learned"; "Ground Truth"; "Difference: Learned - GT"].

(** [subplots(nrows, ncols)]: matplotlib refuses a grid without cells. *)
Definition subplots (nrows ncols : Z) : prog event unit :=
  if (nrows <=? 0) || (ncols <=? 0)
  then lift (Raise (ShapeError "number of rows and columns must be positive"))
  else emit (Subplots nrows ncols).

(** [sns.heatmap(m, ax=...)]: seaborn draws two-dimensional data and
    raises for data with another number of axes. *)
Definition heatmap (m : ndarray) (ax : Z) : prog event unit :=
  match shape m with
  | [_; _] => emit (Heatmap m ax)
  | _ => lift (Raise (ShapeError "heatmap data must be two-dimensional"))
  end.

(** The [if row == 0 / elif row == 1 / elif row == 2] of both matrix
    plots: one heatmap of slice [idx] on axes [ax]. *)
Definition heatmap_of_row (mat1 mat2 : ndarray) (row idx ax : Z)
  : prog event unit :=
  if row =? 0 then
    m <- lift (np_item mat1 idx) ;; heatmap m ax
  else if row =? 1 then
    m <- lift (np_item mat2 idx) ;; heatmap m ax
  else if row =? 2 then
    m1 <- lift (np_item mat1 idx) ;;
    m2 <- lift (np_item mat2 idx) ;;
    m <- lift (np_sub m1 m2) ;;
    heatmap m ax
  else pret tt.

(** The common body of [plot_adjacency_matrix] and
    [plot_adjacency_matrix_w]; they differ in the axes titles only. *)
Definition adjacency_figure (axes_title : Z -> string)
           (mat1 mat2 : ndarray) (path name_suffix : string)
  : prog event unit :=
  n <- lift (shape_at mat1 0) ;;
  emit Figure ;;
  emit (Suptitle "Adjacency matrices: learned vs ground-truth") ;;
  (if n =? 1 then
     subplots 3 1 ;;
     for_each (seqZ 0 3) (fun row => heatmap_of_row mat1 mat2 row 0 row)
   else
     emit (Subfigures 3 1) ;;
     for_each (seqZ 0 3) (fun row =>
       emit (Suptitle (nth (Z.to_nat row) subfig_names "")) ;;
       subplots 1 n ;;
       for_each (seqZ 0 n) (fun i =>
         emit (SetTitle i (axes_title i)) ;;
         heatmap_of_row mat1 mat2 row (n - i - 1) i))) ;;
  emit (Savefig (path_join path
          (String.append "adjacency_" (String.append name_suffix ".png")))) ;;
  emit Close.

(** Lines 66-114; the axes title is f"t - {i+1}". *)
Definition plot_adjacency_matrix :=
  adjacency_figure (fun i => String.append "t - " (str_of_int (i + 1))).

(** Lines 117-165; the axes title is f"d = {i}". *)
Definition plot_adjacency_matrix_w :=
  adjacency_figure (fun i => String.append "d = " (str_of_int i)).

(** [ax1.plot(range(1, t), ys, ...)]: matplotlib refuses [x] and [y] of
    different first dimensions. *)
Definition ax_plot (t : Z) (ys : ndarray) (fmt : option string) (zorder : option Z)
  : prog event unit :=
  let xs := seqZ 1 (t - 1) in
  match shape ys with
  | n :: _ =>
      if n =? Z.of_nat (length xs) then emit (AxPlot xs ys fmt zorder)
      else lift (Raise (ShapeError "x and y must have same first dimension"))
  | [] => lift (Raise (ShapeError "x and y must have same first dimension"))
  end.

Definition time_figure_name (name_suffix : string) : string :=
  String.append "adjacency_time_" (String.append name_suffix ".png").

(** Lines 167-196. *)
Definition plot_adjacency_through_time (w_adj gt_dag : ndarray) (t : Z)
           (path name_suffix : string) : prog event unit :=
  taus <- lift (shape_at w_adj 1) ;;
  s2 <- lift (shape_at w_adj 2) ;;
  s3 <- lift (shape_at w_adj 3) ;;
  let d := s2 * s3 in
  s0 <- lift (shape_at w_adj 0) ;;
  w_adj <- lift (np_reshape w_adj [s0; taus; d; d]) ;;
  emit (Subplots 1 1) ;;
  for_each (seqZ 0 taus) (fun tau =>
    for_each (seqZ 0 d) (fun i =>
      for_each (seqZ 0 d) (fun j =>
        e <- lift (np_index gt_dag [tau; i; j]) ;;
        b <- lift (np_truth e) ;;
        let color := if b then "g" else "r" in
        let zorder := if b then 2 else 1 in
        ys <- lift (np_slice_index w_adj 1 t [tau; i; j]) ;;
        ax_plot t ys (Some color) (Some zorder)))) ;;
  emit (Suptitle "Learned adjacencies through time") ;;
  emit (Savefig (path_join path (time_figure_name name_suffix))) ;;
  emit Clf.

(** Lines 198-221. *)
Definition plot_adjacency_through_time_w (w_adj gt_dag : ndarray) (t : Z)
           (path name_suffix : string) : prog event unit :=
  d <- lift (shape_at w_adj 1) ;;
  d_x <- lift (shape_at w_adj 2) ;;
  k_ <- lift (shape_at w_adj 3) ;;
  emit (Subplots 1 1) ;;
  for_each (seqZ 0 d) (fun i =>
    for_each (seqZ 0 d_x) (fun j =>
      for_each (seqZ 0 k_) (fun k =>
        ws <- lift (np_slice_index w_adj 1 t [i; j; k]) ;;
        g <- lift (np_index gt_dag [i; j; k]) ;;
        diff <- lift (np_sub ws g) ;;
        ax_plot t (np_abs diff) None None ;;
        emit SetTrace ;;
        lift set_trace))) ;;
  emit (Suptitle "Learned adjacencies through time") ;;
  emit (Savefig (path_join path (time_figure_name name_suffix))) ;;
  emit Clf.

(** Lines 15-42.  No statement of [plot.py] assigns to an attribute of the
    learner or writes into one of its arrays: the one assignment into an
    array, in [moving_average], is to the fresh result of [np.cumsum].  So
    [plot] reads the learner and returns nothing but its trace. *)
Definition plot (learner : Learner) : prog event unit :=
  plot_learning_curves (train_loss_list learner) (valid_loss_list learner)
                       (exp_path (hp learner)) ;;
  g0 <- lift (shape_at (gt_dag learner) 0) ;;
  g1 <- lift (shape_at (gt_dag learner) 1) ;;
  adj <- lift (np_reshape (model_adj learner) [g0; g1; -1]) ;;
  plot_adjacency_matrix adj (gt_dag learner) (exp_path (hp learner)) "transition" ;;
  plot_adjacency_through_time (adj_tt learner) (gt_dag learner)
                              (iteration learner) (exp_path (hp learner))
                              "transition" ;;
  when (latent learner)
    (let adj := model_w learner in
     plot_adjacency_matrix_w adj (gt_w learner) (exp_path (hp learner)) "w" ;;
     plot_adjacency_through_time_w (adj_w_tt learner) (gt_w learner)
                                   (iteration learner) (exp_path (hp learner))
                                   "w").

End WithDebugger.

End Plot.

(* ===================================================================== *)
(** ** [convert_netcdf_files.py]                                           *)
(* ===================================================================== *)

Module Convert.

(** One record of [ds.to_dataframe().reset_index()]: the time in
    nanoseconds since the epoch, the coordinates, and one value for each
    data column. *)
Record nc_row := {
  time : Z;
  lat : Q;
  lon : Q;
  values : list Q
}.

(** A NetCDF file: the names of its data columns, its records in file
    order, and its global attributes [ds.attrs]. *)
Record netcdf := {
  columns : list string;
  rows : list nc_row;
  attrs : list (string * pyval)
}.

(** A cell of a frame or of a saved array: a number, or [None] for NaN. *)
Definition cell := option Q.

(** A data frame of numbers; [df.values] is [df_rows]. *)
Record dataframe := {
  df_columns : list string;
  df_rows : list (list cell)
}.

(** What a conversion leaves on disk: the array of [data.npy] or of
    [data.h5], and [metadata.json]. *)
Record persisted := {
  p_data : list (list cell);
  p_metadata : list (string * pyval)
}.

Section Pandas.

(** [pd.Grouper(key='time', freq="W")] and [freq="M"]: the label of the
    week and of the month of a time. *)
Variable week_label : Z -> Z.
Variable month_label : Z -> Z.
(** The order in which [list(set(...))] enumerates the column names. *)
Variable set_order : list string -> list string.

(** The position of column [c] among the data columns. *)
Fixpoint column_index (c : string) (cols : list string) : option nat :=
  match cols with
  | [] => None
  | c' :: rest =>
      if String.eqb c c' then Some O else S <$> column_index c rest
  end.

(** The features that are no data column, in the order given, each once. *)
Definition missing_features (cols features : list string) : list string :=
  remove_dups (filter (fun f => column_index f cols = None) features).

(** The positions of the features among the data columns, for features
    that are all data columns. *)
Definition positions (cols features : list string) : list nat :=
  omap (fun f => column_index f cols) features.

(** The selection of the features, [df[columns_to_keep]] of line 42 or
    the [[features_name]] of lines 31 and 33: pandas raises one [KeyError]
    that names the labels that are no columns, in the order [order] gives
    them.  Features are names of data variables here: a request for one
    of the columns [time], [lat], [lon] and [timestamp], which the frame
    has as well, is not modelled. *)
Definition feature_indices (order : list string -> list string)
           (cols features : list string) : result (list nat) :=
  match missing_features cols features with
  | [] => Ok (positions cols features)
  | missing => Raise (MissingLabels (order missing))
  end.

Definition pick (idx : list nat) (vs : list Q) : list Q :=
  map (fun i => nth i vs 0%Q) idx.

(** The key of [groupby([Grouper, "lat", "lon"])] and its order. *)
Definition key := (Z * Q * Q)%type.

Definition key_compare (a b : key) : comparison :=
  match a.1.1 ?= b.1.1 with
  | Eq => match (a.1.2 ?= b.1.2)%Q with
          | Eq => (a.2 ?= b.2)%Q
          | c => c
          end
  | c => c
  end.

(** Groups are kept sorted by key; a record joins its group at the end. *)
Fixpoint add_to_groups (k : key) (v : list Q) (gs : list (key * list (list Q)))
  : list (key * list (list Q)) :=
  match gs with
  | [] => [(k, [v])]
  | (k', vs) :: rest =>
      match key_compare k k' with
      | Eq => (k', vs ++ [v]) :: rest
      | Lt => (k, [v]) :: gs
      | Gt => (k', vs) :: add_to_groups k v rest
      end
  end.

(** The mean of column [j] of a group. *)
Definition column_mean (vs : list (list Q)) (j : nat) : Q :=
  (Qsum (map (fun v => nth j v 0%Q) vs) / inject_Z (Z.of_nat (length vs)))%Q.

(** [df.groupby([Grouper(time, freq), "lat", "lon"])[features].mean()
       .reset_index()]: one record for each group, in key order. *)
Definition group_mean (label : Z -> Z) (idx : list nat) (rs : list nc_row)
  : list nc_row :=
  let gs := fold_left
              (fun gs r => add_to_groups (label (time r), lat r, lon r)
                                         (pick idx (values r)) gs)
              rs [] in
  map (fun g => {| time := g.1.1.1; lat := g.1.1.2; lon := g.1.2;
                   values := map (column_mean g.2) (seq 0 (length idx)) |})
      gs.

(** [pd.to_datetime(df['time']).astype(int) / 10**9] *)
Definition timestamp (t : Z) : Q := (inject_Z t / inject_Z (10 ^ 9))%Q.

(** Lines 13-45.  [features_name] is a list, empty when the option was
    not given. *)
Definition convert_netcdf_to_pandas (file : netcdf) (features_name : list string)
           (frequency : string)
  : result (dataframe * list (string * pyval) * list string) :=
  let features_name :=
    match features_name with
    | [] => set_order (columns file)
    | _ => features_name
    end in
  let? averaged :=
    if String.eqb frequency "day" then Ok None
    else if String.eqb frequency "week" then Ok (Some week_label)
    else if String.eqb frequency "month" then Ok (Some month_label)
    else Raise (FrequencyError frequency) in
  let? idx :=
    feature_indices (match averaged with None => id | Some _ => set_order end)
                    (columns file) features_name in
  let records :=
    match averaged with
    | None => map (fun r => (time r, lat r, lon r, pick idx (values r))) (rows file)
    | Some label =>
        map (fun r => (time r, lat r, lon r, values r))
            (group_mean label idx (rows file))
    end in
  Ok ({| df_columns := "timestamp" :: "lat" :: "lon" :: features_name;
         df_rows := map (fun r => map Some (timestamp r.1.1.1 :: r.1.1.2
                                             :: r.1.2 :: r.2))
                        records |},
      attrs file, features_name).

(** The rows of a frame laid out on the columns [cols]; a column that
    the frame lacks is filled with NaN. *)
Definition reindex (cols : list string) (f : dataframe) : list (list cell) :=
  map (fun row =>
         map (fun c => match column_index c (df_columns f) with
                       | Some i => nth i row None
                       | None => None
                       end) cols)
      (df_rows f).

(** [pd.concat([df, df_temp])]: the rows of both frames, on the columns
    of the first followed by the new columns of the second. *)
Definition concat_frames (a b : dataframe) : dataframe :=
  if bool_decide (df_columns a = df_columns b)
  then {| df_columns := df_columns a; df_rows := df_rows a ++ df_rows b |}
  else
    let cols := df_columns a ++
                filter (fun c => column_index c (df_columns a) = None)
                       (df_columns b) in
    {| df_columns := cols; df_rows := reindex cols a ++ reindex cols b |}.

(** The loop of [main_numpy], lines 73-83. *)
Fixpoint numpy_loop (files : list netcdf) (frequency : string)
         (df : option dataframe) (metadata : option (list (string * pyval)))
         (features_name : list string)
  : result (option dataframe * option (list (string * pyval)) * list string) :=
  match files with
  | [] => Ok (df, metadata, features_name)
  | file :: rest =>
      let? r := convert_netcdf_to_pandas file features_name frequency in
      let df_temp := r.1.1 in
      let df' := match df with
                 | None => df_temp
                 | Some d => concat_frames d df_temp
                 end in
      numpy_loop rest frequency (Some df') (Some r.1.2) r.2
  end.

(** Lines 57-98: the files of the directory in sorted order.  Returns
    what is written, then the frame and the feature names. *)
Definition main_numpy (files : list netcdf) (features_name : list string)
           (frequency : string)
  : result (persisted * dataframe * list string) :=
  let? r := numpy_loop files frequency None None features_name in
  match r.1.1, r.1.2 with
  | Some df, Some metadata =>
      Ok ({| p_data := df_rows df; p_metadata := metadata |}, df, r.2)
  | None, _ => Raise AttributeError          (* [df.values] of [None] *)
  | Some _, None => Raise (NameError "metadata")
  end.

(** The table of [data.h5] and [metadata.json] while [main_hdf5] loops. *)
Record hdf5_state := {
  h_data : list (list cell);
  h_width : nat;
  h_metadata : list (string * pyval);
  h_first_df : dataframe;
  h_first_features : list string
}.

(** The loop of [main_hdf5], lines 118-149; [st] is [None] for [i = 0].
    The conversion is called without the frequency. *)
Fixpoint hdf5_loop (files : list netcdf) (st : option hdf5_state)
         (features_name : list string) : result (option hdf5_state) :=
  match files with
  | [] => Ok st
  | file :: rest =>
      let? r := convert_netcdf_to_pandas file features_name "day" in
      let df := r.1.1 in
      let? st' :=
        match st with
        | None =>
            Ok {| h_data := df_rows df;
                  h_width := length (df_columns df);
                  h_metadata := r.1.2;
                  h_first_df := df;
                  h_first_features := r.2 |}
        | Some s =>
            if (length (df_columns df) =? h_width s)%nat
            then Ok {| h_data := h_data s ++ df_rows df;
                       h_width := h_width s;
                       h_metadata := h_metadata s;
                       h_first_df := h_first_df s;
                       h_first_features := h_first_features s |}
            else Raise (ShapeError "the arrays being appended differ in width")
        end in
      hdf5_loop rest (Some st') r.2
  end.

(** Lines 101-159. *)
Definition main_hdf5 (files : list netcdf) (features_name : list string)
           (frequency : string)
  : result (persisted * dataframe * list string) :=
  let? st := hdf5_loop files None features_name in
  match st with
  | None => Raise (NameError "data_path")
  | Some s =>
      Ok ({| p_data := h_data s; p_metadata := h_metadata s |},
          h_first_df s, h_first_features s)
  end.

End Pandas.

(** The label of [freq="W"] for a time at midnight: the Sunday that ends
    its week.  Day 0 of the epoch is a Thursday. *)
Definition ns_per_day : Z := 86400 * 10 ^ 9.

Definition sunday_label (t : Z) : Z :=
  let day := t / ns_per_day in
  let weekday := (day + 3) mod 7 in          (* Monday is 0 *)
  (day + (6 - weekday)) * ns_per_day.

End Convert.

(* ===================================================================== *)
(** ** The penalty scheduler                                               *)
(* ===================================================================== *)

Module Scheduler.

(** Modelled from the spec: the state of one constraint (specification,
    sections 3 and 4.2).  The trainer classes [Training] and
    [TrainingLatent], which hold the scheduler, are imported by [main.py]
    from files that are not among the sources. *)
Record Constraint := {
  mu : Q;                       (* current penalty coefficient *)
  history : list Q;             (* recent values of h, the latest last *)
  iter_since : nat;             (* iterations since the last tightening *)
  h_ref : Q;                    (* h at the last tightening *)
  sufficient : bool;            (* diagnostics: did h decrease by omega_mu *)
  omega_gamma : Q;
  omega_mu : Q;
  h_threshold : Q;
  min_iter_convergence : nat;
  mu_mult_factor : Q;
  window : nat                  (* length of the rolling history *)
}.

Definition Qlt_bool (x y : Q) : bool := negb (Qle_bool y x).

(** Modelled from the spec: "append the current violation value h to a
    short rolling history". *)
Definition push (w : nat) (hist : list Q) (h : Q) : list Q :=
  let l := hist ++ [h] in
  drop (length l - w) l.

Section RelativeChange.

(** Modelled from the spec: "the relative change of h over the recent
    window"; the specification does not give its formula, so it is a
    parameter of the scheduler. *)
Variable relative_change : list Q -> Q.

(** Modelled from the spec: "declare converged when the relative change
    of h over the recent window falls below omega_gamma". *)
Definition converged (c : Constraint) (hist : list Q) : bool :=
  Qlt_bool (relative_change hist) (omega_gamma c).

(** Modelled from the spec: one iteration of the scheduler for one
    constraint (section 4.2): record [h]; after [min_iter_convergence]
    iterations since the last tightening test convergence; on
    convergence multiply [mu] by [mu_mult_factor] in both branches of
    the [omega_mu] test, reset the counter and keep [h] as reference. *)
Definition update (c : Constraint) (h : Q) : Constraint :=
  let hist := push (window c) (history c) h in
  let n := S (iter_since c) in
  if (min_iter_convergence c <=? n)%nat && converged c hist then
    let enough := Qle_bool h (omega_mu c * h_ref c)%Q in
    let mu' := if enough then (mu c * mu_mult_factor c)%Q
               else (mu c * mu_mult_factor c)%Q in
    {| mu := mu'; history := hist; iter_since := 0; h_ref := h;
       sufficient := enough;
       omega_gamma := omega_gamma c; omega_mu := omega_mu c;
       h_threshold := h_threshold c;
       min_iter_convergence := min_iter_convergence c;
       mu_mult_factor := mu_mult_factor c; window := window c |}
  else
    {| mu := mu c; history := hist; iter_since := n; h_ref := h_ref c;
       sufficient := sufficient c;
       omega_gamma := omega_gamma c; omega_mu := omega_mu c;
       h_threshold := h_threshold c;
       min_iter_convergence := min_iter_convergence c;
       mu_mult_factor := mu_mult_factor c; window := window c |}.

(** The scheduler run over the values of [h] of successive iterations. *)
Definition run (c : Constraint) (hs : list Q) : Constraint :=
  fold_left update hs c.

(** Modelled from the spec: "Global stop condition for a constraint:
    h <= h_threshold". *)
Definition satisfied (c : Constraint) (h : Q) : bool :=
  Qle_bool h (h_threshold c).

End RelativeChange.

(** One reading of the relative change over the window: from its oldest
    to its latest value, relative to the oldest. *)
Definition relative_change_ends (hist : list Q) : Q :=
  match hist with
  | [] => 0%Q
  | h0 :: _ => (Qabs (default h0 (last hist) - h0) / Qabs h0)%Q
  end.

End Scheduler.

(* ===================================================================== *)
(** ** Concrete inputs used by the examples below                          *)
(* ===================================================================== *)

Module Examples.

(** A configuration as [default_params.json] would resolve it, with
    [ratio_valid] left at 0. *)
Definition hp0 : Bunch :=
  {| exp_path := "causal_climate_exp"; exp_id := Some 1;
     debug_gt_z := false; debug_gt_w := false; debug_gt_graph := false;
     data_path := "data"; data_format := "numpy"; no_gt := false;
     latent := false; coeff_kl := 1%Q; d_z := PNone; d_x := PInt 4;
     instantaneous := false; tau := 2; tau_neigh := 1;
     ratio_train := PFloat (B64.lit (8 # 10)); ratio_valid := PFloat (B64.Fin 0);
     num_hidden := 8; num_layers := 2; optimizer := "rmsprop";
     random_seed := 1; hard_gumbel := false; gpu := false; float := false;
     others := ∅ |}.

(** The trainer's arrays and the metrics are opaque to [main]; any type
    and any functions serve. *)
Definition edge_errors0 (learned gt : unit) : gmap string pyval :=
  {[ "tp" := PInt 1; "fp" := PInt 0 ]}.
Definition shd0 (learned gt : unit) : pyval := PInt 0.
Definition f1_score0 (learned gt : unit) : pyval := PFloat (B64.Fin 1).

(** A run in which every outside call succeeds and the debugger session
    is continued. *)
Definition world_ok : env unit :=
  {| path_exists := fun _ => false;
     dataloader_d := Ok 3;
     model_init := Ok tt;
     trainer_init := Ok tt;
     train_with_QPM := Ok (tt, tt);
     set_trace := Ok tt |}.

(** The same run with the debugger session left by [q] or at end of
    input, as in a batch job. *)
Definition world_quit : env unit :=
  {| path_exists := fun _ => false;
     dataloader_d := Ok 3;
     model_init := Ok tt;
     trainer_init := Ok tt;
     train_with_QPM := Ok (tt, tt);
     set_trace := Raise BdbQuit |}.


Definition config_file : json_object :=
  [ ("data_path", PStr "data"); ("data_format", PStr "numpy");
    ("coeff_kl", PFloat (B64.Fin 1)); ("tau", PInt 2); ("tau_neigh", PInt 1);
    ("ratio_train", PFloat (B64.lit (8 # 10))); ("ratio_valid", PFloat (B64.lit (2 # 10)));
    ("num_hidden", PInt 8); ("num_layers", PInt 2);
    ("optimizer", PStr "rmsprop"); ("random_seed", PInt 1) ].

Definition files0 : json_files :=
  fun p =>
    if String.eqb p "default_params.json" then Some config_file
    else if String.eqb p "data/data_params.json" then Some [("d_x", PInt 4)]
    else None.

(** A trainer of the latent model after three iterations, with one
    lag, one feature, one grid cell and one latent variable. *)
Definition learner_latent : Plot.Learner :=
  {| Plot.train_loss_list := map B64.of_Z [3; 2; 1];
     Plot.valid_loss_list := map B64.of_Z [3; 2];
     Plot.hp := hp0;
     Plot.model_adj := {| shape := [1; 1; 1]; data := [(9 # 10)%Q] |};
     Plot.model_w := {| shape := [1; 1; 1]; data := [(1 # 2)%Q] |};
     Plot.gt_dag := {| shape := [1; 1; 1]; data := [1%Q] |};
     Plot.gt_w := {| shape := [1; 1; 1]; data := [1%Q] |};
     Plot.adj_tt := {| shape := [3; 1; 1; 1];
                       data := [(5 # 10); (7 # 10); (9 # 10)]%Q |};
     Plot.adj_w_tt := {| shape := [3; 1; 1; 1];
                         data := [(1 # 10); (3 # 10); (5 # 10)]%Q |};
     Plot.iteration := 3;
     Plot.latent := true |}.

(** The same trainer without latent variables. *)
Definition learner_plain : Plot.Learner :=
  {| Plot.train_loss_list := Plot.train_loss_list learner_latent;
     Plot.valid_loss_list := Plot.valid_loss_list learner_latent;
     Plot.hp := hp0;
     Plot.model_adj := Plot.model_adj learner_latent;
     Plot.model_w := Plot.model_w learner_latent;
     Plot.gt_dag := Plot.gt_dag learner_latent;
     Plot.gt_w := Plot.gt_w learner_latent;
     Plot.adj_tt := Plot.adj_tt learner_latent;
     Plot.adj_w_tt := Plot.adj_w_tt learner_latent;
     Plot.iteration := 3;
     Plot.latent := false |}.

(** A NetCDF file with one variable and two daily records of one grid
    cell, Monday 6 and Tuesday 7 January 2020 (days 18267 and 18268). *)
Definition two_days : Convert.netcdf :=
  {| Convert.columns := ["shum"];
     Convert.rows :=
       [ {| Convert.time := 18267 * Convert.ns_per_day; Convert.lat := 0%Q;
            Convert.lon := 0%Q; Convert.values := [1%Q] |};
         {| Convert.time := 18268 * Convert.ns_per_day; Convert.lat := 0%Q;
            Convert.lon := 0%Q; Convert.values := [3%Q] |} ];
     Convert.attrs := [("title", PStr "specific humidity")] |}.

(** A constraint just after a tightening, with a history of two values
    and the relative change taken between them. *)
Definition constraint0 : Scheduler.Constraint :=
  {| Scheduler.mu := 1%Q; Scheduler.history := [16%Q];
     Scheduler.iter_since := 0; Scheduler.h_ref := 16%Q;
     Scheduler.sufficient := false;
     Scheduler.omega_gamma := (1 # 10)%Q; Scheduler.omega_mu := (9 # 10)%Q;
     Scheduler.h_threshold := (1 # 100)%Q;
     Scheduler.min_iter_convergence := 2;
     Scheduler.mu_mult_factor := 2%Q; Scheduler.window := 2 |}.

End Examples.

(* ===================================================================== *)
(** ** Classes of events of the driver's trace                             *)
(* ===================================================================== *)

(** The two calls that fix the process-wide seeds. *)
Definition is_seed (e : event) : bool :=
  match e with
  | TorchManualSeed _ | NumpyRandomSeed _ => true
  | _ => false
  end.

(** The calls that window or split data or that initialise or update
    parameters: the data loader, the model, the trainer and its loop. *)
Definition draws_randomness (e : event) : bool :=
  match e with
  | NewDataLoader _ | NewModel _ _ _ _ | NewTrainer _ | TrainWithQPM => true
  | _ => false
  end.

Definition is_write_results (e : event) : bool :=
  match e with
  | WriteResults _ _ => true
  | _ => false
  end.

(** A computation all of whose events satisfy [P]. *)
Definition only_emits {E A} (P : E -> Prop) (c : prog E A) : Prop :=
  forall tr, Forall P tr -> Forall P (c tr).1.

(** The events of [plot.py] other than the call of the debugger: the calls
    of matplotlib and seaborn. *)
Definition is_drawing (e : Plot.event) : Prop := e <> Plot.SetTrace.

(* ===================================================================== *)
(** ** More concrete inputs                                                *)
(* ===================================================================== *)

(** What each [ValueError] of [assert_args] says of the configuration,
    in the tests of the source: lines 146, 149, 154, 159 and 163. *)
Definition combination_holds (c : config_error) (a : Bunch) : Prop :=
  match c with
  | GtFlagsWithNoGt =>
      no_gt a = true
      /\ (debug_gt_graph a = true \/ debug_gt_z a = true \/ debug_gt_w a = true)
  | LatentDims =>
      latent a = true
      /\ (d_z a = PNone \/ d_x a = PNone
          \/ py_le_int (d_z a) 0 = Ok true \/ py_le_int (d_x a) 0 = Ok true)
  | RatioSum =>
      exists a', derive_ratio_valid a = Ok a' /\ ratio_sum_exceeds a' = Ok true
  | BadDataFormat s => s = data_format a /\ ~ In s ["numpy"; "hdf5"]
  | BadOptimizer s => s = optimizer a /\ ~ In s ["sgd"; "rmsprop"]
  end.



(** A number between 0 and 1. *)
Definition in_unit (v : pyval) : Prop :=
  match as_number v with
  | Some (NInt z) => 0 <= z <= 1
  | Some (NFloat (B64.Fin q)) => (0 <= q)%Q /\ (q <= 1)%Q
  | _ => False
  end.

Module MoreExamples.

(** [hp0] with other ratios and dimensions. *)
Definition with_ratios (rt rv : pyval) (a : Bunch) : Bunch :=
  {| exp_path := exp_path a; exp_id := exp_id a; debug_gt_z := debug_gt_z a;
     debug_gt_w := debug_gt_w a; debug_gt_graph := debug_gt_graph a;
     data_path := data_path a; data_format := data_format a; no_gt := no_gt a;
     latent := latent a; coeff_kl := coeff_kl a; d_z := d_z a; d_x := d_x a;
     instantaneous := instantaneous a; tau := tau a; tau_neigh := tau_neigh a;
     ratio_train := rt; ratio_valid := rv;
     num_hidden := num_hidden a; num_layers := num_layers a;
     optimizer := optimizer a; random_seed := random_seed a;
     hard_gumbel := hard_gumbel a; gpu := gpu a; float := float a;
     others := others a |}.




(** [ratio_train = -1.0000000000000007], [ratio_valid] left at 0. *)
Definition hp_negative_ratio : Bunch :=
  with_ratios (PFloat (B64.lit (-10000000000000007 # 10000000000000000)))
              (PFloat (B64.Fin 0)) Examples.hp0.

(** A command line that gives the data path and [--d-x 7] and does not give
    [--use-data-config]. *)
Definition cli_dx7 : gmap string pyval :=
  {[ "data_path" := PStr "data"; "d_x" := PInt 7 ]}.



(** A configuration file that names a key the parser does not know. *)
Definition files_unknown_key : json_files :=
  fun p =>
    if String.eqb p "default_params.json"
    then Some [("tau", PInt 2); ("learning_rate", PFloat (B64.lit (1 # 10))); ("lr", PFloat (B64.lit (1 # 10)))]
    else None.

End MoreExamples.

(** A computation that only appends to the trace it is given. *)
Definition extends {E A} (c : prog E A) : Prop :=
  forall tr, exists suffix, (c tr).1 = tr ++ suffix.

Module PlotExamples.

(** A history of three iterations of a 2 x 2 adjacency for one lag, as a
    four-dimensional array. *)
Definition adj_tt_2x2 : ndarray :=
  {| shape := [3; 1; 2; 2];
     data := [0; 0; 0; 0; 1; 0; 0; 1; 1; 0; 0; 1]%Q |}.

Definition gt_2x2 : ndarray :=
  {| shape := [1; 2; 2]; data := [1; 0; 0; 1]%Q |}.

(** An adjacency whose first axis is empty. *)
Definition empty_lags : ndarray := {| shape := [0; 2; 2]; data := [] |}.

End PlotExamples.



Module ConvertMore.

Import Convert.

(** Keys in strictly increasing order of [key_compare]. *)
Fixpoint increasing (ks : list key) : Prop :=
  match ks with
  | k1 :: ((k2 :: _) as rest) => key_compare k1 k2 = Lt /\ increasing rest
  | _ => True
  end.

(** [k] is below the first key of [ks], if there is one. *)
Definition lt_head (k : key) (ks : list key) : Prop :=
  match ks with
  | [] => True
  | k' :: _ => key_compare k k' = Lt
  end.

(** The key of a record of the averaged frame. *)
Definition row_key (r : nc_row) : key := (time r, lat r, lon r).

Section Files.

(** [glob.glob] on the file system at hand, and [sorted] on strings. *)
Variable glob : string -> list string.
Variable sorted : list string -> list string.

(** Lines 48-54.  [directory[-1]] raises [IndexError] for the empty
    string. *)
Definition find_all_nc_files (directory : string) : result (list string) :=
  if String.eqb directory "" then Raise IndexError
  else
    let pattern :=
      if ends_with_slash directory then String.append directory "*.nc"
      else String.append directory "/*.nc" in
    Ok (sorted (glob pattern)).

End Files.

End ConvertMore.

Module ConvertExamples.

(** A second file, of the following week, with other attributes. *)
Definition next_week : Convert.netcdf :=
  {| Convert.columns := ["shum"];
     Convert.rows :=
       [ {| Convert.time := 18274 * Convert.ns_per_day; Convert.lat := 0%Q;
            Convert.lon := 0%Q; Convert.values := [5%Q] |} ];
     Convert.attrs := [("title", PStr "specific humidity, second file")] |}.

(** A directory that holds two NetCDF files. *)
Definition glob0 (pattern : string) : list string :=
  if String.eqb pattern "data/*.nc" then ["data/b.nc"; "data/a.nc"] else [].

End ConvertExamples.

(* ===================================================================== *)
(** ** [run_model] of [emulator/train.py]                                  *)
(* ===================================================================== *)

Module Emulator.

(** The entries of the Hydra configuration that [run_model] reads.  An
    entry read with [config.get] is [PNone] when the configuration has no
    such key. *)
Record DictConfig := {
  seed : pyval;                  (* config.seed *)
  name : string;                 (* config.name *)
  print_config : pyval;          (* config.get("print_config") *)
  pyprofile : pyval;             (* config.get("pyprofile") *)
  test_after_training : pyval;   (* config.get("test_after_training") *)
  logger : pyval                 (* config.get("logger") *)
}.

(** One constructor per call that leaves [run_model]. *)
Inductive event :=
| SeedEverything (seed : pyval)
| Extras
| PrintConfig
| GetModelAndData
| NewProfiler (filename : string)
| InstantiateModules (key : string)
| InstantiateTrainer (profiled : bool)
| LogHyperparameters
| TrackerStart
| Fit
| TrackerStop
| SaveEmissions (emissions : Q)
| SaveHydraConfig
| TestBest
| WandbFinish.

(** What the world outside [run_model] answers during one run: every call
    returns or raises. *)
Record env := {
  answer : event -> result unit;
  current_time : string;         (* datetime.now().strftime('%H:%M:%S') *)
  emissions : Q                  (* the value of tracker.stop() *)
}.

Definition call (w : env) (e : event) : prog event unit :=
  emit e ;; lift (answer w e).

(** [d.get(k)] for the entries of a dict, whose keys are distinct. *)
Fixpoint dict_get (k : string) (kvs : list (string * pyval)) : pyval :=
  match kvs with
  | [] => PNone
  | (k', v) :: rest => if String.eqb k' k then v else dict_get k rest
  end.

(** Line 78: [config.get("logger") and config.logger.get("wandb")]. *)
Definition wandb_logging (config : DictConfig) : result bool :=
  if truthy (logger config) then
    match logger config with
    | PDict kvs => Ok (truthy (dict_get "wandb" kvs))
    | _ => Raise AttributeError
    end
  else Ok false.

(** Line 38: the file name of the profile. *)
Definition profile_name (config : DictConfig) (time : string) : string :=
  String.append "Basetest-"
    (String.append (name config) (String.append "-Basetest-" time)).

(** [run_model(config)], lines 18-79; the calls of the logger are left out. *)
Definition run_model (w : env) (config : DictConfig) : prog event unit :=
  call w (SeedEverything (seed config)) ;;
  call w Extras ;;
  when (truthy (print_config config)) (call w PrintConfig) ;;
  call w GetModelAndData ;;
  let profiled := truthy (pyprofile config) in
  when profiled (call w (NewProfiler (profile_name config (current_time w)))) ;;
  call w (InstantiateModules "callbacks") ;;
  call w (InstantiateModules "logger") ;;
  call w (InstantiateTrainer profiled) ;;
  call w LogHyperparameters ;;
  call w TrackerStart ;;
  call w Fit ;;
  call w TrackerStop ;;
  call w (SaveEmissions (emissions w)) ;;
  call w SaveHydraConfig ;;
  when (truthy (test_after_training config)) (call w TestBest) ;;
  finish <- lift (wandb_logging config) ;;
  when finish (call w WandbFinish).

(** The calls that follow [trainer.fit] in the text of [run_model]. *)
Definition follows_fit (e : event) : bool :=
  match e with
  | TrackerStop | SaveEmissions _ | SaveHydraConfig | TestBest | WandbFinish => true
  | _ => false
  end.

(** The calls of the emissions tracker, and the training between them. *)
Definition is_tracking (e : event) : bool :=
  match e with TrackerStart | Fit | TrackerStop => true | _ => false end.

Definition is_test (e : event) : bool :=
  match e with TestBest => true | _ => false end.

Definition is_finish (e : event) : bool :=
  match e with WandbFinish => true | _ => false end.

Definition is_tracker_start (e : event) : bool :=
  match e with TrackerStart => true | _ => false end.

(** A world in which every call returns. *)
Definition world_fine : env :=
  {| answer := fun _ => Ok tt; current_time := "12:00:00"; emissions := (1 # 4)%Q |}.

(** A world in which the training raises. *)
Definition world_fit_fails : env :=
  {| answer := fun e => match e with
                        | Fit => Raise (ExternalError "fit")
                        | _ => Ok tt
                        end;
     current_time := "12:00:00"; emissions := (1 # 4)%Q |}.

(** A configuration that asks for a test and logs to wandb. *)
Definition config0 : DictConfig :=
  {| seed := PInt 11; name := "unet"; print_config := PBool true;
     pyprofile := PNone; test_after_training := PBool true;
     logger := PDict [("wandb", PDict [("project", PStr "emulator")])] |}.

End Emulator.

(* ===================================================================== *)
(** * Properties                                                           *)
(* ===================================================================== *)

(** ** Binary64 *)

Section B64Facts.

Import B64.
Local Open Scope Q_scope.

Lemma pow2_pos (k : Z) : 0 < pow2 k.
Proof.
  unfold pow2. destruct (Z.leb_spec 0 k).
  - change 0 with (inject_Z 0). rewrite <- Zlt_Qlt. apply Z.pow_pos_nonneg; lia.
  - reflexivity.
Qed.

Lemma pow2_neg (k : Z) :
  (k < 0)%Z -> pow2 k * inject_Z (2 ^ (- k)) == 1.
Proof.
  intros Hk. unfold pow2. destruct (Z.leb_spec 0 k); [lia|].
  assert (Hp : (0 < 2 ^ (- k))%Z) by (apply Z.pow_pos_nonneg; lia).
  unfold Qeq, Qmult, inject_Z. cbn [Qnum Qden].
  rewrite Pos.mul_1_r, Z2Pos.id by exact Hp. lia.
Qed.

Lemma pow2_le_53 (k : Z) : (k <= -53)%Z -> pow2 k <= pow2 (-53).
Proof.
  intros Hk. unfold pow2 at 1. destruct (Z.leb_spec 0 k); [lia|].
  assert (Hm : (2 ^ 53 <= 2 ^ (- k))%Z) by (apply Z.pow_le_mono_r; lia).
  assert (Hp : (0 < 2 ^ (- k))%Z) by lia.
  change (pow2 (-53)) with (1 # Z.to_pos (2 ^ 53)).
  unfold Qle. cbn [Qnum Qden].
  rewrite !Z2Pos.id by lia. lia.
Qed.

Lemma ilog2_below_1 (x : Q) : 0 < x -> x < 1 -> (ilog2 x <= -1)%Z.
Proof.
  intros H0 H1. unfold ilog2.
  destruct x as [n d]. unfold Qlt in H0, H1. cbn [Qnum Qden] in *.
  assert (Hl : (Z.log2 n <= Z.log2 (Z.pos d))%Z) by (apply Z.log2_le_mono; lia).
  destruct (Qle_bool _ _) eqn:E; [|lia].
  apply Qle_bool_iff in E.
  destruct (Z.eq_dec (Z.log2 n - Z.log2 (Z.pos d))%Z 0%Z) as [E0|E0]; [|lia].
  rewrite E0 in E. unfold Qle in E. cbn in E. lia.
Qed.

Lemma ilog2_in_1_2 (x : Q) : 1 <= x -> x < 2 -> ilog2 x = 0%Z.
Proof.
  intros H1 H2. unfold ilog2.
  destruct x as [n d]. unfold Qlt in H2. unfold Qle in H1. cbn [Qnum Qden] in *.
  assert (Hl : (Z.log2 (Z.pos d) <= Z.log2 n)%Z) by (apply Z.log2_le_mono; lia).
  assert (Hu : (Z.log2 n <= Z.log2 (2 * Z.pos d))%Z) by (apply Z.log2_le_mono; lia).
  rewrite Z.log2_double in Hu by lia.
  destruct (Z.eq_dec (Z.log2 n) (Z.log2 (Z.pos d))) as [E0|E0].
  - rewrite E0, Z.sub_diag.
    destruct (Qle_bool _ _) eqn:E; [reflexivity|].
    assert (Hc : Qle_bool (pow2 0) (n # d) = true).
    { apply Qle_bool_iff. unfold Qle. cbn. lia. }
    congruence.
  - replace (Z.log2 n - Z.log2 (Z.pos d))%Z with 1%Z by lia.
    destruct (Qle_bool _ _) eqn:E; [|reflexivity].
    apply Qle_bool_iff in E. unfold Qle in E. cbn in E. lia.
Qed.

Lemma round_half_even_upper (x : Q) : inject_Z (round_half_even x) <= x + (1 # 2).
Proof.
  unfold round_half_even.
  pose proof (Qfloor_le x) as Hf.
  destruct (Qcompare_spec (x - inject_Z (Qfloor x)) (1 # 2)) as [E|E|E].
  - destruct (Z.even _); [lra|]. rewrite inject_Z_plus. change (inject_Z 1) with 1. lra.
  - lra.
  - rewrite inject_Z_plus. change (inject_Z 1) with 1. lra.
Qed.

Lemma round_half_even_le (x : Q) (N : Z) :
  x < inject_Z N + (1 # 2) -> (round_half_even x <= N)%Z.
Proof.
  intros Hx. unfold round_half_even.
  pose proof (Qfloor_le x) as Hf.
  assert (Hfn : (Qfloor x <= N)%Z).
  { apply Z.lt_succ_r. rewrite Zlt_Qlt. unfold Z.succ. rewrite inject_Z_plus. change (inject_Z 1) with 1. lra. }
  destruct (Z.eq_dec (Qfloor x) N) as [E|E].
  - rewrite E in *.
    destruct (Qcompare_spec (x - inject_Z N) (1 # 2)) as [E'|E'|E']; [lra | lia | lra].
  - destruct (Qcompare _ _); [destruct (Z.even _)| |]; lia.
Qed.

Lemma round_half_even_nonneg (x : Q) : 0 <= x -> (0 <= round_half_even x)%Z.
Proof.
  intros Hx. unfold round_half_even.
  assert (Hf : (0 <= Qfloor x)%Z).
  { change 0%Z with (Qfloor 0). apply Qfloor_resp_le. exact Hx. }
  destruct (Qcompare _ _); [destruct (Z.even _)| |]; lia.
Qed.

(** Below 1 the error of a rounding is at most [2^-54], and the result
    does not pass 1. *)
Lemma rnd_pos_below_1 (x : Q) :
  0 < x -> x < 1 ->
  0 <= rnd_pos x /\ rnd_pos x <= 1 /\ rnd_pos x <= x + pow2 (-54).
Proof.
  intros H0 H1. unfold rnd_pos, quantum.
  pose proof (ilog2_below_1 x H0 H1) as He.
  set (k := (Z.max (ilog2 x) (-1022) - 52)%Z).
  assert (Hk : (k <= -53)%Z) by (unfold k; lia).
  pose proof (pow2_pos k) as Hq. pose proof (pow2_le_53 k Hk) as Hq53.
  pose proof (pow2_neg k ltac:(lia)) as HN.
  set (q := pow2 k) in *. set (N := (2 ^ (- k))%Z) in *.
  assert (Hz : x / q * q == x) by (field; lra).
  assert (Hz0 : 0 <= x / q).
  { apply Qle_shift_div_l; [exact Hq | lra]. }
  pose proof (round_half_even_upper (x / q)) as Hu.
  pose proof (round_half_even_nonneg (x / q) Hz0) as Hm0.
  assert (HzN : x / q < inject_Z N + (1 # 2)).
  { assert (x / q < inject_Z N); [|lra].
    apply Qlt_shift_div_r; [exact Hq|]. rewrite Qmult_comm, HN. exact H1. }
  pose proof (round_half_even_le _ _ HzN) as HmN.
  set (m := round_half_even (x / q)) in *.
  rewrite Zle_Qle in Hm0, HmN. change (inject_Z 0) with 0 in Hm0.
  assert (H54 : pow2 (-53) * (1 # 2) == pow2 (-54)) by reflexivity.
  repeat split.
  - apply Qmult_le_0_compat; lra.
  - apply Qle_trans with (inject_Z N * q); [|rewrite Qmult_comm, HN; lra].
    apply Qmult_le_compat_r; lra.
  - apply Qle_trans with ((x / q + (1 # 2)) * q).
    + apply Qmult_le_compat_r; lra.
    + rewrite Qmult_plus_distr_l, Hz. rewrite <- H54.
      assert ((1 # 2) * q <= pow2 (-53) * (1 # 2)); [|lra].
      rewrite (Qmult_comm (1 # 2)). apply Qmult_le_compat_r; lra.
Qed.

(** Just above 1 a rounding gives 1. *)
Lemma rnd_pos_above_1 (x : Q) :
  1 <= x -> x <= 1 + pow2 (-54) -> 0 <= rnd_pos x /\ rnd_pos x <= 1.
Proof.
  intros H1 H2.
  assert (H54 : pow2 (-54) < 1) by reflexivity.
  unfold rnd_pos, quantum. rewrite (ilog2_in_1_2 x H1) by lra.
  change (pow2 (Z.max 0 (-1022) - 52)) with (pow2 (-52)).
  pose proof (pow2_pos (-52)) as Hq.
  pose proof (pow2_neg (-52) ltac:(lia)) as HN.
  set (q := pow2 (-52)) in *. set (N := (2 ^ (- -52))%Z) in *.
  assert (Hz0 : 0 <= x / q).
  { apply Qle_shift_div_l; [exact Hq | lra]. }
  pose proof (round_half_even_nonneg (x / q) Hz0) as Hm0.
  assert (HzN : x / q < inject_Z N + (1 # 2)).
  { apply Qlt_shift_div_r; [exact Hq|].
    rewrite Qmult_plus_distr_l, (Qmult_comm (inject_Z N)), HN.
    assert (pow2 (-54) < (1 # 2) * q) by reflexivity. lra. }
  pose proof (round_half_even_le _ _ HzN) as HmN.
  set (m := round_half_even (x / q)) in *.
  rewrite Zle_Qle in Hm0, HmN. change (inject_Z 0) with 0 in Hm0.
  split.
  - apply Qmult_le_0_compat; lra.
  - apply Qle_trans with (inject_Z N * q); [|rewrite Qmult_comm, HN; lra].
    apply Qmult_le_compat_r; lra.
Qed.

Lemma rnd_unit (x : Q) :
  0 <= x -> x <= 1 + pow2 (-54) ->
  0 <= rnd x /\ rnd x <= 1 /\ (x <= 1 -> rnd x <= x + pow2 (-54)).
Proof.
  intros H0 H1. unfold rnd.
  pose proof (Qred_correct x) as Hr.
  assert (H54 : 0 < pow2 (-54)) by reflexivity.
  destruct (Qcompare_spec (Qred x) 0) as [E|E|E].
  - repeat split; intros; lra.
  - lra.
  - rewrite !Qred_correct.
    destruct (Qlt_le_dec (Qred x) 1) as [Hlt|Hge].
    + destruct (rnd_pos_below_1 (Qred x) E Hlt) as (Ha & Hb & Hc).
      repeat split; intros; lra.
    + destruct (rnd_pos_above_1 (Qred x) Hge ltac:(lra)) as (Ha & Hb).
      repeat split; intros; lra.
Qed.

Lemma round_unit (x : Q) :
  0 <= rnd x -> rnd x <= 1 -> round x = Fin (rnd x).
Proof.
  intros H0 H1. unfold round.
  destruct (Qle_bool _ _) eqn:E; [|reflexivity].
  apply Qle_bool_iff in E. rewrite Qabs_pos in E by exact H0.
  assert (1 < pow2 1024) by reflexivity. lra.
Qed.

(** The sum of a ratio in [0, 1] and of its rounded complement does not
    exceed 1. *)
Lemma complement_sum (a : Q) :
  0 <= a -> a <= 1 ->
  exists r s,
    sub (Fin 1) (Fin a) = Fin r /\ add (Fin a) (Fin r) = Fin s /\ s <= 1.
Proof.
  intros H0 H1.
  assert (H54 : 0 < pow2 (-54)) by reflexivity.
  destruct (rnd_unit (1 + - a)) as (Ra & Rb & Rc); [lra | lra |].
  specialize (Rc ltac:(lra)).
  destruct (rnd_unit (a + rnd (1 + - a))) as (Sa & Sb & _); [lra | lra |].
  exists (rnd (1 + - a)), (rnd (a + rnd (1 + - a))).
  cbn [sub neg add]. rewrite (round_unit _ Ra Rb), (round_unit _ Sa Sb).
  repeat split. exact Sb.
Qed.

End B64Facts.

(** The operations of [B64] give the values of the kernel's floats, which
    are the binary64 of the machine, on the numbers used below and at the
    edges of the format: a sum that rounds, a difference of subnormal
    numbers, an overflow, a tie. *)
Section KernelFloats.

Import PrimFloat.
Local Open Scope float_scope.

Lemma B64_agrees_with_kernel_floats :
  B64.of_prim (1 / 10) = B64.lit (1 # 10)
  /\ B64.same_as_kernel add B64.add (1 / 10) (2 / 10) = true
  /\ B64.same_as_kernel add B64.add (1 / 10 + 2 / 10) (3 / 10) = true
  /\ B64.same_as_kernel add B64.add 1e16 1 = true
  /\ B64.same_as_kernel sub B64.sub 1 (-0x1.0000000000003p+0) = true
  /\ B64.same_as_kernel add B64.add (-0x1.0000000000003p+0)
                                    (1 - -0x1.0000000000003p+0) = true
  /\ B64.same_as_kernel sub B64.sub 1 (8 / 10) = true
  /\ B64.same_as_kernel div B64.div 1 3 = true
  /\ B64.same_as_kernel add B64.add 0x1p+1023 0x1p+1023 = true
  /\ B64.same_as_kernel sub B64.sub 0x1p-1074 0x1p-1073 = true
  /\ B64.same_as_kernel div B64.div 0x1p-1074 2 = true
  /\ B64.same_as_kernel add B64.add 0x1p+53 1 = true.
Proof. vm_compute. repeat split. Qed.

End KernelFloats.

(** ** Startup validation *)

Lemma str_in_spec (s : string) (l : list string) : str_in s l = true <-> In s l.
Proof.
  unfold str_in. rewrite existsb_exists. split.
  - intros (x & Hx & Heq). apply String.eqb_eq in Heq. now subst.
  - intros H. exists s. split; [assumption | apply String.eqb_refl].
Qed.

Lemma gt_flags_conflict_spec (a : Bunch) :
  gt_flags_conflict a = true <->
  no_gt a = true /\
  (debug_gt_graph a = true \/ debug_gt_z a = true \/ debug_gt_w a = true).
Proof.
  unfold gt_flags_conflict.
  destruct (no_gt a), (debug_gt_graph a), (debug_gt_z a), (debug_gt_w a);
    simpl; intuition congruence.
Qed.

(** *** Which exceptions arithmetic and comparisons raise *)

Lemma float_of_int_raises (z : Z) (e : exn) :
  float_of_int z = Raise e -> e = OverflowError.
Proof.
  unfold float_of_int. destruct (B64.of_Z z); intros H; now inversion H.
Qed.

Lemma float_of_int_1 : float_of_int 1 = Ok (B64.Fin 1).
Proof. reflexivity. Qed.

Lemma num_add_raises (x y : number) (e : exn) :
  num_add x y = Raise e -> e = OverflowError.
Proof.
  destruct x as [a|f], y as [b|g]; cbn [num_add]; try discriminate.
  - destruct (float_of_int a) eqn:E; [discriminate|].
    intros H. inversion H; subst. eapply float_of_int_raises, E.
  - destruct (float_of_int b) eqn:E; [discriminate|].
    intros H. inversion H; subst. eapply float_of_int_raises, E.
Qed.

Lemma num_sub_raises (x y : number) (e : exn) :
  num_sub x y = Raise e -> e = OverflowError.
Proof.
  destruct x as [a|f], y as [b|g]; cbn [num_sub]; try discriminate.
  - destruct (float_of_int a) eqn:E; [discriminate|].
    intros H. inversion H; subst. eapply float_of_int_raises, E.
  - destruct (float_of_int b) eqn:E; [discriminate|].
    intros H. inversion H; subst. eapply float_of_int_raises, E.
Qed.

Lemma py_add_raises (a b : pyval) (e : exn) :
  py_add a b = Raise e -> e = TypeError \/ e = OverflowError.
Proof.
  unfold py_add.
  destruct (as_number a) as [x|] eqn:Ea, (as_number b) as [y|] eqn:Eb.
  - intros H. right. eapply num_add_raises, H.
  - destruct a, b; intros H; inversion H; auto.
  - destruct a, b; intros H; inversion H; auto.
  - destruct a, b; intros H; inversion H; auto.
Qed.

Lemma py_sub_raises (a b : pyval) (e : exn) :
  py_sub a b = Raise e -> e = TypeError \/ e = OverflowError.
Proof.
  unfold py_sub.
  destruct (as_number a) as [x|], (as_number b) as [y|];
    intros H; try (inversion H; auto; fail).
  right. eapply num_sub_raises, H.
Qed.

Lemma py_le_int_raises (v : pyval) (z : Z) (e : exn) :
  py_le_int v z = Raise e -> e = TypeError /\ as_number v = None.
Proof.
  unfold py_le_int. destruct (as_number v); intros H; inversion H; auto.
Qed.

Lemma py_gt_int_raises (v : pyval) (z : Z) (e : exn) :
  py_gt_int v z = Raise e -> e = TypeError.
Proof.
  unfold py_gt_int. destruct (as_number v); intros H; now inversion H.
Qed.

Lemma py_gt_num_raises (a b : pyval) (e : exn) :
  py_gt_num a b = Raise e -> e = TypeError.
Proof.
  unfold py_gt_num. destruct (as_number a), (as_number b);
    intros H; now inversion H.
Qed.

(** *** The steps of [assert_args] *)

Lemma dims_raises (a : Bunch) (e : exn) :
  latent_dims_invalid a = Raise e -> e = TypeError.
Proof.
  unfold latent_dims_invalid, dims_missing_or_nonpositive.
  destruct (latent a); [|discriminate].
  destruct (is_None (d_z a)); [discriminate|].
  destruct (is_None (d_x a)); [discriminate|].
  destruct (py_le_int (d_z a) 0) as [[]|e'] eqn:Ez; cbn [rbind].
  - discriminate.
  - intros H. eapply py_le_int_raises, H.
  - intros H. inversion H; subst. eapply py_le_int_raises, Ez.
Qed.

Lemma is_None_spec (v : pyval) : is_None v = true <-> v = PNone.
Proof. destruct v; cbn; split; congruence. Qed.

(** Line 149 holds exactly when one of its four tests holds, as far as
    the tests before it can be evaluated. *)
Lemma dims_true (a : Bunch) :
  latent_dims_invalid a = Ok true ->
  latent a = true
  /\ (d_z a = PNone \/ d_x a = PNone
      \/ py_le_int (d_z a) 0 = Ok true \/ py_le_int (d_x a) 0 = Ok true).
Proof.
  unfold latent_dims_invalid, dims_missing_or_nonpositive.
  destruct (latent a); [|discriminate]. intros H. split; [reflexivity|].
  revert H.
  destruct (is_None (d_z a)) eqn:Nz; [left; now apply is_None_spec|].
  destruct (is_None (d_x a)) eqn:Nx; [right; left; now apply is_None_spec|].
  destruct (py_le_int (d_z a) 0) as [[]|e'] eqn:Ez; cbn [rbind];
    intros H; first [discriminate H | auto].
Qed.

Lemma dims_false (a : Bunch) :
  latent_dims_invalid a = Ok false ->
  latent a = false
  \/ (exists x y, as_number (d_z a) = Some x /\ as_number (d_x a) = Some y
                  /\ py_le_int (d_z a) 0 = Ok false
                  /\ py_le_int (d_x a) 0 = Ok false).
Proof.
  unfold latent_dims_invalid, dims_missing_or_nonpositive.
  destruct (latent a); [|auto]. right.
  destruct (is_None (d_z a)) eqn:Nz; [discriminate|].
  destruct (is_None (d_x a)) eqn:Nx; [discriminate|].
  destruct (py_le_int (d_z a) 0) as [[]|e'] eqn:Ez; cbn [rbind] in *;
    try discriminate.
  unfold py_le_int in *.
  destruct (as_number (d_z a)) as [x|]; [|discriminate].
  destruct (as_number (d_x a)) as [y|]; [|discriminate].
  exists x, y. auto.
Qed.


Lemma derive_ratio_valid_frame (a a' : Bunch) :
  derive_ratio_valid a = Ok a' ->
  a' = set_ratio_valid (ratio_valid a') a
  /\ ratio_train a' = ratio_train a /\ data_format a' = data_format a
  /\ optimizer a' = optimizer a /\ latent a' = latent a
  /\ d_z a' = d_z a /\ d_x a' = d_x a /\ debug_gt_z a' = debug_gt_z a.
Proof.
  unfold derive_ratio_valid. destruct (py_eq_int _ _).
  - destruct (py_sub _ _); cbn [rbind]; intros H; inversion H; subst.
    repeat split.
  - intros H; inversion H; subst. destruct a'; repeat split.
Qed.

Lemma derive_ratio_valid_raises (a : Bunch) (e : exn) :
  derive_ratio_valid a = Raise e -> e = TypeError \/ e = OverflowError.
Proof.
  unfold derive_ratio_valid. destruct (py_eq_int _ _); [|discriminate].
  destruct (py_sub _ _) eqn:E; cbn [rbind]; [discriminate|].
  intros H. inversion H; subst. eapply py_sub_raises, E.
Qed.

Lemma ratio_sum_exceeds_raises (a : Bunch) (e : exn) :
  ratio_sum_exceeds a = Raise e -> e = TypeError \/ e = OverflowError.
Proof.
  unfold ratio_sum_exceeds. destruct (py_add _ _) eqn:E; cbn [rbind].
  - intros H. left. eapply py_gt_int_raises, H.
  - intros H. inversion H; subst. eapply py_add_raises, E.
Qed.

Lemma arg_warnings_raises (a : Bunch) (e : exn) :
  arg_warnings a = Raise e -> e = TypeError.
Proof.
  unfold arg_warnings. destruct (latent a); [|discriminate].
  destruct (py_gt_num _ _) eqn:E; cbn [rbind]; [discriminate|].
  intros H. inversion H; subst. eapply py_gt_num_raises, E.
Qed.

(** The outcomes of [assert_args], step by step. *)
Ltac validation a :=
  unfold assert_args;
  destruct (gt_flags_conflict a) eqn:Vg;
  [| destruct (latent_dims_invalid a) as [[]|el] eqn:Vl; cbn [rbind];
     [| destruct (derive_ratio_valid a) as [va|ed] eqn:Vd; cbn [rbind];
        [ destruct (ratio_sum_exceeds va) as [[]|er] eqn:Vr; cbn [rbind];
          [| destruct (str_in (data_format va) supported_dataformat) eqn:Vf;
             cbn [negb];
             [ destruct (str_in (optimizer va) supported_optimizer) eqn:Vo;
               cbn [negb];
               [ destruct (arg_warnings va) as [vws|ew] eqn:Vw; cbn [rbind] | ]
             | ]
          | ]
        | ]
     | ] ].

Lemma not_str_in (s : string) (l : list string) : str_in s l = false -> ~ In s l.
Proof. intros H Hin. apply str_in_spec in Hin. congruence. Qed.

(** Every [ValueError] of [assert_args] tells the truth. *)
Lemma assert_args_value_error (a : Bunch) (c : config_error) :
  assert_args a = Raise (ValueError c) -> combination_holds c a.
Proof.
  validation a; intros H; inversion H; subst; clear H; cbn [combination_holds].
  - now apply gt_flags_conflict_spec.
  - now apply dims_true.
  - eauto.
  - discriminate (proj1 (A := ValueError c = TypeError) (conj (arg_warnings_raises _ _ Vw) I)).
  - destruct (derive_ratio_valid_frame _ _ Vd) as (_ & _ & _ & Eo & _).
    split; [exact Eo | now apply not_str_in].
  - destruct (derive_ratio_valid_frame _ _ Vd) as (_ & _ & Ef & _).
    split; [exact Ef | now apply not_str_in].
  - destruct (ratio_sum_exceeds_raises _ _ Vr); discriminate.
  - destruct (derive_ratio_valid_raises _ _ Vd); discriminate.
  - discriminate (dims_raises _ _ Vl).
Qed.

(** What a configuration that [assert_args] returns has passed. *)
Lemma assert_args_returns (a a' : Bunch) (ws : list warning) :
  assert_args a = Ok (a', ws) ->
  gt_flags_conflict a = false
  /\ latent_dims_invalid a = Ok false
  /\ derive_ratio_valid a = Ok a'
  /\ ratio_sum_exceeds a' = Ok false
  /\ str_in (data_format a') supported_dataformat = true
  /\ str_in (optimizer a') supported_optimizer = true
  /\ arg_warnings a' = Ok ws.
Proof.
  validation a; intros H; inversion H; subst; clear H. repeat split; assumption.
Qed.




(** Once line 149 has passed, line 170 compares two numbers. *)
Lemma arg_warnings_decided (a va : Bunch) :
  latent_dims_invalid a = Ok false ->
  derive_ratio_valid a = Ok va ->
  exists ws, arg_warnings va = Ok ws.
Proof.
  intros Vl Vd.
  destruct (derive_ratio_valid_frame _ _ Vd) as (_ & _ & _ & _ & El & Ez & Ex & _).
  unfold arg_warnings. rewrite El, Ez, Ex.
  destruct (dims_false _ Vl) as [H|(x & y & Hx & Hy & _)].
  - rewrite H. cbn [rbind]. eauto.
  - destruct (latent a); cbn [rbind]; [|eauto].
    unfold py_gt_num. rewrite Hx, Hy. cbn [rbind]. eauto.
Qed.




(** *** The derived ratio *)

(** C3.  When [ratio_valid] is 0 and [ratio_train] is a number between 0
    and 1, [assert_args] sets [ratio_valid] to [1 - ratio_train], computed
    as Python computes it, before the test of the sum; the sum then passes
    the test, [assert_args] never raises the ratio error, and every
    configuration it returns carries the derived value. *)
Theorem derived_ratio_valid_passes (a : Bunch) :
  py_eq_int (ratio_valid a) 0 = true ->
  in_unit (ratio_train a) ->
  exists v,
    py_sub (PInt 1) (ratio_train a) = Ok v
    /\ derive_ratio_valid a = Ok (set_ratio_valid v a)
    /\ ratio_sum_exceeds (set_ratio_valid v a) = Ok false
    /\ assert_args a <> Raise (ValueError RatioSum)
    /\ (forall a' ws, assert_args a = Ok (a', ws) ->
          ratio_valid a' = v /\ ratio_train a' = ratio_train a)
    /\ (gt_flags_conflict a = false -> latent_dims_invalid a = Ok false ->
        In (data_format a) supported_dataformat ->
        In (optimizer a) supported_optimizer ->
        exists ws, assert_args a = Ok (set_ratio_valid v a, ws)).
Proof.
  intros H0 Hu.
  assert (Hv : exists v, py_sub (PInt 1) (ratio_train a) = Ok v
                /\ ratio_sum_exceeds (set_ratio_valid v a) = Ok false).
  { unfold in_unit in Hu. unfold py_sub, ratio_sum_exceeds, py_add.
    cbn [ratio_train ratio_valid set_ratio_valid as_number].
    destruct (as_number (ratio_train a)) as [[z|[q| |]]|] eqn:Ex;
      try contradiction.
    - eexists. split; [reflexivity|]. cbn [as_number num_add rbind py_gt_int num_ltb].
      f_equal. apply Z.ltb_ge. lia.
    - destruct Hu as [Hq0 Hq1].
      destruct (complement_sum q Hq0 Hq1) as (r & s & Hr & Hs & Hle).
      cbn [num_sub]. rewrite float_of_int_1. cbn [rbind]. rewrite Hr.
      eexists. split; [reflexivity|].
      cbn [as_number num_add rbind]. rewrite Hs.
      cbn [py_gt_int as_number num_ltb B64.ltb]. f_equal.
      apply negb_false_iff. apply Qle_bool_iff. exact Hle. }
  destruct Hv as (v & Hsub & Hsum). exists v.
  assert (Hder : derive_ratio_valid a = Ok (set_ratio_valid v a)).
  { unfold derive_ratio_valid. now rewrite H0, Hsub. }
  split; [exact Hsub|]. split; [exact Hder|]. split; [exact Hsum|].
  split; [|split].
  - intros H. apply assert_args_value_error in H. cbn [combination_holds] in H.
    destruct H as (a' & Ha & Hex). congruence.
  - intros a' ws H. apply assert_args_returns in H.
    destruct H as (_ & _ & Ha & _). rewrite Hder in Ha. inversion Ha; subst.
    split; reflexivity.
  - intros Hg Hl Hf Ho.
    destruct (arg_warnings_decided a _ Hl Hder) as (ws & Hws).
    exists ws. unfold assert_args. rewrite Hg, Hl. cbn [rbind].
    rewrite Hder. cbn [rbind]. rewrite Hsum. cbn [rbind].
    cbn [data_format optimizer set_ratio_valid].
    apply str_in_spec in Hf. apply str_in_spec in Ho.
    rewrite Hf, Ho. cbn [negb]. now rewrite Hws.
Qed.

Lemma derived_ratio_valid_passes_witness :
  derive_ratio_valid Examples.hp0
  = Ok (set_ratio_valid (PFloat (B64.sub (B64.Fin 1) (B64.lit (8 # 10))))
                        Examples.hp0)
  /\ assert_args Examples.hp0 <> Raise (ValueError RatioSum).
Proof.
  assert (H0 : py_eq_int (ratio_valid Examples.hp0) 0 = true) by reflexivity.
  assert (H1 : in_unit (ratio_train Examples.hp0)).
  { vm_compute. split; discriminate. }
  destruct (derived_ratio_valid_passes Examples.hp0 H0 H1)
    as (v & Hs & Hd & _ & Hn & _).
  split; [|exact Hn]. rewrite Hd. f_equal. f_equal.
  vm_compute in Hs. inversion Hs. vm_compute. reflexivity.
Defined.

(** C3, as the claim states it, fails: [ratio_train = -1.0000000000000007],
    the binary64 value [-(1 + 3 / 2^52)], is at most 1, [ratio_valid] is 0,
    the derived value is 2.0000000000000009, which is [2 + 4 / 2^52] and
    not [1 - ratio_train], and the sum, rounded, is 1.0000000000000002,
    for which [assert_args] raises the ratio error. *)
Lemma derived_ratio_can_fail_the_sum_test :
  py_eq_int (ratio_valid MoreExamples.hp_negative_ratio) 0 = true
  /\ ratio_train MoreExamples.hp_negative_ratio
     = PFloat (B64.Fin (-4503599627370499 # 4503599627370496))
  /\ py_le_int (ratio_train MoreExamples.hp_negative_ratio) 1 = Ok true
  /\ (let? a := derive_ratio_valid MoreExamples.hp_negative_ratio in
      Ok (ratio_valid a))
     = Ok (PFloat (B64.Fin (2251799813685249 # 1125899906842624)))
  /\ ~ (1 - (-4503599627370499 # 4503599627370496)
        == 2251799813685249 # 1125899906842624)%Q
  /\ py_add (ratio_train MoreExamples.hp_negative_ratio)
            (PFloat (B64.Fin (2251799813685249 # 1125899906842624)))
     = Ok (PFloat (B64.Fin (4503599627370497 # 4503599627370496)))
  /\ assert_args MoreExamples.hp_negative_ratio = Raise (ValueError RatioSum).
Proof.
  split; [reflexivity|]. split; [vm_compute; reflexivity|].
  split; [vm_compute; reflexivity|]. split; [vm_compute; reflexivity|].
  split; [intros H; vm_compute in H; discriminate H|].
  split; vm_compute; reflexivity.
Qed.

(** ** The driver *)

(** Case analysis on everything the outside world answers during [main]. *)
Ltac main_step w hp :=
  match goal with
  | |- context [path_exists w ?p] => destruct (path_exists w p)
  | |- context [dataloader_d w] => destruct (dataloader_d w) as [?d|?]
  | |- context [model_init w] => destruct (model_init w) as [[]|?]
  | |- context [trainer_init w] => destruct (trainer_init w) as [[]|?]
  | |- context [train_with_QPM w] => destruct (train_with_QPM w) as [?out|?]
  | |- context [no_gt hp] => destruct (no_gt hp)
  | |- context [set_trace w] => destruct (set_trace w) as [[]|?]
  end.

Ltac main_cases w hp :=
  unfold main, save_final_results, pbind, emit, lift, when, pret;
  cbn [app fst snd negb no_gt set_exp_path];
  repeat (main_step w hp; cbn [app fst snd negb no_gt set_exp_path]).

(** The trace of [main] begins with the two seeds; what follows sets no
    seed and builds the data loader. *)
Lemma main_starts_with_seeds
      (ndarray : Type) (edge_errors : ndarray -> ndarray -> gmap string pyval)
      (shd f1_score : ndarray -> ndarray -> pyval)
      (w : env ndarray) (hp : Bunch) :
  exists rest,
    (main edge_errors shd f1_score w hp []).1 =
      TorchManualSeed (random_seed hp) :: NumpyRandomSeed (random_seed hp) :: rest
    /\ Forall (fun e => is_seed e = false) rest
    /\ Exists (fun e => draws_randomness e = true) rest.
Proof.
  main_cases w hp;
    (eexists; split; [reflexivity|]; split;
     [ repeat (constructor; [reflexivity|]); constructor
     | repeat first [ apply Exists_cons_hd; reflexivity | apply Exists_cons_tl ] ]).
Qed.

(** C6.  In every run of [main] the trace begins with the torch seed and
    the numpy seed, no later event sets a seed, and every event that builds
    the data loader, the model or the trainer, or that trains, comes at a
    position after both seeds. *)
Theorem seeds_set_once_before_data_and_model
        (ndarray : Type) (edge_errors : ndarray -> ndarray -> gmap string pyval)
        (shd f1_score : ndarray -> ndarray -> pyval)
        (w : env ndarray) (hp : Bunch) :
  exists rest,
    (main edge_errors shd f1_score w hp []).1 =
      TorchManualSeed (random_seed hp) :: NumpyRandomSeed (random_seed hp) :: rest
    /\ Forall (fun e => is_seed e = false) rest
    /\ (forall i e, (main edge_errors shd f1_score w hp []).1 !! i = Some e ->
                    draws_randomness e = true -> (2 <= i)%nat)
    /\ Exists (fun e => draws_randomness e = true) rest.
Proof.
  destruct (main_starts_with_seeds ndarray edge_errors shd f1_score w hp)
    as (rest & Heq & Hns & Hex).
  exists rest. repeat split; try assumption.
  intros i e Hi He. rewrite Heq in Hi.
  destruct i as [|[|i]]; [| |lia]; cbn in Hi; inversion Hi; subst; discriminate.
Qed.

(** Every run either stops in [assert_args] with an empty trace or is a run
    of [main] on the configuration that [assert_args] returns. *)
Lemma run_cases (ndarray : Type) (edge_errors : ndarray -> ndarray -> gmap string pyval)
      (shd f1_score : ndarray -> ndarray -> pyval) (w : env ndarray) (a : Bunch) :
  (exists e, assert_args a = Raise e /\
             run edge_errors shd f1_score w a = ([], Raise e))
  \/ (exists a' ws, assert_args a = Ok (a', ws) /\
                    run edge_errors shd f1_score w a =
                      main edge_errors shd f1_score w a' []).
Proof.
  unfold run, checked_main, pbind, lift.
  destruct (assert_args a) as [[a' ws]|e]; [right|left]; eauto.
Qed.

(** A run that passes [assert_args] is seeded as [main] is; a run that does
    not has an empty trace. *)
Lemma run_seeds_first (ndarray : Type)
      (edge_errors : ndarray -> ndarray -> gmap string pyval)
      (shd f1_score : ndarray -> ndarray -> pyval) (w : env ndarray) (a : Bunch) :
  (run edge_errors shd f1_score w a).1 = []
  \/ exists seed rest,
       (run edge_errors shd f1_score w a).1 =
         TorchManualSeed seed :: NumpyRandomSeed seed :: rest
       /\ Forall (fun e => is_seed e = false) rest.
Proof.
  destruct (run_cases ndarray edge_errors shd f1_score w a)
    as [(e & _ & ->)|(a' & ws & _ & ->)]; [left; reflexivity|right].
  destruct (main_starts_with_seeds ndarray edge_errors shd f1_score w a')
    as (rest & Heq & Hns & _).
  exists (random_seed a'), rest. split; assumption.
Qed.

(** C9.  When the data loader is built and reports the feature dimension
    [d], the model is constructed with
    [num_input = d * (tau + 1) * (2 * tau_neigh + 1)] if instantaneous
    connections are enabled and [d * tau * (2 * tau_neigh + 1)] otherwise,
    and no model is constructed with any other input size. *)
Theorem model_num_input
        (ndarray : Type) (edge_errors : ndarray -> ndarray -> gmap string pyval)
        (shd f1_score : ndarray -> ndarray -> pyval)
        (w : env ndarray) (hp : Bunch) (d : Z) :
  dataloader_d w = Ok d ->
  let expected :=
    if instantaneous hp then d * (tau hp + 1) * (2 * tau_neigh hp + 1)
    else d * tau hp * (2 * tau_neigh hp + 1) in
  (exists hp', In (NewModel (class_of hp) expected d hp')
                  (main edge_errors shd f1_score w hp []).1)
  /\ (forall c n d' hp',
        In (NewModel c n d' hp') (main edge_errors shd f1_score w hp []).1 ->
        c = (if latent hp then LatentTSDCD else TSDCD) /\ d' = d /\ n = expected).
Proof.
  intros Hd expected.
  assert (Hn : forall p, num_input_of (set_exp_path p hp) d = expected).
  { intros p. unfold num_input_of, expected.
    cbn [instantaneous tau tau_neigh set_exp_path].
    destruct (instantaneous hp); ring. }
  assert (Hc : forall p, class_of (set_exp_path p hp) = class_of hp) by reflexivity.
  assert (Hl : class_of hp = if latent hp then LatentTSDCD else TSDCD).
  { unfold class_of. now destruct (latent hp). }
  unfold main, save_final_results, pbind, emit, lift, when, pret.
  rewrite Hd. cbn [app fst snd negb no_gt set_exp_path].
  repeat (main_step w hp; cbn [app fst snd negb no_gt set_exp_path]);
    rewrite ?Hn, ?Hc;
    (split;
     [ eexists; cbn [In]; auto 8
     | intros c n d' hp' Hin; cbn [In] in Hin;
       repeat (destruct Hin as [Hin|Hin]; try discriminate Hin);
       try contradiction; inversion Hin; subst; rewrite <- Hl; auto ]).
Qed.

Lemma model_num_input_witness :
  dataloader_d Examples.world_ok = Ok 3 /\
  exists hp', In (NewModel TSDCD 18 3 hp')
                 (main Examples.edge_errors0 Examples.shd0 Examples.f1_score0
                       Examples.world_ok Examples.hp0 []).1.
Proof.
  split; [reflexivity|].
  exact (proj1 (model_num_input unit Examples.edge_errors0 Examples.shd0
                  Examples.f1_score0 Examples.world_ok Examples.hp0 3 eq_refl)).
Defined.

(** ** Final results *)

(** When the debugger session is continued, [main] ends by reading the
    adjacency, printing and writing the record of edge errors with the
    structural Hamming distance and the F1 score added, next to
    [params.json], which was written before training. *)
Lemma results_written_when_debugger_continues
      (ndarray : Type) (edge_errors : ndarray -> ndarray -> gmap string pyval)
      (shd f1_score : ndarray -> ndarray -> pyval)
      (w : env ndarray) (hp : Bunch) (d : Z) (out : ndarray * ndarray) :
  no_gt hp = false ->
  dataloader_d w = Ok d ->
  model_init w = Ok tt ->
  trainer_init w = Ok tt ->
  train_with_QPM w = Ok out ->
  set_trace w = Ok tt ->
  let dir := path_join (exp_path hp) (exp_dir hp) in
  let errors := <["f1" := f1_score out.1 out.2]>
                  (<["shd" := shd out.1 out.2]> (edge_errors out.1 out.2)) in
  exists before,
    main edge_errors shd f1_score w hp [] =
      (before ++ [WriteParams (path_join dir "params.json") (set_exp_path dir hp);
                  NewTrainer (class_of hp); TrainWithQPM; SetTrace; GetAdj;
                  PrintErrors errors;
                  WriteResults (path_join dir "results.json") errors],
       Ok tt).
Proof.
  intros Hgt Hd Hm Hi Ht Hs dir errors.
  unfold main, save_final_results, pbind, emit, lift, when, pret.
  rewrite Hd, Hm, Hi, Ht. cbn [app fst snd negb no_gt set_exp_path exp_path].
  rewrite Hgt, Hs. cbn [app fst snd negb].
  repeat (main_step w hp; cbn [app fst snd negb]).
  - eexists [_; _; _; _; _]. reflexivity.
  - eexists [_; _; _; _; _; _]. reflexivity.
  - eexists [_; _; _; _; _; _]. reflexivity.
  - eexists [_; _; _; _; _; _; _]. reflexivity.
Qed.

(** Without ground truth no results record is written. *)
Lemma no_results_without_ground_truth
      (ndarray : Type) (edge_errors : ndarray -> ndarray -> gmap string pyval)
      (shd f1_score : ndarray -> ndarray -> pyval)
      (w : env ndarray) (hp : Bunch) :
  no_gt hp = true ->
  Forall (fun e => is_write_results e = false)
         (main edge_errors shd f1_score w hp []).1.
Proof.
  intros Hgt.
  unfold main, save_final_results, pbind, emit, lift, when, pret.
  cbn [app fst snd negb no_gt set_exp_path]. rewrite Hgt.
  repeat (main_step w hp; cbn [app fst snd negb no_gt set_exp_path]);
    repeat (constructor; [reflexivity|]); constructor.
Qed.

(** C4.  With ground truth available and training finished, the call of
    [ipdb.set_trace()] at line 127 stands before the computation of the
    results: when the session does not return ([BdbQuit] on [q] or at end
    of input, [ImportError] without ipdb), [main] ends with that exception
    after [train_with_QPM] and writes no results record. *)
Theorem results_lost_when_debugger_raises
        (ndarray : Type) (edge_errors : ndarray -> ndarray -> gmap string pyval)
        (shd f1_score : ndarray -> ndarray -> pyval)
        (w : env ndarray) (hp : Bunch) (d : Z) (out : ndarray * ndarray) (e : exn) :
  no_gt hp = false ->
  dataloader_d w = Ok d ->
  model_init w = Ok tt ->
  trainer_init w = Ok tt ->
  train_with_QPM w = Ok out ->
  set_trace w = Raise e ->
  (main edge_errors shd f1_score w hp []).2 = Raise e
  /\ In TrainWithQPM (main edge_errors shd f1_score w hp []).1
  /\ In SetTrace (main edge_errors shd f1_score w hp []).1
  /\ Forall (fun ev => is_write_results ev = false)
            (main edge_errors shd f1_score w hp []).1.
Proof.
  intros Hgt Hd Hm Hi Ht Hs.
  unfold main, save_final_results, pbind, emit, lift, when, pret.
  rewrite Hd, Hm, Hi, Ht. cbn [app fst snd negb no_gt set_exp_path exp_path].
  rewrite Hgt, Hs. cbn [app fst snd negb].
  repeat (main_step w hp; cbn [app fst snd negb]);
    (split; [reflexivity|]; split; [cbn [In]; auto 12|];
     split; [cbn [In]; auto 12|]; repeat (constructor; [reflexivity|]); constructor).
Qed.

Lemma results_lost_when_debugger_raises_witness :
  (main Examples.edge_errors0 Examples.shd0 Examples.f1_score0
        Examples.world_quit Examples.hp0 []).2 = Raise BdbQuit
  /\ Forall (fun ev => is_write_results ev = false)
            (main Examples.edge_errors0 Examples.shd0 Examples.f1_score0
                  Examples.world_quit Examples.hp0 []).1.
Proof.
  destruct (results_lost_when_debugger_raises unit Examples.edge_errors0
              Examples.shd0 Examples.f1_score0 Examples.world_quit Examples.hp0
              3 (tt, tt) BdbQuit eq_refl eq_refl eq_refl eq_refl eq_refl eq_refl)
    as (Hr & _ & _ & Hw).
  split; [exact Hr | exact Hw].
Defined.

(** ** [moving_average] *)

(** The function on small inputs: a window that fits, the whole array, a
    window longer than the array, and the two windows that numpy treats
    apart, 0 and a negative one. *)
Example moving_average_2_of_4 :
  moving_average (map B64.of_Z [1; 2; 3; 4]) 2
  = Ok (map B64.Fin [3 # 2; 5 # 2; 7 # 2]%Q).
Proof. vm_compute. reflexivity. Qed.

Example moving_average_4_of_4 :
  moving_average (map B64.of_Z [1; 2; 3; 4]) 4 = Ok [B64.Fin (5 # 2)].
Proof. vm_compute. reflexivity. Qed.

Example moving_average_5_of_4 :
  moving_average (map B64.of_Z [1; 2; 3; 4]) 5 = Ok [].
Proof. vm_compute. reflexivity. Qed.

Example moving_average_0_of_4 :
  moving_average (map B64.of_Z [1; 2; 3; 4]) 0
  = Raise (ShapeError "operands could not be broadcast together").
Proof. vm_compute. reflexivity. Qed.

Example moving_average_minus_1_of_4 :
  moving_average (map B64.of_Z [1; 2; 3; 4]) (-1) = Ok (map B64.of_Z [-6; -9]).
Proof. vm_compute. reflexivity. Qed.

Lemma cumsum_from_length (a : list B64.t) (acc : B64.t) :
  length (cumsum_from acc a) = length a.
Proof. revert acc. induction a as [|x a IH]; intros acc; simpl; auto. Qed.

Lemma cumsum_length (a : list B64.t) : length (cumsum a) = length a.
Proof. destruct a; simpl; [reflexivity|]. now rewrite cumsum_from_length. Qed.

Lemma Qsum_app (l1 l2 : list Q) : (Qsum (l1 ++ l2) == Qsum l1 + Qsum l2)%Q.
Proof. induction l1 as [|x l1 IH]; simpl; [ring | rewrite IH; ring]. Qed.

Lemma take_plus_split {A} (k m : nat) (l : list A) :
  take (k + m) l = take k l ++ take m (drop k l).
Proof.
  revert l. induction k as [|k IH]; intros l; [reflexivity|].
  destruct l as [|x l]; simpl.
  - now destruct m.
  - now rewrite IH.
Qed.

(** The window of [n] values from position [k] as a difference of two
    prefix sums. *)
Lemma Qsum_window (k m : nat) (l : list Q) :
  (Qsum (take (k + m) l) - Qsum (take k l) == Qsum (take m (drop k l)))%Q.
Proof. rewrite take_plus_split, Qsum_app. ring. Qed.

(** For a window that fits, the three slices are a drop and two takes, no
    broadcasting takes place, and the result is the tail of the updated
    cumulative sum divided by [n]. *)
Lemma moving_average_unfold (a : list B64.t) (m : nat) :
  (1 <= m <= length a)%nat ->
  moving_average a (Z.of_nat m) =
    Ok (map (fun x => B64.div x (B64.of_Z (Z.of_nat m)))
            (drop (m - 1)
                  (take m (cumsum a) ++
                   zip_with B64.sub (drop m (cumsum a))
                            (take (length a - m) (cumsum a))))).
Proof.
  intros Hm. unfold moving_average.
  set (ret := cumsum a).
  assert (Hlen : length ret = length a) by apply cumsum_length.
  assert (H1 : py_slice ret (Some (Z.of_nat m)) None = drop m ret).
  { unfold py_slice, slice_bound. rewrite Hlen.
    destruct (Z.ltb_spec (Z.of_nat m) 0); [lia|].
    rewrite Z.min_l by lia. rewrite Nat2Z.id.
    apply take_ge. rewrite length_drop. lia. }
  assert (H2 : py_slice ret None (Some (- Z.of_nat m)) = take (length a - m) ret).
  { unfold py_slice, slice_bound. rewrite Hlen.
    destruct (Z.ltb_spec (- Z.of_nat m) 0); [|lia].
    rewrite Z.max_l by lia. cbn [Z.to_nat drop]. f_equal. lia. }
  rewrite H1, H2. unfold sub1.
  rewrite length_drop, length_take, Hlen.
  rewrite (proj2 (Nat.eqb_eq _ _)) by lia.
  cbn [rbind]. unfold assign_from, slice_bound. rewrite Hlen.
  destruct (Z.ltb_spec (Z.of_nat m) 0); [lia|].
  rewrite Z.min_l by lia. rewrite Nat2Z.id.
  rewrite length_zip_with, length_drop, length_take, Hlen.
  rewrite (proj2 (Nat.eqb_eq _ _)) by lia.
  cbn [rbind]. f_equal. f_equal.
  unfold py_slice, slice_bound.
  rewrite length_app, length_take, length_zip_with, length_drop, length_take, Hlen.
  destruct (Z.ltb_spec (Z.of_nat m - 1) 0); [lia|].
  rewrite Z.min_l by lia.
  replace (Z.to_nat (Z.of_nat m - 1)) with (m - 1)%nat by lia.
  apply take_ge. rewrite length_drop, length_app, length_take, length_zip_with,
                   length_drop, length_take, Hlen. lia.
Qed.

(** *** Sums that do not round *)

Lemma round_proper (x y : Q) : (x == y)%Q -> B64.round x = B64.round y.
Proof.
  intros H. unfold B64.round, B64.rnd. now rewrite (Qred_complete x y H).
Qed.

Lemma exact_proper (x y : Q) : (x == y)%Q -> B64.exact x -> B64.exact y.
Proof.
  unfold B64.exact. intros H Hx.
  now rewrite <- (round_proper x y H), <- (Qred_complete x y H).
Qed.

Lemma Qsum_take_S (q : Q) (qs : list Q) (k : nat) :
  Qsum (take (S k) (q :: qs)) = (q + Qsum (take k qs))%Q.
Proof. reflexivity. Qed.

Lemma Qsum_take_0 (qs : list Q) : Qsum (take 0 qs) = 0%Q.
Proof. now rewrite take_0. Qed.

Ltac sum_simpl := rewrite ?Qsum_take_S, ?Qsum_take_0.

(** While the running sums are exact, [np.cumsum] holds the sums of the
    prefixes. *)
Lemma cumsum_from_exact (qs : list Q) :
  forall (acc P : Q),
    (acc == P)%Q ->
    (forall j, (j < length qs)%nat -> B64.exact (P + Qsum (take (S j) qs))) ->
    forall i c, cumsum_from (B64.Fin acc) (map B64.Fin qs) !! i = Some c ->
      exists u, c = B64.Fin u /\ (u == P + Qsum (take (S i) qs))%Q.
Proof.
  induction qs as [|q qs IH]; intros acc P Hacc Hex i c Hi; [discriminate|].
  cbn [map cumsum_from] in Hi.
  assert (Hstep : B64.add (B64.Fin acc) (B64.Fin q)
                  = B64.Fin (Qred (P + Qsum (take 1 (q :: qs))))).
  { cbn [B64.add]. sum_simpl.
    rewrite (round_proper (acc + q) (P + (q + 0))) by (rewrite Hacc; ring).
    apply (Hex 0%nat). cbn. lia. }
  rewrite Hstep in Hi.
  destruct i as [|i]; cbn [lookup list_lookup] in Hi.
  - inversion Hi; subst. eexists. split; [reflexivity|]. apply Qred_correct.
  - destruct (IH (Qred (P + Qsum (take 1 (q :: qs)))) (P + q)%Q) with (i := i) (c := c)
      as (u & -> & Hu).
    + rewrite Qred_correct. sum_simpl. ring.
    + intros j Hj. apply (exact_proper (P + Qsum (take (S (S j)) (q :: qs)))).
      * sum_simpl. ring.
      * apply Hex. cbn. lia.
    + exact Hi.
    + exists u. split; [reflexivity|]. rewrite Hu.
      sum_simpl. ring.
Qed.

Lemma cumsum_exact (qs : list Q) :
  (forall k, (2 <= k <= length qs)%nat -> B64.exact (Qsum (take k qs))) ->
  forall i c, cumsum (map B64.Fin qs) !! i = Some c ->
    exists u, c = B64.Fin u /\ (u == Qsum (take (S i) qs))%Q.
Proof.
  intros Hex i c Hi. destruct qs as [|q qs]; [discriminate|].
  cbn [map cumsum] in Hi. destruct i as [|i]; cbn [lookup list_lookup] in Hi.
  - inversion Hi; subst. exists q. split; [reflexivity|].
    sum_simpl. ring.
  - destruct (cumsum_from_exact qs q q) with (i := i) (c := c) as (u & -> & Hu).
    + reflexivity.
    + intros j Hj. apply (exact_proper (Qsum (take (S (S j)) (q :: qs)))).
      * sum_simpl. ring.
      * apply Hex. cbn [length]. lia.
    + exact Hi.
    + exists u. split; [reflexivity|]. rewrite Hu.
      sum_simpl. ring.
Qed.

(** C10.  For [1 <= n <= L], [moving_average a n] returns an array of
    length [L - n + 1].  For an array of finite values whose running sums
    and window sums binary64 holds exactly, and a window [n] that it holds
    exactly, entry [i] is the arithmetic mean of [a[i], ..., a[i+n-1]],
    the sum of these [n] values divided by [n], rounded to binary64. *)
Theorem moving_average_correct (a : list B64.t) (n : Z) :
  1 <= n <= Z.of_nat (length a) ->
  exists r,
    moving_average a n = Ok r
    /\ Z.of_nat (length r) = Z.of_nat (length a) - n + 1
    /\ forall qs,
         a = map B64.Fin qs ->
         B64.of_Z n = B64.Fin (inject_Z n) ->
         (forall k, (2 <= k <= length qs)%nat -> B64.exact (Qsum (take k qs))) ->
         (forall i, (1 <= i <= length qs - Z.to_nat n)%nat ->
                    B64.exact (Qsum (take (Z.to_nat n) (drop i qs)))) ->
         forall i, (i < length r)%nat ->
           nth i r B64.NaN
           = B64.round (Qsum (take (Z.to_nat n) (drop i qs)) / inject_Z n).
Proof.
  intros Hn.
  destruct (Z_of_nat_complete n) as [m En]; [lia|]. subst n.
  assert (Hm : (1 <= m <= length a)%nat) by lia.
  rewrite Nat2Z.id, (moving_average_unfold a m Hm).
  eexists. split; [reflexivity|].
  assert (Hlen : length (cumsum a) = length a) by apply cumsum_length.
  split.
  - rewrite length_map, length_drop, length_app, length_take, length_zip_with,
      length_drop, length_take, Hlen. lia.
  - intros qs Ha Hn' Hpre Hwin i Hi.
    assert (Hla : length a = length qs) by (subst a; apply length_map).
    rewrite length_map, length_drop, length_app, length_take, length_zip_with,
      length_drop, length_take, Hlen in Hi.
    assert (Hdiv : forall u w, (u == w)%Q ->
              B64.div (B64.Fin u) (B64.of_Z (Z.of_nat m))
              = B64.round (w / inject_Z (Z.of_nat m))).
    { intros u w Huw. rewrite Hn'. cbn [B64.div].
      assert (Hz : Qeq_bool (inject_Z (Z.of_nat m)) 0 = false).
      { apply not_true_iff_false. intros E. apply Qeq_bool_iff in E.
        unfold Qeq in E. cbn in E. lia. }
      rewrite Hz. apply round_proper. now rewrite Huw. }
    rewrite nth_lookup, list_lookup_fmap, lookup_drop.
    destruct i as [|j].
    + rewrite lookup_app_l by (rewrite length_take, Hlen; lia).
      rewrite lookup_take_lt by lia.
      destruct (cumsum a !! (m - 1 + 0)%nat) as [x|] eqn:E;
        [|apply lookup_ge_None in E; lia].
      cbn [fmap option_fmap option_map default].
      rewrite Ha in E. destruct (cumsum_exact qs Hpre _ _ E) as (u & -> & Hu).
      replace (S (m - 1 + 0)) with m in Hu by lia.
      rewrite drop_0. apply Hdiv. exact Hu.
    + rewrite lookup_app_r by (rewrite length_take, Hlen; lia).
      rewrite length_take, Hlen.
      replace (m - 1 + S j - m `min` length a)%nat with j by lia.
      rewrite lookup_zip_with, lookup_drop, lookup_take_lt by lia.
      destruct (cumsum a !! (m + j)%nat) as [x|] eqn:Eu;
        [|apply lookup_ge_None in Eu; lia].
      destruct (cumsum a !! j) as [y|] eqn:Ev;
        [|apply lookup_ge_None in Ev; lia].
      cbn [mbind option_bind fmap option_fmap option_map default].
      rewrite Ha in Eu, Ev.
      destruct (cumsum_exact qs Hpre _ _ Eu) as (u & -> & Hu).
      destruct (cumsum_exact qs Hpre _ _ Ev) as (v & -> & Hv).
      assert (Hw : (u + - v == Qsum (take m (drop (S j) qs)))%Q).
      { rewrite Hu, Hv. replace (S (m + j)) with (S j + m)%nat by lia.
        rewrite <- Qsum_window. ring. }
      cbn [B64.sub B64.neg B64.add].
      rewrite (round_proper _ _ Hw).
      rewrite (Hwin (S j)) by lia.
      apply Hdiv. apply Qred_correct.
Qed.

Lemma moving_average_correct_witness :
  exists r,
    moving_average (map B64.Fin [1; 2; 3; 4]%Q) 2 = Ok r
    /\ length r = 3%nat
    /\ nth 1 r B64.NaN = B64.round ((2 + 3) / 2)%Q.
Proof.
  destruct (moving_average_correct (map B64.Fin [1; 2; 3; 4]%Q) 2)
    as (r & Hr & Hl & Hmean); [cbn; lia|].
  exists r. split; [exact Hr|]. split; [cbn in Hl; lia|].
  rewrite (Hmean [1; 2; 3; 4]%Q eq_refl eq_refl).
  - apply round_proper. vm_compute. reflexivity.
  - intros k Hk. cbn [length] in Hk.
    destruct k as [|[|[|[|[|k]]]]]; try lia; vm_compute; reflexivity.
  - intros i Hi. cbn in Hi.
    destruct i as [|[|[|i]]]; try lia; vm_compute; reflexivity.
  - cbn in Hl. lia.
Defined.

(** C10, as the claim states it, fails in binary64.  With the window 1
    every mean is the value itself, and yet the third entry for
    [0.1, 0.2, 0.3] is 0.30000000000000004, not 0.3: it is the difference
    of the rounded running sums 0.6000000000000001 and
    0.30000000000000004.  For [1e16, 1, 1] the second and the third entry
    are 0, not 1. *)
Lemma moving_average_is_not_the_mean :
  (exists r,
     moving_average [B64.lit (1 # 10); B64.lit (2 # 10); B64.lit (3 # 10)] 1 = Ok r
     /\ nth 2 r B64.NaN = B64.lit (30000000000000004 # 100000000000000000)
     /\ nth 2 r B64.NaN <> B64.lit (3 # 10))
  /\ moving_average (map B64.of_Z [10 ^ 16; 1; 1]) 1
     = Ok (map B64.of_Z [10 ^ 16; 0; 0]).
Proof.
  split.
  - eexists. split; [vm_compute; reflexivity|]. split; [vm_compute; reflexivity|].
    vm_compute. discriminate.
  - vm_compute. reflexivity.
Qed.
(** ** The penalty scheduler *)

Section SchedulerFacts.

Import Scheduler.

Variable relative_change : list Q -> Q.

Lemma update_history (c : Constraint) (h : Q) :
  history (update relative_change c h) = push (window c) (history c) h.
Proof. unfold update. destruct (_ && _); reflexivity. Qed.

(** The thresholds of a constraint never change. *)
Lemma update_thresholds (c : Constraint) (h : Q) :
  omega_gamma (update relative_change c h) = omega_gamma c
  /\ min_iter_convergence (update relative_change c h) = min_iter_convergence c
  /\ mu_mult_factor (update relative_change c h) = mu_mult_factor c
  /\ window (update relative_change c h) = window c.
Proof. unfold update. destruct (_ && _); auto. Qed.

Lemma converged_update (c : Constraint) (h : Q) (hist : list Q) :
  converged relative_change (update relative_change c h) hist
  = converged relative_change c hist.
Proof.
  unfold converged. now destruct (update_thresholds c h) as (-> & _).
Qed.

(** While the criterion is not met, nothing but the history and the
    counter moves. *)
Lemma update_not_converged (c : Constraint) (h : Q) :
  converged relative_change c (history (update relative_change c h)) = false ->
  mu (update relative_change c h) = mu c
  /\ iter_since (update relative_change c h) = S (iter_since c)
  /\ h_ref (update relative_change c h) = h_ref c.
Proof.
  rewrite update_history. intros H. unfold update. rewrite H.
  rewrite andb_false_r. auto.
Qed.

(** Once the criterion is met after [min_iter_convergence] iterations,
    [mu] is multiplied, whatever the test against [omega_mu] says. *)
Lemma update_converged (c : Constraint) (h : Q) :
  (min_iter_convergence c <= S (iter_since c))%nat ->
  converged relative_change c (history (update relative_change c h)) = true ->
  mu (update relative_change c h) = (mu c * mu_mult_factor c)%Q
  /\ iter_since (update relative_change c h) = O
  /\ h_ref (update relative_change c h) = h.
Proof.
  rewrite update_history. intros Hn H. unfold update. rewrite H.
  rewrite (proj2 (Nat.leb_le _ _) Hn). cbn [andb].
  destruct (Qle_bool h _); auto.
Qed.

Lemma run_no_tightening (hs : list Q) (c : Constraint) :
  (forall j, (j < length hs)%nat ->
     converged relative_change c
       (history (run relative_change c (take (S j) hs))) = false) ->
  mu (run relative_change c hs) = mu c
  /\ iter_since (run relative_change c hs) = (iter_since c + length hs)%nat
  /\ h_ref (run relative_change c hs) = h_ref c
  /\ omega_gamma (run relative_change c hs) = omega_gamma c
  /\ min_iter_convergence (run relative_change c hs) = min_iter_convergence c
  /\ mu_mult_factor (run relative_change c hs) = mu_mult_factor c.
Proof.
  revert c. induction hs as [|h hs IH]; intros c H.
  - cbn. repeat split; lia.
  - cbn [run fold_left length].
    destruct (update_not_converged c h) as (Hmu & Hit & Href).
    { apply (H O). cbn. lia. }
    destruct (update_thresholds c h) as (Hg & Hmi & Hf & _).
    destruct (IH (update relative_change c h)) as (a1 & a2 & a3 & a4 & a5 & a6).
    { intros j Hj. rewrite converged_update.
      apply (H (S j)). cbn. lia. }
    fold (run relative_change (update relative_change c h) hs).
    rewrite a1, a2, a3, a4, a5, a6, Hmu, Hit, Href, Hg, Hmi, Hf.
    repeat split; lia.
Qed.

(** C5.  If the convergence criterion fails on the history after each of
    the values [hs] and holds after the next value [h], and that
    iteration is at least [min_iter_convergence] iterations after the
    last tightening, then [mu] is unchanged after every prefix of [hs]
    and is multiplied by exactly [mu_mult_factor] by the iteration of
    [h], whatever the test against [omega_mu] says; the counter is reset
    and [h] becomes the reference value. *)
Theorem tightens_exactly_at_convergence (c : Constraint) (hs : list Q) (h : Q) :
  (forall j, (j < length hs)%nat ->
     converged relative_change c
       (history (run relative_change c (take (S j) hs))) = false) ->
  converged relative_change c
    (history (run relative_change c (hs ++ [h]))) = true ->
  (min_iter_convergence c <= iter_since c + length hs + 1)%nat ->
  (forall j, (j <= length hs)%nat ->
     mu (run relative_change c (take j hs)) = mu c)
  /\ mu (run relative_change c (hs ++ [h])) = (mu c * mu_mult_factor c)%Q
  /\ iter_since (run relative_change c (hs ++ [h])) = O
  /\ h_ref (run relative_change c (hs ++ [h])) = h.
Proof.
  intros Hbefore Hat Hmin. split.
  - intros j Hj.
    apply (run_no_tightening (take j hs) c).
    intros i Hi. rewrite length_take in Hi.
    rewrite take_take. replace (S i `min` j)%nat with (S i) by lia.
    apply Hbefore. lia.
  - destruct (run_no_tightening hs c Hbefore) as (Hmu & Hit & _ & Hg & Hmi & Hf).
    unfold run in *. rewrite fold_left_app in *. cbn [fold_left] in *.
    fold (run relative_change c hs) in *.
    set (s := run relative_change c hs) in *.
    destruct (update_converged s h) as (b1 & b2 & b3).
    + rewrite Hmi, Hit. lia.
    + unfold converged in *. rewrite Hg. exact Hat.
    + rewrite b1, b2, b3, Hmu, Hf. auto.
Qed.

End SchedulerFacts.

Lemma tightens_exactly_at_convergence_witness :
  Scheduler.mu (Scheduler.run Scheduler.relative_change_ends Examples.constraint0
                              ([8; 4] ++ [39 # 10])%Q) = (1 * 2)%Q
  /\ Scheduler.mu (Scheduler.run Scheduler.relative_change_ends Examples.constraint0
                                 [8; 4]%Q) = 1%Q.
Proof.
  destruct (tightens_exactly_at_convergence Scheduler.relative_change_ends
              Examples.constraint0 [8; 4]%Q (39 # 10)%Q) as (Hb & Hm & _).
  - intros j Hj. destruct j as [|[|j]]; [reflexivity | reflexivity | simpl in Hj; lia].
  - reflexivity.
  - simpl. lia.
  - split; [exact Hm | exact (Hb 2%nat (le_n 2))].
Defined.

(** ** Configuration precedence *)

Lemma parsed_keys (cli : gmap string pyval) (l : list (string * action)) :
  (map (parse_one cli) l).*1 = l.*1.
Proof.
  induction l as [|da l IH]; [reflexivity|].
  cbn [map fmap list_fmap]. f_equal; [|exact IH].
  unfold parse_one. destruct (cli !! da.1), da.2; reflexivity.
Qed.

Lemma parser_arguments_NoDup : NoDup parser_arguments.*1.
Proof. apply (bool_decide_unpack _). vm_compute. reflexivity. Qed.

(** Every destination of the parser is an attribute of the namespace. *)
Lemma parse_args_known (cli : gmap string pyval) (k : string) :
  k ∈ parser_arguments.*1 -> is_Some (parse_args cli !! k).
Proof.
  intros Hk. unfold parse_args.
  destruct (list_to_map (map (parse_one cli) parser_arguments) !! k) eqn:E; [eauto|].
  apply not_elem_of_list_to_map in E. rewrite parsed_keys in E. contradiction.
Qed.





Ltac find_elem :=
  repeat first [ apply list_elem_of_here | apply list_elem_of_further ].



(** ** Diagnostics *)

(** C7.  For a trainer of the latent model, [plot] calls
    [ipdb.set_trace()] inside the loop of [plot_adjacency_through_time_w]
    (line 218): the trace holds an event that is not the writing of an
    image, and when the session raises, [plot] ends with that exception
    before [adjacency_time_w.png] is written. *)
Theorem plot_of_latent_learner_enters_debugger :
  In Plot.SetTrace (Plot.plot (Ok tt) Examples.learner_latent []).1
  /\ (Plot.plot (Raise BdbQuit) Examples.learner_latent []).2 = Raise BdbQuit
  /\ In (Plot.Savefig "causal_climate_exp/adjacency_time_w.png")
        (Plot.plot (Ok tt) Examples.learner_latent []).1
  /\ ~ In (Plot.Savefig "causal_climate_exp/adjacency_time_w.png")
          (Plot.plot (Raise BdbQuit) Examples.learner_latent []).1.
Proof.
  split; [vm_compute; auto 40|].
  split; [vm_compute; reflexivity|].
  split; [vm_compute; auto 40|].
  intros H. vm_compute in H.
  repeat (destruct H as [H|H]; [discriminate H|]). exact H.
Qed.

(** Without latent variables the same trainer is plotted without any call
    of the debugger, whatever a session would do. *)
Lemma plot_of_plain_learner (dbg : result unit) :
  (Plot.plot dbg Examples.learner_plain []).2 = Ok tt
  /\ ~ In Plot.SetTrace (Plot.plot dbg Examples.learner_plain []).1.
Proof.
  split; [vm_compute; reflexivity|].
  intros H. vm_compute in H.
  repeat (destruct H as [H|H]; [discriminate H|]). exact H.
Qed.

(** ** Conversion of NetCDF files *)


(** C8.  For one file with two daily records of one grid cell in the same
    week and the frequency "week", [main_numpy] saves the one averaged
    record of the week and [main_hdf5], which calls the conversion without
    the frequency, saves the two daily records (numbers shown in lowest
    terms). *)
Theorem hdf5_path_does_not_average
        (month_label : Z -> Z) (set_order : list string -> list string) :
  (let? r := Convert.main_numpy Convert.sunday_label month_label set_order
               [Examples.two_days] ["shum"] "week" in
   Ok (map (map (fmap Qred)) (Convert.p_data r.1.1)))
  = Ok [[Some 1578787200; Some 0; Some 0; Some 2]]%Q
  /\ (let? r := Convert.main_hdf5 Convert.sunday_label month_label set_order
                  [Examples.two_days] ["shum"] "week" in
      Ok (map (map (fmap Qred)) (Convert.p_data r.1.1)))
     = Ok [[Some 1578268800; Some 0; Some 0; Some 1];
           [Some 1578355200; Some 0; Some 0; Some 3]]%Q.
Proof. split; vm_compute; reflexivity. Qed.

(** An unsupported frequency stops [main_numpy] and not [main_hdf5]. *)
Lemma unsupported_frequency
      (month_label : Z -> Z) (set_order : list string -> list string) :
  Convert.main_numpy Convert.sunday_label month_label set_order
    [Examples.two_days] ["shum"] "year" = Raise (FrequencyError "year")
  /\ is_ok (Convert.main_hdf5 Convert.sunday_label month_label set_order
              [Examples.two_days] ["shum"] "year") = true.
Proof. split; vm_compute; reflexivity. Qed.

Section ConvertFacts.

Import Convert.

Variables week_label month_label : Z -> Z.
Variable set_order : list string -> list string.

Abbreviation convert := (convert_netcdf_to_pandas week_label month_label set_order).

(** The frame of a conversion has the three leading columns and then the
    features that the conversion returns; a list of features that is not
    empty is returned as it was given. *)
Lemma convert_columns (file : netcdf) (features : list string) (frequency : string)
      (r : dataframe * list (string * pyval) * list string) :
  convert file features frequency = Ok r ->
  df_columns r.1.1 = "timestamp" :: "lat" :: "lon" :: r.2
  /\ (features <> [] -> r.2 = features)
  /\ r.1.2 = attrs file.
Proof.
  unfold convert_netcdf_to_pandas. intros H.
  destruct (if (frequency =? "day")%string then _ else _) as [avg|]; [|discriminate].
  cbn [rbind] in H.
  destruct (feature_indices _ _) as [idx|]; [|discriminate].
  cbn [rbind] in H. inversion H; subst; clear H. cbn [fst snd df_columns].
  split; [reflexivity|]. split; [|reflexivity].
  intros Hne. destruct features; [contradiction | reflexivity].
Qed.



End ConvertFacts.

(** ** Which computations call the debugger *)

Section OnlyEmits.

Context {E : Type} (P : E -> Prop).

Lemma only_emits_pret {A} (a : A) : only_emits P (pret a).
Proof. intros tr H. exact H. Qed.

Lemma only_emits_lift {A} (r : result A) : only_emits P (lift r).
Proof. intros tr H. exact H. Qed.

Lemma only_emits_emit (e : E) : P e -> only_emits P (emit e).
Proof.
  intros He tr H. unfold emit. cbn. apply Forall_app. split; [exact H|].
  constructor; [exact He | constructor].
Qed.

Lemma only_emits_pbind {A B} (c : prog E A) (k : A -> prog E B) :
  only_emits P c -> (forall a, only_emits P (k a)) -> only_emits P (pbind c k).
Proof.
  intros Hc Hk tr H. unfold pbind. specialize (Hc tr H).
  destruct (c tr) as [tr' [a|e]]; cbn in *; [apply Hk; exact Hc | exact Hc].
Qed.

Lemma only_emits_when (b : bool) (c : prog E unit) :
  only_emits P c -> only_emits P (when b c).
Proof. intros Hc. destruct b; [exact Hc | apply only_emits_pret]. Qed.

Lemma only_emits_for_each {A} (xs : list A) (body : A -> prog E unit) :
  (forall x, only_emits P (body x)) -> only_emits P (for_each xs body).
Proof.
  intros Hb. induction xs as [|x xs IH]; cbn [for_each].
  - apply only_emits_pret.
  - apply only_emits_pbind; [apply Hb | intros _; exact IH].
Qed.

End OnlyEmits.

Lemma heatmap_draws (m : ndarray) (ax : Z) :
  only_emits is_drawing (Plot.heatmap m ax).
Proof.
  unfold Plot.heatmap. destruct (shape m) as [|r [|c [|x sh]]];
    first [apply only_emits_lift | apply only_emits_emit; discriminate].
Qed.

Ltac drawing :=
  repeat first
    [ apply only_emits_pbind; [|intros ?]
    | apply heatmap_draws
    | apply only_emits_for_each; intros ?
    | apply only_emits_when
    | apply only_emits_lift
    | apply only_emits_pret
    | apply only_emits_emit; discriminate
    | match goal with
      | |- only_emits _ (if ?b then _ else _) => destruct b
      | |- only_emits _ (match ?l with [] => _ | _ :: _ => _ end) => destruct l
      end ].

Lemma plot_learning_curves_draws (train_loss valid_loss : list B64.t) (path : string) :
  only_emits is_drawing (Plot.plot_learning_curves train_loss valid_loss path).
Proof. unfold Plot.plot_learning_curves. drawing. Qed.

Lemma adjacency_figure_draws (title : Z -> string) (mat1 mat2 : ndarray)
      (path suffix : string) :
  only_emits is_drawing (Plot.adjacency_figure title mat1 mat2 path suffix).
Proof.
  unfold Plot.adjacency_figure, Plot.subplots, Plot.heatmap_of_row. drawing.
Qed.

Lemma plot_adjacency_through_time_draws (w_adj gt_dag : ndarray) (t : Z)
      (path suffix : string) :
  only_emits is_drawing (Plot.plot_adjacency_through_time w_adj gt_dag t path suffix).
Proof. unfold Plot.plot_adjacency_through_time, Plot.ax_plot. drawing. Qed.

(** For every trainer without latent variables, whatever a debugger session
    would do, [plot] never calls the debugger: every event of its trace is a
    call of matplotlib or seaborn, and the files it writes are the images
    of its [Savefig] events. *)
Lemma plot_without_latent_only_draws (dbg : result unit) (learner : Plot.Learner) :
  Plot.latent learner = false ->
  Forall is_drawing (Plot.plot dbg learner []).1.
Proof.
  intros Hl.
  assert (H : only_emits is_drawing (Plot.plot dbg learner)).
  { unfold Plot.plot. rewrite Hl.
    apply only_emits_pbind; [apply plot_learning_curves_draws | intros _].
    apply only_emits_pbind; [apply only_emits_lift | intros g0].
    apply only_emits_pbind; [apply only_emits_lift | intros g1].
    apply only_emits_pbind; [apply only_emits_lift | intros adj].
    apply only_emits_pbind; [apply adjacency_figure_draws | intros _].
    apply only_emits_pbind; [apply plot_adjacency_through_time_draws | intros _].
    apply only_emits_pret. }
  apply H. constructor.
Qed.

(** * Further properties of the code *)

(** ** [assert_args] and [main] together *)

Lemma derive_ratio_valid_guards (a a1 : Bunch) :
  derive_ratio_valid a = Ok a1 ->
  gt_flags_conflict a1 = gt_flags_conflict a
  /\ latent_dims_invalid a1 = latent_dims_invalid a
  /\ arg_warnings a1 = arg_warnings a
  /\ exp_path a1 = exp_path a
  /\ exp_id a1 = exp_id a.
Proof.
  intros H. destruct (derive_ratio_valid_frame _ _ H) as (-> & _).
  repeat split.
Qed.

(** The derivation of [ratio_valid] changes nothing when it is repeated:
    a derived value that is 0 is derived again from the same
    [ratio_train]. *)
Lemma derive_ratio_valid_idempotent (a a1 : Bunch) :
  derive_ratio_valid a = Ok a1 -> derive_ratio_valid a1 = Ok a1.
Proof.
  unfold derive_ratio_valid at 1.
  destruct (py_eq_int (ratio_valid a) 0) eqn:E.
  - destruct (py_sub (PInt 1) (ratio_train a)) as [v|] eqn:Ev; [|discriminate].
    cbn [rbind]. intros H. inversion H; subst; clear H.
    unfold derive_ratio_valid. cbn [ratio_valid ratio_train set_ratio_valid].
    destruct (py_eq_int v 0); [|reflexivity].
    rewrite Ev. reflexivity.
  - intros H. inversion H; subst; clear H.
    unfold derive_ratio_valid. now rewrite E.
Qed.

(** X1.  Validation is idempotent and touches [ratio_valid] only: a
    configuration that [assert_args] returns is returned unchanged, with the
    same warnings, when it is validated again; and a configuration whose
    [ratio_valid] is not 0 is returned as it was given. *)
Theorem assert_args_idempotent (a a' : Bunch) (ws : list warning) :
  assert_args a = Ok (a', ws) ->
  assert_args a' = Ok (a', ws)
  /\ a' = set_ratio_valid (ratio_valid a') a
  /\ (py_eq_int (ratio_valid a) 0 = false -> a' = a).
Proof.
  intros H.
  destruct (assert_args_returns a a' ws H) as (Hg & Hl & Hd & Hr & Hf & Ho & Hw).
  destruct (derive_ratio_valid_guards a a' Hd) as (Eg & El & _).
  split; [|split].
  - unfold assert_args.
    rewrite Eg, Hg, El, Hl. cbn [rbind].
    rewrite (derive_ratio_valid_idempotent a a' Hd). cbn [rbind].
    rewrite Hr. cbn [rbind]. rewrite Hf, Ho. cbn [negb]. now rewrite Hw.
  - now destruct (derive_ratio_valid_frame _ _ Hd) as (E & _).
  - intros Hne. unfold derive_ratio_valid in Hd. rewrite Hne in Hd.
    now inversion Hd.
Qed.

Lemma assert_args_idempotent_witness :
  exists a' ws,
    assert_args Examples.hp0 = Ok (a', ws) /\ assert_args a' = Ok (a', ws).
Proof.
  eexists _, _. split; [vm_compute; reflexivity|].
  apply (assert_args_idempotent Examples.hp0 _ _ ltac:(vm_compute; reflexivity)).
Defined.




(** Membership of a trace in normal form, decided event by event. *)
Ltac in_cases H :=
  cbn [In] in H;
  repeat (destruct H as [H|H]; [try discriminate H|]);
  try contradiction.

(** X3.  [results.json] is written only when the data loader, the model,
    the trainer and the training have all succeeded, ground truth is in
    use and the debugger session of line 127 has returned; it is then
    written once, as the last event, into the experiment directory. *)
Theorem results_written_only_after
        (ndarray : Type) (edge_errors : ndarray -> ndarray -> gmap string pyval)
        (shd f1_score : ndarray -> ndarray -> pyval)
        (w : env ndarray) (hp : Bunch) (p : string) (errors : gmap string pyval) :
  In (WriteResults p errors) (main edge_errors shd f1_score w hp []).1 ->
  (exists d out,
     dataloader_d w = Ok d /\ model_init w = Ok tt /\ trainer_init w = Ok tt
     /\ train_with_QPM w = Ok out /\ set_trace w = Ok tt)
  /\ no_gt hp = false
  /\ p = path_join (path_join (exp_path hp) (exp_dir hp)) "results.json"
  /\ exists before,
       (main edge_errors shd f1_score w hp []).1 = before ++ [WriteResults p errors]
       /\ Forall (fun e => is_write_results e = false) before.
Proof.
  main_cases w hp.
  all: intros Hin; in_cases Hin.
  all: inversion Hin; subst; clear Hin.
  all: split; [eauto 10|]; split; [reflexivity|]; split; [reflexivity|].
  all: first
         [ eexists [_; _; _; _; _; _; _; _; _; _; _]; split; [reflexivity|]
         | eexists [_; _; _; _; _; _; _; _; _; _; _; _]; split; [reflexivity|]
         | eexists [_; _; _; _; _; _; _; _; _; _; _; _; _]; split; [reflexivity|] ].
  all: repeat (constructor; [reflexivity|]); constructor.
Qed.

Lemma results_written_only_after_witness :
  exists p errors,
    In (WriteResults p errors)
       (main Examples.edge_errors0 Examples.shd0 Examples.f1_score0
             Examples.world_ok Examples.hp0 []).1
    /\ p = "causal_climate_exp/exp1/results.json"
    /\ set_trace Examples.world_ok = Ok tt.
Proof.
  eexists _, _.
  assert (Hin : In (WriteResults "causal_climate_exp/exp1/results.json"
                      (<["f1" := Examples.f1_score0 tt tt]>
                         (<["shd" := Examples.shd0 tt tt]>
                            (Examples.edge_errors0 tt tt))))
                   (main Examples.edge_errors0 Examples.shd0 Examples.f1_score0
                         Examples.world_ok Examples.hp0 []).1).
  { cbn. auto 20. }
  split; [exact Hin|].
  destruct (results_written_only_after unit Examples.edge_errors0 Examples.shd0
              Examples.f1_score0 Examples.world_ok Examples.hp0 _ _ Hin)
    as ((d & out & _ & _ & _ & _ & Hs) & _ & Hp & _).
  split; [reflexivity | exact Hs].
Defined.

(** X4.  [params.json] is written exactly when the data loader and the
    model have been built, and whenever training starts it has been written
    before, with the configuration of the run and into the experiment
    directory: a run that fails while loading data or building the model
    leaves no configuration behind, and no training starts without it. *)
Theorem params_written_before_training
        (ndarray : Type) (edge_errors : ndarray -> ndarray -> gmap string pyval)
        (shd f1_score : ndarray -> ndarray -> pyval)
        (w : env ndarray) (hp : Bunch) :
  ((exists p hp', In (WriteParams p hp') (main edge_errors shd f1_score w hp []).1)
   <-> (exists d, dataloader_d w = Ok d) /\ model_init w = Ok tt)
  /\ (forall i, (main edge_errors shd f1_score w hp []).1 !! i = Some TrainWithQPM ->
        exists j, (j < i)%nat /\
          (main edge_errors shd f1_score w hp []).1 !! j
          = Some (WriteParams
                    (path_join (path_join (exp_path hp) (exp_dir hp)) "params.json")
                    (set_exp_path (path_join (exp_path hp) (exp_dir hp)) hp))).
Proof.
  main_cases w hp.
  all: split; [split|].
  all: try (intros (p & hp' & Hin); in_cases Hin; split; eauto; fail).
  all: try (intros ((d' & H1) & H2); discriminate).
  all: try (intros _; do 2 eexists; cbn [In]; auto 20; fail).
  all: intros i Hi.
  all: repeat first [ discriminate Hi | destruct i as [|i]; cbn [lookup list_lookup] in Hi ].
  all: first [ exists 5%nat; split; [lia | reflexivity]
             | exists 6%nat; split; [lia | reflexivity]
             | exists 7%nat; split; [lia | reflexivity] ].
Qed.

(** ** Reading the two JSON files *)

(** Merging items whose keys are attributes keeps the set of attributes. *)
Lemma merge_params_keeps_missing (params : list (string * pyval))
      (dp m : gmap string pyval) (k : string) :
  merge_params dp params = Ok m -> dp !! k = None -> m !! k = None.
Proof.
  revert dp. induction params as [|[k0 v0] params IH]; intros dp H Hk.
  - cbn [merge_params] in H. injection H as <-. exact Hk.
  - cbn [merge_params] in H. unfold merge_item in H. cbn [fst snd] in H.
    destruct (dp !! k0) as [cur|] eqn:E; [|discriminate].
    destruct (is_None cur || negb (truthy cur)); cbn [rbind] in H.
    + apply (IH _ H). rewrite lookup_insert_ne; [exact Hk|]. congruence.
    + apply (IH _ H Hk).
Qed.

Lemma merge_params_app (p1 p2 : list (string * pyval)) (dp : gmap string pyval) :
  merge_params dp (p1 ++ p2)
  = (let? m := merge_params dp p1 in merge_params m p2).
Proof.
  revert dp. induction p1 as [|kv p1 IH]; intros dp; [reflexivity|].
  cbn [app merge_params]. destruct (merge_item dp kv); cbn [rbind]; auto.
Qed.

(** X5.  A configuration file that names a key the parser does not have
    makes the start fail with [KeyError] for the first such key in file
    order, whatever the command line says and whatever follows in the
    file. *)
Theorem load_config_unknown_key
        (fs : json_files) (cli : gmap string pyval) (path : string)
        (before after : json_object) (k : string) (v : pyval) :
  parse_args cli !! "config_path" = Some (PStr path) ->
  path <> "" ->
  fs path = Some (before ++ (k, v) :: after) ->
  (forall k', k' ∈ before.*1 -> k' ∈ parser_arguments.*1) ->
  k ∉ parser_arguments.*1 ->
  load_config fs (parse_args cli) = Raise (KeyError k).
Proof.
  intros Hcp Hne Hfs Hknown Hunknown.
  unfold load_config. rewrite Hcp. cbn [ne_str].
  apply String.eqb_neq in Hne. rewrite Hne. cbn [negb].
  unfold read_json. rewrite Hfs. cbn [rbind].
  rewrite merge_params_app.
  assert (Hk : parse_args cli !! k = None).
  { unfold parse_args. apply not_elem_of_list_to_map.
    now rewrite parsed_keys. }
  assert (Hb : exists m, merge_params (parse_args cli) before = Ok m).
  { clear Hfs. revert Hknown. generalize (parse_args_known cli).
    generalize (parse_args cli) as dp.
    induction before as [|[k0 v0] before IH]; intros dp Hdp Hknown.
    - exists dp. reflexivity.
    - cbn [merge_params]. unfold merge_item. cbn [fst snd].
      destruct (Hdp k0) as [cur Hcur]; [apply Hknown; cbn; left|].
      rewrite Hcur.
      destruct (is_None cur || negb (truthy cur)); cbn [rbind].
      + apply IH.
        * intros k' Hk'. destruct (decide (k0 = k')) as [->|Hd].
          -- rewrite lookup_insert_eq. eauto.
          -- rewrite lookup_insert_ne by exact Hd. apply Hdp, Hk'.
        * intros k' Hk'. apply Hknown. cbn. right. exact Hk'.
      + apply IH; [exact Hdp|].
        intros k' Hk'. apply Hknown. cbn. right. exact Hk'. }
  destruct Hb as (m & Hm). rewrite Hm. cbn [rbind merge_params].
  unfold merge_item. cbn [fst].
  now rewrite (merge_params_keeps_missing before _ m k Hm Hk).
Qed.

Lemma load_config_unknown_key_witness :
  load_config MoreExamples.files_unknown_key (parse_args ∅)
  = Raise (KeyError "learning_rate").
Proof.
  apply (load_config_unknown_key MoreExamples.files_unknown_key ∅
           "default_params.json" [("tau", PInt 2)] [("lr", PFloat (B64.lit (1 # 10)))]
           "learning_rate" (PFloat (B64.lit (1 # 10)))).
  - vm_compute. reflexivity.
  - discriminate.
  - reflexivity.
  - intros k' Hk'. revert k' Hk'. apply Forall_forall.
    apply (bool_decide_unpack _). vm_compute. reflexivity.
  - apply (bool_decide_unpack _). vm_compute. reflexivity.
Defined.

(** After parsing, [use_data_config] is a [bool], written or not. *)
Lemma parse_args_use_data_config (cli : gmap string pyval) :
  exists b, parse_args cli !! "use_data_config" = Some (PBool b).
Proof.
  destruct (cli !! "use_data_config") eqn:E; [exists true | exists false];
    unfold parse_args; apply elem_of_list_to_map_1;
    try (rewrite parsed_keys; apply parser_arguments_NoDup);
    apply list_elem_of_fmap; exists ("use_data_config", StoreTrue);
    (split; [unfold parse_one; cbn [fst snd]; now rewrite E | find_elem]).
Qed.

(** X6.  The parameters of the data generation are applied whether or not
    [--use-data-config] is given: the flag is compared with the empty
    string, which no [bool] equals.  So for every namespace whose flag is a
    [bool], a missing [data_params.json] stops the start with
    [FileNotFoundError], and a file that holds [d_x] (and [d_z] when it
    says the model is latent) replaces [d_x], [tau] and [tau_neigh] by its
    own values, also when the user gave them. *)
Theorem data_config_applies_without_flag
        (fs : json_files) (args : gmap string pyval) (b : bool) (dp : string) :
  args !! "use_data_config" = Some (PBool b) ->
  args !! "data_path" = Some (PStr dp) ->
  let path := path_join dp "data_params.json" in
  (fs path = None -> data_config fs args = Raise (FileNotFoundError path))
  /\ (forall items dx,
        fs path = Some items ->
        let params : gmap string pyval := list_to_map items in
        params !! "d_x" = Some dx ->
        (forall l, params !! "latent" = Some l -> truthy l = true ->
                   is_Some (params !! "d_z")) ->
        exists args',
          data_config fs args = Ok args'
          /\ args' !! "d_x" = Some dx
          /\ (forall t, params !! "tau" = Some t -> args' !! "tau" = Some t)
          /\ (forall n, params !! "neighborhood" = Some n ->
                        args' !! "tau_neigh" = Some n)
          /\ (params !! "tau" = None -> args' !! "tau" = args !! "tau")).
Proof.
  intros Hflag Hdp path. split.
  - intros Hfs. unfold data_config. rewrite Hflag, Hdp. cbn [ne_str].
    unfold read_json. fold path. now rewrite Hfs.
  - intros items dx Hfs params Hdx Hdz.
    unfold data_config. rewrite Hflag, Hdp. cbn [ne_str].
    unfold read_json. fold path. rewrite Hfs. cbn [rbind].
    fold params. rewrite Hdx.
    set (args1 := <["d_x" := dx]> args).
    assert (Hl : exists args2,
               match params !! "latent" with
               | Some l =>
                   if truthy l
                   then match params !! "d_z" with
                        | Some dz => Ok (<["d_z" := dz]> (<["latent" := l]> args1))
                        | None => Raise (KeyError "d_z")
                        end
                   else Ok (<["latent" := l]> args1)
               | None => Ok args1
               end = Ok args2
               /\ args2 !! "d_x" = Some dx
               /\ args2 !! "tau" = args !! "tau").
    { destruct (params !! "latent") as [l|] eqn:El.
      - destruct (truthy l) eqn:Et.
        + destruct (Hdz l eq_refl Et) as [dz Edz]. rewrite Edz.
          eexists. split; [reflexivity|]. unfold args1.
          split; now simplify_map_eq.
        + eexists. split; [reflexivity|]. unfold args1.
          split; now simplify_map_eq.
      - eexists. split; [reflexivity|]. unfold args1.
        split; now simplify_map_eq. }
    destruct Hl as (args2 & -> & Hx & Ht). cbn [rbind].
    eexists. split; [reflexivity|].
    destruct (params !! "tau") as [t|], (params !! "neighborhood") as [n|];
      repeat split; intros; simplify_map_eq; auto.
Qed.

Lemma data_config_applies_without_flag_witness :
  MoreExamples.cli_dx7 !! "d_x" = Some (PInt 7)
  /\ exists args',
       data_config Examples.files0 (parse_args MoreExamples.cli_dx7) = Ok args'
       /\ args' !! "d_x" = Some (PInt 4).
Proof.
  split; [reflexivity|].
  destruct (data_config_applies_without_flag Examples.files0
              (parse_args MoreExamples.cli_dx7) false "data")
    as [_ H]; [vm_compute; reflexivity | vm_compute; reflexivity |].
  destruct (H [("d_x", PInt 4)] (PInt 4)) as (args' & Ha & Hx & _).
  - reflexivity.
  - reflexivity.
  - intros l Hl. discriminate Hl.
  - exists args'. split; [exact Ha | exact Hx].
Defined.

(** ** [moving_average] at its edges, and the learning curves *)

Lemma moving_average_beyond (a : list B64.t) (n : Z) :
  Z.of_nat (length a) < n -> moving_average a n = Ok [].
Proof.
  intros Hn. unfold moving_average.
  set (ret := cumsum a).
  assert (Hlen : length ret = length a) by apply cumsum_length.
  assert (H1 : py_slice ret (Some n) None = []).
  { unfold py_slice, slice_bound. rewrite Hlen.
    destruct (Z.ltb_spec n 0); [lia|].
    rewrite Z.min_r by lia. now rewrite Z.sub_diag. }
  assert (H2 : py_slice ret None (Some (- n)) = []).
  { unfold py_slice, slice_bound. rewrite Hlen.
    destruct (Z.ltb_spec (- n) 0); [|lia].
    rewrite Z.max_r by lia. reflexivity. }
  rewrite H1, H2. cbn [sub1 length Nat.eqb zip_with rbind].
  unfold assign_from, slice_bound. rewrite Hlen.
  destruct (Z.ltb_spec n 0); [lia|].
  rewrite Z.min_r by lia. rewrite Nat2Z.id, Nat.sub_diag.
  cbn [length Nat.eqb rbind]. rewrite app_nil_r, <- Hlen, firstn_all.
  unfold py_slice, slice_bound. rewrite Hlen.
  destruct (Z.ltb_spec (n - 1) 0); [lia|].
  rewrite Z.min_r by lia. now rewrite Z.sub_diag.
Qed.

(** X7.  A window longer than the array gives the empty array and no
    error. *)
Theorem moving_average_long_window (a : list B64.t) (n : Z) :
  Z.of_nat (length a) < n -> moving_average a n = Ok [].
Proof. apply moving_average_beyond. Qed.

Lemma moving_average_long_window_witness :
  moving_average (map B64.of_Z [1; 2; 3]) 10 = Ok [].
Proof. apply moving_average_long_window. simpl. lia. Defined.

(** X8.  The window 0 is refused for every array that is not empty: the
    assignment [ret[0:] = ret[0:] - ret[:0]] cannot be broadcast. *)
Theorem moving_average_zero_window (a : list B64.t) :
  a <> [] -> exists msg, moving_average a 0 = Raise (ShapeError msg).
Proof.
  intros Ha. destruct a as [|x [|y a]]; [contradiction| |].
  - eexists. reflexivity.
  - unfold moving_average.
    set (ret := cumsum (x :: y :: a)).
    assert (Hlen : length ret = S (S (length a))) by apply cumsum_length.
    assert (H1 : py_slice ret (Some 0) None = ret).
    { unfold py_slice, slice_bound. cbn [Z.ltb Z.compare].
      rewrite Z.min_l by lia. rewrite Z.sub_0_r, Nat2Z.id.
      cbn [Z.to_nat drop]. apply firstn_all. }
    assert (H2 : py_slice ret None (Some (- 0)) = []).
    { unfold py_slice, slice_bound. cbn [Z.opp Z.ltb Z.compare].
      rewrite Z.min_l by lia. reflexivity. }
    rewrite H1, H2. clearbody ret.
    destruct ret as [|r0 [|r1 ret]]; [discriminate Hlen | discriminate Hlen |].
    eexists. reflexivity.
Qed.

Lemma moving_average_zero_window_witness :
  exists msg, moving_average (map B64.of_Z [1; 2]) 0 = Raise (ShapeError msg).
Proof. apply moving_average_zero_window. discriminate. Defined.

(** The default window of 10 never fails. *)
Lemma moving_average_10 (l : list B64.t) :
  exists r, moving_average l 10 = Ok r /\ length r = (length l - 9)%nat.
Proof.
  destruct (le_lt_dec 10 (length l)) as [H|H].
  - change 10 with (Z.of_nat 10).
    rewrite (moving_average_unfold l 10) by lia.
    eexists. split; [reflexivity|].
    rewrite length_map, length_drop, length_app, length_take, length_zip_with,
      length_drop, length_take, cumsum_length. lia.
  - rewrite moving_average_beyond by lia. exists []. split; [reflexivity|].
    simpl. lia.
Qed.

Lemma py_slice_from_10 {A} (l : list A) : py_slice l (Some 10) None = drop 10 l.
Proof.
  unfold py_slice, slice_bound. cbn [Z.ltb Z.compare].
  destruct (le_lt_dec 10 (length l)) as [H|H].
  - rewrite Z.min_l by lia. change (Z.to_nat 10) with 10%nat.
    apply take_ge. rewrite length_drop. lia.
  - rewrite Z.min_r by lia. rewrite Z.sub_diag, Nat2Z.id.
    rewrite (drop_ge l 10) by lia. now rewrite drop_ge by lia.
Qed.

(** The learning curves are always drawn and saved. *)
Lemma plot_learning_curves_run (train_loss valid_loss : list B64.t) (path : string)
      (tr : list Plot.event) :
  exists t_loss v_loss,
    Plot.plot_learning_curves train_loss valid_loss path tr
    = (tr ++ [Plot.Gca; Plot.SetYscale "log"; Plot.PltPlot t_loss "train";
              Plot.PltPlot v_loss "valid"; Plot.Title "Learning curves";
              Plot.Legend; Plot.Savefig (path_join path "loss.png"); Plot.Close],
       Ok tt)
    /\ length t_loss = (length train_loss - 19)%nat
    /\ length v_loss = (length valid_loss - 19)%nat.
Proof.
  unfold Plot.plot_learning_curves. rewrite !py_slice_from_10.
  destruct (moving_average_10 (drop 10 train_loss)) as (t & Ht & Hlt).
  destruct (moving_average_10 (drop 10 valid_loss)) as (v & Hv & Hlv).
  exists t, v. rewrite length_drop in Hlt, Hlv.
  split; [|split; lia].
  unfold pbind, lift, emit. rewrite Ht, Hv. cbn [fst snd].
  now rewrite <- !app_assoc.
Qed.

(** X9.  [plot_learning_curves] never fails, whatever the lengths of the
    two loss histories: it draws both curves and saves [loss.png]; each
    curve has 19 points fewer than its history (10 dropped, then a window
    of 10), and is empty for a history of at most 19 values. *)
Theorem plot_learning_curves_total (train_loss valid_loss : list B64.t) (path : string)
        (tr : list Plot.event) :
  exists t_loss v_loss,
    Plot.plot_learning_curves train_loss valid_loss path tr
    = (tr ++ [Plot.Gca; Plot.SetYscale "log"; Plot.PltPlot t_loss "train";
              Plot.PltPlot v_loss "valid"; Plot.Title "Learning curves";
              Plot.Legend; Plot.Savefig (path_join path "loss.png"); Plot.Close],
       Ok tt)
    /\ length t_loss = (length train_loss - 19)%nat
    /\ length v_loss = (length valid_loss - 19)%nat.
Proof. apply plot_learning_curves_run. Qed.

(** ** Traces only grow *)

Section Extends.

Context {E : Type}.

Lemma extends_pret {A} (a : A) : extends (E := E) (pret a).
Proof. intros tr. exists []. cbn. now rewrite app_nil_r. Qed.

Lemma extends_lift {A} (r : result A) : extends (E := E) (lift r).
Proof. intros tr. exists []. cbn. now rewrite app_nil_r. Qed.

Lemma extends_emit (e : E) : extends (emit e).
Proof. intros tr. exists [e]. reflexivity. Qed.

Lemma extends_pbind {A B} (c : prog E A) (k : A -> prog E B) :
  extends c -> (forall a, extends (k a)) -> extends (pbind c k).
Proof.
  intros Hc Hk tr. unfold pbind. destruct (Hc tr) as (s1 & H1).
  destruct (c tr) as [tr' [a|e]]; cbn [fst] in H1; subst tr'.
  - destruct (Hk a (tr ++ s1)) as (s2 & H2). exists (s1 ++ s2).
    now rewrite H2, app_assoc.
  - exists s1. reflexivity.
Qed.

Lemma extends_when (b : bool) (c : prog E unit) : extends c -> extends (when b c).
Proof. intros Hc. destruct b; [exact Hc | apply extends_pret]. Qed.

Lemma extends_for_each {A} (xs : list A) (body : A -> prog E unit) :
  (forall x, extends (body x)) -> extends (for_each xs body).
Proof.
  intros Hb. induction xs as [|x xs IH]; cbn [for_each].
  - apply extends_pret.
  - apply extends_pbind; [apply Hb | intros _; exact IH].
Qed.

End Extends.

Lemma extends_heatmap (m : ndarray) (ax : Z) : extends (Plot.heatmap m ax).
Proof.
  unfold Plot.heatmap. destruct (shape m) as [|r [|c [|x sh]]];
    first [apply extends_lift | apply extends_emit].
Qed.

Ltac growing :=
  repeat first
    [ apply extends_pbind; [|intros ?]
    | apply extends_heatmap
    | apply extends_for_each; intros ?
    | apply extends_when
    | apply extends_lift
    | apply extends_pret
    | apply extends_emit
    | match goal with
      | |- extends (if ?b then _ else _) => destruct b
      | |- extends (match ?l with [] => _ | _ :: _ => _ end) => destruct l
      end ].

Lemma plot_extends (dbg : result unit) (learner : Plot.Learner) :
  extends (Plot.plot dbg learner).
Proof.
  unfold Plot.plot, Plot.plot_learning_curves, Plot.plot_adjacency_matrix,
    Plot.plot_adjacency_matrix_w, Plot.adjacency_figure,
    Plot.plot_adjacency_through_time, Plot.plot_adjacency_through_time_w,
    Plot.subplots, Plot.heatmap_of_row, Plot.ax_plot.
  growing.
Qed.

(** X10.  Whatever the adjacency plots and the debugger do afterwards,
    [plot] first draws the learning curves and saves [loss.png] in the
    experiment path: every trace of [plot] starts with these eight
    events. *)
Theorem plot_saves_learning_curves_first (dbg : result unit) (learner : Plot.Learner) :
  exists t_loss v_loss rest,
    (Plot.plot dbg learner []).1
    = [Plot.Gca; Plot.SetYscale "log"; Plot.PltPlot t_loss "train";
       Plot.PltPlot v_loss "valid"; Plot.Title "Learning curves"; Plot.Legend;
       Plot.Savefig (path_join (exp_path (Plot.hp learner)) "loss.png");
       Plot.Close] ++ rest
    /\ length t_loss = (length (Plot.train_loss_list learner) - 19)%nat
    /\ length v_loss = (length (Plot.valid_loss_list learner) - 19)%nat.
Proof.
  destruct (plot_learning_curves_run (Plot.train_loss_list learner)
              (Plot.valid_loss_list learner) (exp_path (Plot.hp learner)) [])
    as (t & v & Hrun & Ht & Hv).
  exists t, v. unfold Plot.plot. unfold pbind at 1. rewrite Hrun.
  cbn [app].
  match goal with
  | |- context [ (?k ?tr0).1 ] =>
      assert (Hext : extends k); [|destruct (Hext tr0) as (rest & Hrest)]
  end.
  - growing;
      unfold Plot.plot_adjacency_matrix, Plot.plot_adjacency_matrix_w,
        Plot.adjacency_figure, Plot.plot_adjacency_through_time,
        Plot.plot_adjacency_through_time_w, Plot.subplots,
        Plot.heatmap_of_row, Plot.ax_plot; growing.
  - exists rest. rewrite Hrest. auto.
Qed.

(** ** The adjacency plots at their edges *)

(** The reshape of [plot_adjacency_through_time], for a history whose
    leading four extents are positive. *)
Lemma through_time_reshape (w_adj : ndarray) (s0 taus s2 s3 : Z) (rest : list Z) :
  shape w_adj = s0 :: taus :: s2 :: s3 :: rest ->
  Z.of_nat (length (data w_adj)) = s0 * taus * s2 * s3 * size_of rest ->
  0 < s0 -> 0 < taus -> 0 < s2 -> 0 < s3 ->
  np_reshape w_adj [s0; taus; s2 * s3; s2 * s3]
  = if size_of rest =? s2 * s3
    then Ok {| shape := [s0; taus; s2 * s3; s2 * s3]; data := data w_adj |}
    else Raise (ShapeError "cannot reshape array").
Proof.
  intros Hs Hlen H0 H1 H2 H3.
  set (d := s2 * s3) in *.
  assert (Hd : 0 < d) by (subst d; nia).
  unfold np_reshape. cbn [forallb].
  rewrite !(proj2 (Z.leb_le _ _)) by lia. cbn [andb negb].
  rewrite !filter_cons, !filter_nil.
  repeat (destruct (decide _); try lia).
  cbn [length size_of fold_right]. rewrite Hlen.
  destruct (Z.eqb_spec (size_of rest) d) as [E|E].
  - rewrite E. fold d.
    replace (s0 * (taus * (d * (d * 1)))) with (s0 * taus * s2 * s3 * d)
      by (subst d; ring).
    now rewrite Z.eqb_refl.
  - destruct (Z.eqb_spec (s0 * (taus * (d * (d * 1))))
                         (s0 * taus * s2 * s3 * size_of rest)) as [E'|E'];
      [|reflexivity].
    exfalso. apply E.
    assert (Hp : 0 < s0 * taus * d) by nia.
    apply (Z.mul_cancel_l _ _ (s0 * taus * d)); [lia|].
    subst d. symmetry. etransitivity; [|etransitivity; [exact E'|]]; ring.
Qed.

(** X11.  [plot_adjacency_through_time] reshapes the history [w_adj] to
    [(shape[0], shape[1], d, d)] with [d = shape[2] * shape[3]].  For a
    history with positive extents this is accepted exactly when the axes
    after the fourth hold [d] values in all: otherwise, and so for every
    four-dimensional history with [d > 1], numpy refuses the reshape and
    nothing is drawn or saved. *)
Theorem through_time_refuses_other_sizes
        (w_adj gt_dag : ndarray) (t : Z) (path suffix : string)
        (tr : list Plot.event) (s0 taus s2 s3 : Z) (rest : list Z) :
  shape w_adj = s0 :: taus :: s2 :: s3 :: rest ->
  Z.of_nat (length (data w_adj)) = s0 * taus * s2 * s3 * size_of rest ->
  0 < s0 -> 0 < taus -> 0 < s2 -> 0 < s3 ->
  size_of rest <> s2 * s3 ->
  Plot.plot_adjacency_through_time w_adj gt_dag t path suffix tr
  = (tr, Raise (ShapeError "cannot reshape array")).
Proof.
  intros Hs Hlen H0 H1 H2 H3 Hne.
  unfold Plot.plot_adjacency_through_time, pbind, lift, shape_at.
  rewrite Hs. cbn [lookup list_lookup].
  rewrite (through_time_reshape w_adj s0 taus s2 s3 rest Hs Hlen H0 H1 H2 H3).
  apply Z.eqb_neq in Hne. now rewrite Hne.
Qed.

Lemma through_time_refuses_other_sizes_witness :
  Plot.plot_adjacency_through_time PlotExamples.adj_tt_2x2 PlotExamples.gt_2x2
    3 "exp" "transition" []
  = ([], Raise (ShapeError "cannot reshape array")).
Proof.
  apply (through_time_refuses_other_sizes _ _ _ _ _ _ 3 1 2 2 []);
    [reflexivity | reflexivity | lia | lia | lia | lia | cbn; lia].
Defined.










(** ** Conversion: errors and the shape of the frame *)

Section ConvertErrors.

Import Convert.

Variables week_label month_label : Z -> Z.
Variable set_order : list string -> list string.

Lemma column_index_None (c : string) (cols : list string) :
  column_index c cols = None <-> ~ In c cols.
Proof.
  induction cols as [|c' cols IH]; cbn [column_index In]; [tauto|].
  destruct (String.eqb_spec c c') as [->|Hne].
  - split; [discriminate | intros H; exfalso; apply H; now left].
  - destruct (column_index c cols); cbn.
    + split; [discriminate|]. intros H. exfalso. apply H. right.
      apply Decidable.not_not; [|intros Hn; now apply IH in Hn].
      destruct (in_dec string_dec c cols); [left|right]; assumption.
    + split; [|reflexivity]. intros _ [H|H]; [congruence|].
      now apply (proj1 IH).
Qed.

Lemma missing_features_spec (cols features : list string) (f : string) :
  In f (missing_features cols features) <-> In f features /\ ~ In f cols.
Proof.
  unfold missing_features.
  rewrite <- list_elem_of_In, elem_of_remove_dups, list_elem_of_filter,
    list_elem_of_In, column_index_None. tauto.
Qed.

Lemma positions_length (cols features : list string) :
  missing_features cols features = [] ->
  length (positions cols features) = length features.
Proof.
  intros H. unfold positions.
  assert (Hall : forall f, In f features -> In f cols).
  { intros f Hf. destruct (in_dec string_dec f cols) as [Hin|Hn]; [exact Hin|].
    exfalso. assert (Hm : In f (missing_features cols features))
      by (apply missing_features_spec; auto).
    rewrite H in Hm. contradiction. }
  clear H. induction features as [|f fs IH]; [reflexivity|].
  cbn [omap list_omap].
  destruct (column_index f cols) eqn:E.
  - cbn [length]. f_equal. apply IH. intros g Hg. apply Hall. now right.
  - apply column_index_None in E. exfalso. apply E, Hall. now left.
Qed.

Lemma feature_indices_length (order : list string -> list string)
      (cols features : list string) (idx : list nat) :
  feature_indices order cols features = Ok idx -> length idx = length features.
Proof.
  unfold feature_indices.
  destruct (missing_features cols features) eqn:E; [|discriminate].
  intros H. inversion H; subst. now apply positions_length.
Qed.


(** X14.  The frame of a conversion is rectangular: it has the columns
    timestamp, lat, lon and the features, every row has one cell for each
    column, and at the frequency "day" it has one row for each record of
    the file. *)
Theorem convert_frame_is_rectangular (file : netcdf) (features : list string)
        (frequency : string) (r : dataframe * list (string * pyval) * list string) :
  convert_netcdf_to_pandas week_label month_label set_order file features frequency
  = Ok r ->
  df_columns r.1.1 = "timestamp" :: "lat" :: "lon" :: r.2
  /\ Forall (fun row => length row = length (df_columns r.1.1)) (df_rows r.1.1)
  /\ (frequency = "day" -> length (df_rows r.1.1) = length (rows file)).
Proof.
  unfold convert_netcdf_to_pandas. intros H.
  set (fs := match features with [] => set_order (columns file) | _ => features end) in *.
  destruct (if (frequency =? "day")%string then _ else _) as [avg|] eqn:Ea;
    [|discriminate].
  cbn [rbind] in H.
  destruct (feature_indices _ (columns file) fs) as [idx|] eqn:Ei; [|discriminate].
  cbn [rbind] in H. inversion H; subst; clear H. cbn [fst snd df_columns df_rows].
  apply feature_indices_length in Ei.
  split; [reflexivity|]. split.
  - apply Forall_forall. intros row Hin.
    apply list_elem_of_In, in_map_iff in Hin. destruct Hin as (x & <- & Hx).
    cbn [length]. rewrite length_map. cbn [length]. do 3 f_equal.
    destruct avg as [label|].
    + apply in_map_iff in Hx. destruct Hx as (g & <- & Hg). cbn [snd].
      unfold group_mean in Hg. apply in_map_iff in Hg.
      destruct Hg as (grp & <- & _). cbn [values].
      now rewrite length_map, length_seq.
    + apply in_map_iff in Hx. destruct Hx as (g & <- & _). cbn [snd].
      unfold pick. now rewrite length_map.
  - intros ->. cbn in Ea. inversion Ea; subst. now rewrite !length_map.
Qed.

End ConvertErrors.


Lemma convert_frame_is_rectangular_witness :
  exists r,
    Convert.convert_netcdf_to_pandas Convert.sunday_label (fun t => t) (fun l => l)
      Examples.two_days ["shum"] "day" = Ok r
    /\ length (Convert.df_rows r.1.1) = 2%nat.
Proof.
  eexists. split; [reflexivity|].
  apply (convert_frame_is_rectangular Convert.sunday_label (fun t => t) (fun l => l)
           Examples.two_days ["shum"] "day" _ eq_refl).
  reflexivity.
Defined.

(** ** Conversion: averaging, metadata and the list of files *)

Section GroupFacts.

Import Convert ConvertMore.

Lemma key_compare_antisym (a b : key) :
  key_compare b a = CompOpp (key_compare a b).
Proof.
  unfold key_compare.
  rewrite (Z.compare_antisym a.1.1 b.1.1).
  rewrite <- (Qcompare_antisym a.1.2 b.1.2), <- (Qcompare_antisym a.2 b.2).
  destruct (a.1.1 ?= b.1.1); cbn; try reflexivity.
  destruct (a.1.2 ?= b.1.2)%Q; cbn; reflexivity.
Qed.

Lemma increasing_cons (k : key) (ks : list key) :
  increasing (k :: ks) <-> lt_head k ks /\ increasing ks.
Proof. destruct ks; cbn; tauto. Qed.

Lemma add_lt_head (k0 k : key) (v : list Q) (gs : list (key * list (list Q))) :
  lt_head k0 gs.*1 -> key_compare k0 k = Lt ->
  lt_head k0 (add_to_groups k v gs).*1.
Proof.
  destruct gs as [|[k' vs] rest]; cbn; [auto|].
  intros H Hk. destruct (key_compare k k'); cbn; auto.
Qed.

Lemma add_increasing (k : key) (v : list Q) (gs : list (key * list (list Q))) :
  increasing gs.*1 -> increasing (add_to_groups k v gs).*1.
Proof.
  induction gs as [|[k' vs] rest IH]; [cbn; auto|].
  intros H. cbn [fmap list_fmap fst] in H. apply increasing_cons in H as [Hh Hi].
  cbn [add_to_groups]. destruct (key_compare k k') eqn:E.
  - cbn [fmap list_fmap fst]. apply increasing_cons. auto.
  - change (increasing (k :: k' :: rest.*1)).
    apply increasing_cons. split; [exact E|]. apply increasing_cons. auto.
  - cbn [fmap list_fmap fst]. apply increasing_cons. split; [|apply IH, Hi].
    apply add_lt_head; [exact Hh|].
    rewrite key_compare_antisym, E. reflexivity.
Qed.

Lemma add_length (k : key) (v : list Q) (gs : list (key * list (list Q))) :
  (length (add_to_groups k v gs) <= S (length gs))%nat.
Proof.
  induction gs as [|[k' vs] rest IH]; cbn [add_to_groups]; [cbn; lia|].
  destruct (key_compare k k'); cbn [length] in *; lia.
Qed.

(** Every group holds at least one record. *)
Lemma add_nonempty (k : key) (v : list Q) (gs : list (key * list (list Q))) :
  Forall (fun g => g.2 <> []) gs ->
  Forall (fun g => g.2 <> []) (add_to_groups k v gs).
Proof.
  induction gs as [|[k' vs] rest IH]; intros H; cbn [add_to_groups].
  - constructor; [discriminate | constructor].
  - inversion H; subst. destruct (key_compare k k').
    + constructor; [|assumption]. cbn. now destruct vs.
    + constructor; [discriminate|]. now constructor.
    + constructor; [assumption | auto].
Qed.

Lemma groups_invariant (label : Z -> Z) (idx : list nat) (rs : list nc_row)
      (gs : list (key * list (list Q))) :
  increasing gs.*1 -> Forall (fun g => g.2 <> []) gs ->
  let out := fold_left
               (fun gs r => add_to_groups (label (time r), lat r, lon r)
                                          (pick idx (values r)) gs) rs gs in
  increasing out.*1
  /\ Forall (fun g => g.2 <> []) out
  /\ (length out <= length gs + length rs)%nat.
Proof.
  cbv zeta. revert gs. induction rs as [|r rs IH]; intros gs Hi Hn; cbn [fold_left].
  - repeat split; auto. apply Nat.le_add_r.
  - destruct (IH _ (add_increasing (label (time r), lat r, lon r)
                      (pick idx (values r)) gs Hi)
                 (add_nonempty _ _ gs Hn)) as (H1 & H2 & H3).
    repeat split; auto.
    pose proof (add_length (label (time r), lat r, lon r) (pick idx (values r)) gs).
    cbn [length]. lia.
Qed.

(** X15.  The averaging over weeks or months gives at most one row for
    each record, in strictly increasing order of (period, lat, lon): no two
    rows of the averaged frame have the same period and grid cell, and
    every row carries one mean for each feature. *)
Theorem group_mean_sorted (label : Z -> Z) (idx : list nat) (rs : list nc_row) :
  (length (group_mean label idx rs) <= length rs)%nat
  /\ increasing (map row_key (group_mean label idx rs))
  /\ Forall (fun r => length (values r) = length idx) (group_mean label idx rs).
Proof.
  unfold group_mean.
  destruct (groups_invariant label idx rs [] I (Forall_nil_2 _)) as (Hi & _ & Hl).
  cbv zeta in Hi, Hl.
  set (gs := fold_left _ rs []) in *.
  split; [rewrite length_map; exact Hl|]. split.
  - match goal with
    | |- increasing ?l => assert (E : l = gs.*1)
    end.
    { clearbody gs. clear. induction gs as [|[[[a b] c] vs] gs IH]; [reflexivity|].
      cbn [map fmap list_fmap]. rewrite IH. reflexivity. }
    now rewrite E.
  - apply Forall_forall. intros r Hr.
    apply list_elem_of_In, in_map_iff in Hr. destruct Hr as (g & <- & _).
    cbn [values]. now rewrite length_map, length_seq.
Qed.

End GroupFacts.

Section MetadataFacts.

Import Convert ConvertMore.

Variables week_label month_label : Z -> Z.
Variable set_order : list string -> list string.

Lemma numpy_loop_metadata (files : list netcdf) (frequency : string) :
  forall df meta features out,
    numpy_loop week_label month_label set_order files frequency df meta features
    = Ok out ->
    out.1.2 = match last files with
              | Some f => Some (attrs f)
              | None => meta
              end.
Proof.
  induction files as [|file files IH]; intros df meta features out H.
  - cbn in H. now inversion H.
  - cbn [numpy_loop] in H.
    destruct (convert_netcdf_to_pandas _ _ _ file features frequency) as [r|] eqn:Er;
      [|discriminate].
    cbn [rbind] in H. apply IH in H. rewrite H, last_cons.
    destruct (convert_columns _ _ _ _ _ _ _ Er) as (_ & _ & ->).
    now destruct (last files).
Qed.

Lemma hdf5_loop_metadata (files : list netcdf) :
  forall s features st',
    hdf5_loop week_label month_label set_order files (Some s) features = Ok st' ->
    exists s', st' = Some s' /\ h_metadata s' = h_metadata s.
Proof.
  induction files as [|file files IH]; intros s features st' H.
  - cbn in H. inversion H. eauto.
  - cbn [hdf5_loop] in H.
    destruct (convert_netcdf_to_pandas _ _ _ file features "day") as [r|];
      [|discriminate].
    cbn [rbind] in H.
    destruct (_ =? _)%nat; [|discriminate]. cbn [rbind] in H.
    apply IH in H. exact H.
Qed.

(** X16.  The two conversions keep the metadata of different files: when
    [main_numpy] succeeds, [metadata.json] holds the attributes of the last
    file of the directory; when [main_hdf5] succeeds, those of the first. *)
Theorem metadata_of_last_and_first_file
        (files : list netcdf) (features : list string) (frequency : string) :
  (forall out,
     main_numpy week_label month_label set_order files features frequency = Ok out ->
     exists f, last files = Some f /\ p_metadata out.1.1 = attrs f)
  /\ (forall out,
        main_hdf5 week_label month_label set_order files features frequency = Ok out ->
        exists f rest, files = f :: rest /\ p_metadata out.1.1 = attrs f).
Proof.
  split; intros out H.
  - unfold main_numpy in H.
    destruct (numpy_loop _ _ _ files frequency None None features) as [r|] eqn:El;
      [|discriminate].
    cbn [rbind] in H. apply numpy_loop_metadata in El.
    destruct r.1.1 as [df|]; [|discriminate].
    destruct r.1.2 as [meta|]; [|discriminate].
    inversion H; subst; clear H. cbn [fst snd p_metadata].
    destruct (last files) as [f|]; [|discriminate].
    exists f. split; [reflexivity|]. now inversion El.
  - unfold main_hdf5 in H. destruct files as [|file files]; [discriminate|].
    cbn [hdf5_loop] in H.
    destruct (convert_netcdf_to_pandas _ _ _ file features "day") as [r|] eqn:Er;
      [|discriminate].
    cbn [rbind] in H.
    destruct (hdf5_loop _ _ _ files _ r.2) as [st'|] eqn:El; [|discriminate].
    cbn [rbind] in H. apply hdf5_loop_metadata in El.
    destruct El as (s' & -> & Hm). inversion H; subst; clear H.
    cbn [fst snd p_metadata]. exists file, files. split; [reflexivity|].
    rewrite Hm. cbn [h_metadata].
    now destruct (convert_columns _ _ _ _ _ _ _ Er) as (_ & _ & ->).
Qed.

End MetadataFacts.

Lemma metadata_of_last_and_first_file_witness :
  (exists out,
     Convert.main_numpy Convert.sunday_label (fun t => t) (fun l => l)
       [Examples.two_days; ConvertExamples.next_week] ["shum"] "day" = Ok out
     /\ Convert.p_metadata out.1.1 = Convert.attrs ConvertExamples.next_week)
  /\ (exists out,
        Convert.main_hdf5 Convert.sunday_label (fun t => t) (fun l => l)
          [Examples.two_days; ConvertExamples.next_week] ["shum"] "day" = Ok out
        /\ Convert.p_metadata out.1.1 = Convert.attrs Examples.two_days).
Proof.
  destruct (metadata_of_last_and_first_file Convert.sunday_label (fun t => t)
              (fun l => l) [Examples.two_days; ConvertExamples.next_week]
              ["shum"] "day") as [Hn Hh].
  split.
  - eexists. split; [reflexivity|].
    destruct (Hn _ eq_refl) as (f & Hf & Hm). inversion Hf; subst. exact Hm.
  - eexists. split; [reflexivity|].
    destruct (Hh _ eq_refl) as (f & rest & Hf & Hm). inversion Hf; subst. exact Hm.
Defined.

(** ** The list of files *)

Lemma ends_with_slash_app (d : string) :
  ends_with_slash (String.append d "/") = true.
Proof.
  induction d as [|c d IH]; [reflexivity|].
  change (String.append (String c d) "/") with (String c (String.append d "/")).
  destruct (String.append d "/") eqn:E; [destruct d; discriminate | exact IH].
Qed.

Lemma append_assoc (a b c : string) :
  String.append (String.append a b) c = String.append a (String.append b c).
Proof.
  induction a as [|x a IH]; [reflexivity|].
  change (String x (String.append (String.append a b) c)
          = String x (String.append a (String.append b c))).
  now f_equal.
Qed.

(** X17.  [find_all_nc_files] raises [IndexError] for the empty directory
    name, and for any other name it looks for the same files whether or
    not the name ends with a slash. *)
Theorem find_all_nc_files_slash
        (glob : string -> list string) (sorted : list string -> list string) :
  ConvertMore.find_all_nc_files glob sorted "" = Raise IndexError
  /\ forall directory,
       directory <> "" -> ends_with_slash directory = false ->
       ConvertMore.find_all_nc_files glob sorted (String.append directory "/")
       = ConvertMore.find_all_nc_files glob sorted directory
       /\ ConvertMore.find_all_nc_files glob sorted directory
          = Ok (sorted (glob (String.append directory "/*.nc"))).
Proof.
  split; [reflexivity|]. intros d Hne Hs.
  unfold ConvertMore.find_all_nc_files.
  rewrite ends_with_slash_app, Hs, append_assoc.
  apply String.eqb_neq in Hne. rewrite Hne.
  destruct d as [|c d]; [discriminate|]. cbn. auto.
Qed.

Lemma find_all_nc_files_slash_witness :
  ConvertMore.find_all_nc_files ConvertExamples.glob0 (fun l => rev l) "data/"
  = ConvertMore.find_all_nc_files ConvertExamples.glob0 (fun l => rev l) "data".
Proof.
  destruct (find_all_nc_files_slash ConvertExamples.glob0 (fun l => rev l))
    as [_ H].
  destruct (H "data") as [H1 _]; [discriminate | reflexivity | exact H1].
Defined.

(** ** The two conversions on daily data *)



(** ** [plot] without latent variables *)

(** X19.  For a trainer without latent variables [plot] does not depend on
    the debugger: whatever a debugger session would do, [plot] leaves the
    same trace and the same result, and no event of the trace is a call of
    the debugger. *)
Theorem plot_without_latent_ignores_debugger
        (dbg1 dbg2 : result unit) (learner : Plot.Learner) (tr : list Plot.event) :
  Plot.latent learner = false ->
  Plot.plot dbg1 learner tr = Plot.plot dbg2 learner tr
  /\ Forall is_drawing (Plot.plot dbg1 learner []).1.
Proof.
  intros Hl. split; [|apply plot_without_latent_only_draws; exact Hl].
  unfold Plot.plot. rewrite Hl. reflexivity.
Qed.

Lemma plot_without_latent_ignores_debugger_witness :
  Plot.plot (Raise BdbQuit) Examples.learner_plain []
  = Plot.plot (Ok tt) Examples.learner_plain []
  /\ Forall is_drawing (Plot.plot (Raise BdbQuit) Examples.learner_plain []).1.
Proof.
  apply (plot_without_latent_ignores_debugger (Raise BdbQuit) (Ok tt)
           Examples.learner_plain []).
  reflexivity.
Defined.

(** ** [run_model] *)

Section RunModel.

Import Emulator.

(** X20.  [run_model] has no handler around [trainer.fit]: when the
    training raises, the run raises, and nothing that follows the training
    is called: the emissions tracker is not stopped, no emissions and no
    configuration are saved, no test is run and the wandb run is not
    finished.  If the tracker was started and its start returned, the
    exception of the run is the one of the training, which is the last
    call. *)
Theorem failed_fit_leaves_tracker_running
        (w : env) (config : DictConfig) (e : exn) :
  answer w Fit = Raise e ->
  (exists e', (run_model w config []).2 = Raise e')
  /\ existsb follows_fit (run_model w config []).1 = false
  /\ (existsb is_tracker_start (run_model w config []).1 = true ->
      answer w TrackerStart = Ok tt ->
      (run_model w config []).2 = Raise e
      /\ last (run_model w config []).1 = Some Fit).
Proof.
  intros Hfit.
  destruct (truthy (print_config config)) eqn:Hp;
    destruct (truthy (pyprofile config)) eqn:Hy;
    unfold run_model; rewrite Hp, Hy;
    unfold call, when, pbind, emit, lift, pret; cbn;
    repeat match goal with
           | |- context [answer w Fit] => rewrite Hfit; cbn
           | |- context [answer w ?ev] =>
               destruct (answer w ev) as [[]|] eqn:?; cbn
           end;
    (split; [eexists; reflexivity|]);
    (split; [reflexivity|]);
    intros H Hs; try discriminate H; try congruence; split; reflexivity.
Qed.

Lemma failed_fit_leaves_tracker_running_witness :
  (run_model world_fit_fails config0 []).2 = Raise (ExternalError "fit")
  /\ existsb follows_fit (run_model world_fit_fails config0 []).1 = false.
Proof.
  destruct (failed_fit_leaves_tracker_running world_fit_fails config0
              (ExternalError "fit") eq_refl) as (_ & Hn & Hs).
  split; [|exact Hn]. apply Hs; reflexivity.
Defined.

(** X21.  Every run of [run_model] starts with [seed_everything] on the
    seed of the configuration, whatever fails later.  A run that returns
    has started the tracker, trained and stopped the tracker once and in
    this order, has saved the emissions the tracker returned, has run the
    test exactly if [test_after_training] is true, and has finished the
    wandb run exactly if the configuration has a non-empty [logger] whose
    [wandb] entry is true. *)
Theorem run_model_returns (w : env) (config : DictConfig) :
  head (run_model w config []).1 = Some (SeedEverything (seed config))
  /\ ((run_model w config []).2 = Ok tt ->
      List.filter is_tracking (run_model w config []).1
      = [TrackerStart; Fit; TrackerStop]
      /\ In (SaveEmissions (emissions w)) (run_model w config []).1
      /\ existsb is_test (run_model w config []).1
         = truthy (test_after_training config)
      /\ wandb_logging config
         = Ok (existsb is_finish (run_model w config []).1)).
Proof.
  destruct (truthy (print_config config)) eqn:Hp;
    destruct (truthy (pyprofile config)) eqn:Hy;
    destruct (truthy (test_after_training config)) eqn:Ht;
    destruct (wandb_logging config) as [[]|ex] eqn:Hw;
    unfold run_model; rewrite Hp, Hy, Ht, Hw;
    unfold call, when, pbind, emit, lift, pret; cbn;
    repeat match goal with
           | |- context [answer w ?ev] =>
               destruct (answer w ev) as [[]|] eqn:?; cbn
           end;
    (split; [reflexivity|]);
    intros H; try discriminate H;
    (split; [reflexivity|]);
    (split; [cbn; repeat first [left; reflexivity | right]|]);
    split; reflexivity.
Qed.

Lemma run_model_returns_witness :
  List.filter is_tracking (run_model world_fine config0 []).1
  = [TrackerStart; Fit; TrackerStop]
  /\ existsb is_finish (run_model world_fine config0 []).1 = true.
Proof.
  destruct (run_model_returns world_fine config0) as [_ H].
  destruct (H eq_refl) as (Ht & _ & _ & Hf).
  split; [exact Ht|]. inversion Hf. reflexivity.
Defined.

End RunModel.
